(** * Vision-Narrador: multi-tier LRU cache and priority task scheduler

    Shallow embedding of [cache_lru_multinivel.py] and
    [sistema_paralelizacion_ultraavanzado.py].

    Conventions of the embedding.
    - Python [int] is [Z]; [len(x)] is [Z.of_nat (length x)].
    - [datetime.now()] is an explicit argument [ahora : Z] (microseconds);
      ISO-8601 strings of naive datetimes order as the instants they
      denote, so the string comparisons of the source are integer
      comparisons here.
    - [threading.RLock] sections are atomic steps: every operation is a
      function from state to state.
    - [pickle], [gzip] and [hashlib] are external libraries, and which
      file a path designates is decided by [pathlib] and the operating
      system: they are parameters of the development ([Section]s below).
    - Logging has no effect on the modelled state and is dropped. *)

From Stdlib Require Import ZArith List String Ascii Lia Sorted.
From Stdlib.Strings Require Import Byte.
From stdpp Require Import base gmap strings list fin_maps sorting pretty.
Import ListNotations.
Local Open Scope Z_scope.

(** ** Python values stored in the cache and returned by tasks *)

Inductive objeto : Type :=
  | PyNone
  | PyBool (b : bool)
  | PyInt (z : Z)
  | PyStr (s : string)
  | PyBytes (b : list byte)
  | PyCallable (nombre : string).

Definition es_none (o : objeto) : bool :=
  match o with PyNone => true | _ => false end.

(** [isinstance(valor, bytes)] *)
Definition isinstance_bytes (o : objeto) : option (list byte) :=
  match o with PyBytes b => Some b | _ => None end.

Definition len {A} (l : list A) : Z := Z.of_nat (length l).

(** ** Insertion-ordered dictionaries

    [dict] and [OrderedDict] keep insertion order; the order decides which
    entry [next(iter(d))] and [min(d.keys(), key=...)] pick, so these
    dictionaries are association lists with unique keys. *)

Section Dict.
Context {V : Type}.

Fixpoint dict_get (k : string) (d : list (string * V)) : option V :=
  match d with
  | [] => None
  | (k', v) :: r => if decide (k = k') then Some v else dict_get k r
  end.

(** [del d[k]] / [d.pop(k)] *)
Fixpoint dict_del (k : string) (d : list (string * V)) : list (string * V) :=
  match d with
  | [] => []
  | (k', v) :: r => if decide (k = k') then dict_del k r else (k', v) :: dict_del k r
  end.

(** [d[k] = v]: an existing key keeps its position, a new key goes last. *)
Fixpoint dict_set (k : string) (v : V) (d : list (string * V)) : list (string * V) :=
  match d with
  | [] => [(k, v)]
  | (k', v') :: r => if decide (k = k') then (k, v) :: r else (k', v') :: dict_set k v r
  end.

Definition dict_in (k : string) (d : list (string * V)) : bool :=
  match dict_get k d with Some _ => true | None => false end.

Definition claves (d : list (string * V)) : list string := map fst d.
End Dict.

(** ** Data model of [cache_lru_multinivel.py] *)

Inductive NivelCache := L1_MEMORIA | L2_DISCO | L3_COMPRIMIDO.

Inductive TipoDato := TEXTO | IMAGEN | AUDIO | VIDEO | JSON | BINARIO | ENTIDADES.

(** [tiempo_computacion] is a float number of seconds that no operation
    reads; it is carried as an integer number of milliseconds. *)
Record MetadataCache := {
  clave : string;
  tamano_bytes : Z;
  tipo_dato : TipoDato;
  timestamp_creacion : Z;
  timestamp_acceso : Z;
  frecuencia_acceso : Z;
  nivel_cache : NivelCache;
  comprimido : bool;
  checksum : string;
  tiempo_computacion : Z;
  prioridad : Z
}.

Definition con_acceso (ahora frecuencia : Z) (m : MetadataCache) : MetadataCache :=
  {| clave := clave m; tamano_bytes := tamano_bytes m; tipo_dato := tipo_dato m;
     timestamp_creacion := timestamp_creacion m; timestamp_acceso := ahora;
     frecuencia_acceso := frecuencia; nivel_cache := nivel_cache m;
     comprimido := comprimido m; checksum := checksum m;
     tiempo_computacion := tiempo_computacion m; prioridad := prioridad m |}.

(** The wall-clock fields [tiempo_promedio_acceso] and
    [memoria_utilizada_mb] are floats fed by [time.time()] and [psutil];
    they are not part of the model. *)
Record EstadisticasCache := {
  hits_l1 : Z;
  hits_l2 : Z;
  hits_l3 : Z;
  misses : Z;
  evictions : Z;
  bytes_almacenados : Z
}.

Definition EstadisticasCache_inicial : EstadisticasCache :=
  {| hits_l1 := 0; hits_l2 := 0; hits_l3 := 0; misses := 0; evictions := 0;
     bytes_almacenados := 0 |}.

(** ** [CacheL1Memoria]

    The source keeps two dictionaries, [datos] (an [OrderedDict]) and
    [metadatos], and every method updates both under the same key; they
    are one ordered dictionary from key to (value, metadata) here. *)

Module CacheL1Memoria.

Record t := {
  capacidad_bytes : Z;
  datos : list (string * (objeto * MetadataCache));
  tamano_actual : Z
}.

Definition nuevo (capacidad : Z) : t :=
  {| capacidad_bytes := capacidad; datos := []; tamano_actual := 0 |}.

Definition get (ahora : Z) (k : string) (c : t)
  : option (objeto * MetadataCache) * t :=
  match dict_get k (datos c) with
  | Some (valor, metadata) =>
      let metadata' := con_acceso ahora (frecuencia_acceso metadata + 1) metadata in
      (Some (valor, metadata'),
       {| capacidad_bytes := capacidad_bytes c;
          datos := dict_del k (datos c) ++ [(k, (valor, metadata'))];
          tamano_actual := tamano_actual c |})
  | None => (None, c)
  end.

Definition _evict_lru (c : t) : option string * t :=
  match datos c with
  | [] => (None, c)
  | (clave_lru, (_, metadata)) :: resto =>
      (Some clave_lru,
       {| capacidad_bytes := capacidad_bytes c;
          datos := resto;
          tamano_actual := tamano_actual c - tamano_bytes metadata |})
  end.

(** The [while] loop of [put]; every iteration removes one entry, so
    [length (datos c)] iterations are enough (lemma [bucle_put_fin]). *)
Fixpoint bucle_put (n : nat) (necesario : Z) (c : t) : t :=
  match n with
  | O => c
  | S n' =>
      if (capacidad_bytes c <? tamano_actual c + necesario) && (0 <? len (datos c))
      then bucle_put n' necesario (snd (_evict_lru c))
      else c
  end.

Definition put (k : string) (valor : objeto) (metadata : MetadataCache) (c : t) : t :=
  let c1 :=
    match dict_get k (datos c) with
    | Some (_, viejo) =>
        {| capacidad_bytes := capacidad_bytes c;
           datos := dict_del k (datos c);
           tamano_actual := tamano_actual c - tamano_bytes viejo |}
    | None => c
    end in
  let c2 := bucle_put (length (datos c1)) (tamano_bytes metadata) c1 in
  {| capacidad_bytes := capacidad_bytes c2;
     datos := datos c2 ++ [(k, (valor, metadata))];
     tamano_actual := tamano_actual c2 + tamano_bytes metadata |}.

Definition clear (c : t) : t :=
  {| capacidad_bytes := capacidad_bytes c; datos := []; tamano_actual := 0 |}.

(** A history of calls on one Tier-1 store. *)
Inductive llamada :=
  | Get (ahora : Z) (k : string)
  | Put (k : string) (valor : objeto) (metadata : MetadataCache).

Definition tocada (op : llamada) : string :=
  match op with Get _ k => k | Put k _ _ => k end.

Definition paso (c : t) (op : llamada) : t :=
  match op with
  | Get ahora k => snd (get ahora k c)
  | Put k v m => put k v m c
  end.

Definition ejecutar (ops : list llamada) (c : t) : t := fold_left paso ops c.

(** Position (counted from 1) of the last call of the history that names
    [k]; [acc] (0 at the start) when no call does. *)
Fixpoint ultimo_toque_desde (i acc : nat) (k : string) (ops : list llamada) : nat :=
  match ops with
  | [] => acc
  | op :: r =>
      ultimo_toque_desde (S i) (if decide (tocada op = k) then S i else acc) k r
  end.

Definition ultimo_toque (k : string) (ops : list llamada) : nat :=
  ultimo_toque_desde O O k ops.

Definition suma_tamanos (d : list (string * (objeto * MetadataCache))) : Z :=
  fold_right (fun e acc => tamano_bytes (snd (snd e)) + acc) 0 d.

(** Size accounting and key uniqueness, kept by every method. *)
Definition bien_formado (c : t) : Prop :=
  NoDup (claves (datos c)) /\ tamano_actual c = suma_tamanos (datos c).

(** [l] lists keys from the least to the most recently touched one, and
    every key of [l] is named by some call of the history. *)
Definition por_recencia (ops : list llamada) (l : list string) : Prop :=
  StronglySorted (fun a b => (ultimo_toque a ops < ultimo_toque b ops)%nat) l /\
  Forall (fun a => (1 <= ultimo_toque a ops <= length ops)%nat) l.

End CacheL1Memoria.

(** ** External libraries

    [pickle.dumps] raises on objects it cannot serialise and
    [pickle.loads] / [gzip.decompress] raise on malformed input: the
    failing calls are [None].

    The Tier-2 store reads and writes [self.ruta_cache / f"{clave}.cache"].
    [archivo_de clave] is the file this path designates, [None] when it
    designates none that [open(..., 'wb')] can create: a directory on the
    way is missing (the key "a/b" in a directory without subdirectories),
    or the name is refused (a NUL character). Two keys may designate one
    file (pathlib drops "." segments, so "./a" and "a" do; so do "A" and
    "a" on a file system that ignores case). [en_directorio] tells the
    files that lie directly in [ruta_cache], which are those that
    [ruta_cache.glob("*.cache")] lists, from the files a key such as
    "../a" reaches outside of it. *)

Class Bibliotecas := {
  pickle_dumps : objeto -> option (list byte);
  pickle_loads : list byte -> option objeto;
  gzip_compress : Z -> list byte -> option (list byte);
  gzip_decompress : list byte -> option (list byte);
  sha256_hexdigest : list byte -> string;
  archivo_de : string -> option string;
  en_directorio : string -> bool
}.

(** What the cache relies on: both codecs undo themselves, [bytes]
    objects are always serialisable, and compression of a byte string
    never fails. *)
Class BibliotecasCorrectas (B : Bibliotecas) : Prop := {
  pickle_ida_vuelta : forall o b, pickle_dumps o = Some b -> pickle_loads b = Some o;
  pickle_bytes : forall b, exists s, pickle_dumps (PyBytes b) = Some s;
  gzip_ida_vuelta : forall n d dc, gzip_compress n d = Some dc -> gzip_decompress dc = Some d;
  gzip_total : forall n d, exists dc, gzip_compress n d = Some dc
}.

(** ** [CompresorInteligente]

    [comprimir] also returns a float ratio that its only caller
    discards; the model returns the data alone. *)

Module CompresorInteligente.
Section Compresor.
Context {B : Bibliotecas}.

Definition comprimir (datos : list byte) (tipo : TipoDato) : list byte :=
  let nivel_compresion := match tipo with TEXTO | JSON => 6 | _ => 3 end in
  match gzip_compress nivel_compresion datos with
  | Some datos_comprimidos => datos_comprimidos
  | None => datos
  end.

Definition descomprimir (datos_comprimidos : list byte) : list byte :=
  match gzip_decompress datos_comprimidos with
  | Some datos => datos
  | None => datos_comprimidos
  end.
End Compresor.
End CompresorInteligente.

(** ** [CacheL2Disco]

    [archivos] is the file system as far as the cache reaches it: the
    content of every file that exists, by the name [archivo_de] gives it.
    A new store starts in a new directory, with no file. [metadatos] is
    the JSON index, a [dict] whose values carry the fields of
    [MetadataCache]. *)

Module CacheL2Disco.
Section L2.
Context {B : Bibliotecas}.

Record t := {
  capacidad_bytes : Z;
  metadatos : list (string * MetadataCache);
  archivos : gmap string (list byte)
}.

Definition nuevo (capacidad : Z) : t :=
  {| capacidad_bytes := capacidad; metadatos := []; archivos := ∅ |}.

(** The content of the file of a key: [None] when [archivo.exists()] is
    false. *)
Definition contenido_de (k : string) (c : t) : option (list byte) :=
  match archivo_de k with
  | Some archivo => archivos c !! archivo
  | None => None
  end.

Definition get (ahora : Z) (k : string) (c : t)
  : option (objeto * MetadataCache) * t :=
  match dict_get k (metadatos c) with
  | Some meta_dict =>
      match contenido_de k c with
      | Some contenido =>
          match pickle_loads contenido with
          | Some datos =>
              let metadata := con_acceso ahora (frecuencia_acceso meta_dict + 1) meta_dict in
              (Some (datos, metadata),
               {| capacidad_bytes := capacidad_bytes c;
                  metadatos := dict_set k metadata (metadatos c);
                  archivos := archivos c |})
          | None => (None, c)
          end
      | None => (None, c)
      end
  | None => (None, c)
  end.

(** The sum of [st_size] over [self.ruta_cache.glob("*.cache")]. *)
Definition _calcular_tamano_actual (c : t) : Z :=
  map_fold (fun archivo contenido tamano =>
              if en_directorio archivo then tamano + len contenido else tamano)
           0 (archivos c).

Definition _eliminar_archivo (k : string) (c : t) : t :=
  {| capacidad_bytes := capacidad_bytes c;
     metadatos := dict_del k (metadatos c);
     archivos := match archivo_de k with
                 | Some archivo => delete archivo (archivos c)
                 | None => archivos c
                 end |}.

(** [min(self.metadatos.keys(), key=lambda k: ...["timestamp_acceso"])]:
    the first key, in dictionary order, with the smallest access time. *)
Definition mas_antiguo (d : list (string * MetadataCache)) : option string :=
  match d with
  | [] => None
  | (k0, m0) :: r =>
      Some (fst (fold_left
                   (fun mejor e =>
                      if timestamp_acceso (snd e) <? snd mejor
                      then (fst e, timestamp_acceso (snd e)) else mejor)
                   r (k0, timestamp_acceso m0)))
  end.

(** The [while] loop of [_limpiar_espacio]; every iteration removes one
    key of [metadatos], so [length (metadatos c)] iterations are enough. *)
Fixpoint bucle_limpiar (n : nat) (bytes_necesarios : Z) (c : t) : t :=
  match n with
  | O => c
  | S n' =>
      if (capacidad_bytes c <? _calcular_tamano_actual c + bytes_necesarios)
      then match mas_antiguo (metadatos c) with
           | Some k => bucle_limpiar n' bytes_necesarios (_eliminar_archivo k c)
           | None => c
           end
      else c
  end.

Definition _limpiar_espacio (bytes_necesarios : Z) (c : t) : t :=
  bucle_limpiar (length (metadatos c)) bytes_necesarios c.

(** The whole body runs in [try] and the handler only logs. When
    [open(archivo, 'wb')] raises, room has been made and nothing is
    written: neither a file nor the index. When [pickle.dump] raises,
    [open] has already truncated the file and the index is left as it
    was. *)
Definition put (k : string) (valor : objeto) (metadata : MetadataCache) (c : t) : t :=
  let c1 := _limpiar_espacio (tamano_bytes metadata) c in
  match archivo_de k with
  | None => c1
  | Some archivo =>
      match pickle_dumps valor with
      | Some contenido =>
          {| capacidad_bytes := capacidad_bytes c1;
             metadatos := dict_set k metadata (metadatos c1);
             archivos := <[archivo := contenido]> (archivos c1) |}
      | None =>
          {| capacidad_bytes := capacidad_bytes c1;
             metadatos := metadatos c1;
             archivos := <[archivo := []]> (archivos c1) |}
      end
  end.

(** A key is resident when the index lists it and its file exists. *)
Definition residente (k : string) (c : t) : bool :=
  dict_in k (metadatos c) && bool_decide (is_Some (contenido_de k c)).

(** The file [contenido] of an entry with metadata [m] decodes to [v]: it
    unpickles, and when the entry is marked compressed and the unpickled
    object is a [bytes], that payload decompresses to the pickle of [v]. *)
Definition decodifica (m : MetadataCache) (contenido : list byte) (v : objeto) : Prop :=
  exists guardado,
    pickle_loads contenido = Some guardado /\
    match (if comprimido m then isinstance_bytes guardado else None) with
    | Some b => pickle_loads (CompresorInteligente.descomprimir b) = Some v
    | None => guardado = v
    end.

(** Every indexed key has a file that decodes. *)
Definition integro (c : t) : Prop :=
  forall k m, dict_get k (metadatos c) = Some m ->
    exists contenido v, contenido_de k c = Some contenido /\ decodifica m contenido v.

(** Keys that each have a file of their own: every key of [ks] designates
    a file, and no other key of [ks] designates the same one. *)
Definition sin_alias (ks : list string) : Prop :=
  forall k, k ∈ ks ->
    exists archivo, archivo_de k = Some archivo /\
      forall k', k' ∈ ks -> archivo_de k' = Some archivo -> k' = k.
End L2.
End CacheL2Disco.

(** ** [CacheMultinivel]

    [capacidad_bytes = int(capacidad_mb * 1024 * 1024)] is taken in bytes.
    The float comparisons [t <= capacidad * 0.1] and [t <= capacidad * 0.05]
    are read over the reals: [10 * t <= capacidad], [20 * t <= capacidad]. *)

Module CacheMultinivel.
Section Multinivel.
Context {B : Bibliotecas}.

Record t := {
  habilitar_compresion : bool;
  auto_limpieza : bool;
  cache_l1 : CacheL1Memoria.t;
  cache_l2 : CacheL2Disco.t;
  estadisticas : EstadisticasCache
}.

Definition nuevo (l1_capacidad l2_capacidad : Z) (compresion limpieza : bool) : t :=
  {| habilitar_compresion := compresion;
     auto_limpieza := limpieza;
     cache_l1 := CacheL1Memoria.nuevo l1_capacidad;
     cache_l2 := CacheL2Disco.nuevo l2_capacidad;
     estadisticas := EstadisticasCache_inicial |}.

Definition con_l1 (l1 : CacheL1Memoria.t) (c : t) : t :=
  {| habilitar_compresion := habilitar_compresion c; auto_limpieza := auto_limpieza c;
     cache_l1 := l1; cache_l2 := cache_l2 c; estadisticas := estadisticas c |}.

Definition con_l2 (l2 : CacheL2Disco.t) (c : t) : t :=
  {| habilitar_compresion := habilitar_compresion c; auto_limpieza := auto_limpieza c;
     cache_l1 := cache_l1 c; cache_l2 := l2; estadisticas := estadisticas c |}.

Definition con_estadisticas (e : EstadisticasCache) (c : t) : t :=
  {| habilitar_compresion := habilitar_compresion c; auto_limpieza := auto_limpieza c;
     cache_l1 := cache_l1 c; cache_l2 := cache_l2 c; estadisticas := e |}.

Definition mas_hit_l1 (e : EstadisticasCache) : EstadisticasCache :=
  {| hits_l1 := hits_l1 e + 1; hits_l2 := hits_l2 e; hits_l3 := hits_l3 e;
     misses := misses e; evictions := evictions e;
     bytes_almacenados := bytes_almacenados e |}.

Definition mas_hit_l2 (e : EstadisticasCache) : EstadisticasCache :=
  {| hits_l1 := hits_l1 e; hits_l2 := hits_l2 e + 1; hits_l3 := hits_l3 e;
     misses := misses e; evictions := evictions e;
     bytes_almacenados := bytes_almacenados e |}.

Definition mas_miss (e : EstadisticasCache) : EstadisticasCache :=
  {| hits_l1 := hits_l1 e; hits_l2 := hits_l2 e; hits_l3 := hits_l3 e;
     misses := misses e + 1; evictions := evictions e;
     bytes_almacenados := bytes_almacenados e |}.

Definition mas_eviction (e : EstadisticasCache) : EstadisticasCache :=
  {| hits_l1 := hits_l1 e; hits_l2 := hits_l2 e; hits_l3 := hits_l3 e;
     misses := misses e; evictions := evictions e + 1;
     bytes_almacenados := bytes_almacenados e |}.

Definition mas_bytes (n : Z) (e : EstadisticasCache) : EstadisticasCache :=
  {| hits_l1 := hits_l1 e; hits_l2 := hits_l2 e; hits_l3 := hits_l3 e;
     misses := misses e; evictions := evictions e;
     bytes_almacenados := bytes_almacenados e + n |}.

(** The metadata record built by [put]; the Tier-2 branch then rewrites
    [comprimido], [tamano_bytes] and [nivel_cache]. *)
Definition metadata_de (k : string) (tamano : Z) (tipo : TipoDato) (ahora : Z)
    (nivel : NivelCache) (compr : bool) (suma : string)
    (tiempo prio : Z) : MetadataCache :=
  {| clave := k; tamano_bytes := tamano; tipo_dato := tipo;
     timestamp_creacion := ahora; timestamp_acceso := ahora;
     frecuencia_acceso := 1; nivel_cache := nivel; comprimido := compr;
     checksum := suma; tiempo_computacion := tiempo; prioridad := prio |}.

(** [put] returns [False] only when [pickle.dumps] raises: a Tier-2
    write that failed is not reported, and its size is counted. *)
Definition put (ahora : Z) (k : string) (valor : objeto) (tipo : TipoDato)
    (tiempo prio : Z) (c : t) : bool * t :=
  match pickle_dumps valor with
  | None => (false, c)
  | Some datos_serializados =>
      let tamano_original := len datos_serializados in
      let suma := sha256_hexdigest datos_serializados in
      if 10 * tamano_original <=? CacheL1Memoria.capacidad_bytes (cache_l1 c)
      then
        let metadata :=
          metadata_de k tamano_original tipo ahora L1_MEMORIA false suma tiempo prio in
        (true,
         con_estadisticas (mas_bytes tamano_original (estadisticas c))
           (con_l1 (CacheL1Memoria.put k valor metadata (cache_l1 c)) c))
      else
        let '(valor_a_guardar, metadata) :=
          if habilitar_compresion c
          then
            let datos_comprimidos :=
              CompresorInteligente.comprimir datos_serializados tipo in
            (PyBytes datos_comprimidos,
             metadata_de k (len datos_comprimidos) tipo ahora L2_DISCO true suma tiempo prio)
          else
            (valor,
             metadata_de k tamano_original tipo ahora L2_DISCO false suma tiempo prio) in
        (true,
         con_estadisticas (mas_bytes (tamano_bytes metadata) (estadisticas c))
           (con_l2 (CacheL2Disco.put k valor_a_guardar metadata (cache_l2 c)) c))
  end.

(** [get] returns the Python value; a miss is [None], which a stored
    [None] cannot be told from. When [pickle.loads] raises on the
    decompressed payload the handler counts a miss after the Tier-2 hit
    was counted and the index updated. *)
Definition get (ahora : Z) (k : string) (c : t) : objeto * t :=
  match CacheL1Memoria.get ahora k (cache_l1 c) with
  | (Some (valor, _), l1) =>
      (valor, con_estadisticas (mas_hit_l1 (estadisticas c)) (con_l1 l1 c))
  | (None, _) =>
      match CacheL2Disco.get ahora k (cache_l2 c) with
      | (Some (valor, metadata), l2) =>
          let c1 := con_estadisticas (mas_hit_l2 (estadisticas c)) (con_l2 l2 c) in
          let descomprimido :=
            match (if comprimido metadata then isinstance_bytes valor else None) with
            | Some b => pickle_loads (CompresorInteligente.descomprimir b)
            | None => Some valor
            end in
          match descomprimido with
          | Some valor' =>
              if (20 * tamano_bytes metadata <=? CacheL1Memoria.capacidad_bytes (cache_l1 c1))
                 && (3 <=? frecuencia_acceso metadata)
              then (valor', con_l1 (CacheL1Memoria.put k valor' metadata (cache_l1 c1)) c1)
              else (valor', c1)
          | None =>
              (PyNone, con_estadisticas (mas_miss (estadisticas c1)) c1)
          end
      | (None, _) =>
          (PyNone, con_estadisticas (mas_miss (estadisticas c)) c)
      end
  end.

(** One iteration of the loop of [_limpieza_automatica]. *)
Definition limpiar_uno (c : t) : t :=
  match CacheL1Memoria.datos (cache_l1 c) with
  | [] => c
  | _ :: _ =>
      con_estadisticas (mas_eviction (estadisticas c))
        (con_l1 (snd (CacheL1Memoria._evict_lru (cache_l1 c))) c)
  end.

Definition _limpieza_automatica (c : t) : t :=
  let elementos_a_limpiar := Nat.div (length (CacheL1Memoria.datos (cache_l1 c))) 4 in
  Nat.iter elementos_a_limpiar limpiar_uno c.

(** [limpiar_todo] unlinks the files of [ruta_cache.glob("*.cache")]: a
    file outside the directory stays. *)
Definition limpiar_todo (c : t) : t :=
  {| habilitar_compresion := habilitar_compresion c;
     auto_limpieza := auto_limpieza c;
     cache_l1 := CacheL1Memoria.clear (cache_l1 c);
     cache_l2 := {| CacheL2Disco.capacidad_bytes := CacheL2Disco.capacidad_bytes (cache_l2 c);
                    CacheL2Disco.metadatos := [];
                    CacheL2Disco.archivos :=
                      filter (fun archivo => en_directorio archivo.1 = false)
                             (CacheL2Disco.archivos (cache_l2 c)) |};
     estadisticas := EstadisticasCache_inicial |}.

Definition en_l1 (k : string) (c : t) : bool :=
  dict_in k (CacheL1Memoria.datos (cache_l1 c)).

Definition en_l2 (k : string) (c : t) : bool :=
  CacheL2Disco.residente k (cache_l2 c).

(** The operations a caller or the monitor thread can run on the cache. *)
Inductive operacion :=
  | OpPut (ahora : Z) (k : string) (valor : objeto) (tipo : TipoDato) (tiempo prio : Z)
  | OpGet (ahora : Z) (k : string)
  | OpLimpiezaAutomatica.

Definition aplicar (c : t) (op : operacion) : t :=
  match op with
  | OpPut ahora k v tipo tiempo prio => snd (put ahora k v tipo tiempo prio c)
  | OpGet ahora k => snd (get ahora k c)
  | OpLimpiezaAutomatica => _limpieza_automatica c
  end.

Definition aplicar_todas (ops : list operacion) (c : t) : t := fold_left aplicar ops c.

(** The keys a sequence of operations puts. *)
Definition claves_put (ops : list operacion) : list string :=
  flat_map (fun op => match op with OpPut _ k _ _ _ _ => [k] | _ => [] end) ops.

(** The size [put] records for a value, which is what it adds to
    [bytes_almacenados]: the serialised size of a value that goes to
    Tier-1, or to Tier-2 as it is; the compressed size of a value that
    goes to Tier-2 compressed; nothing when serialisation raises. *)
Definition tamano_registrado (c : t) (valor : objeto) (tipo : TipoDato) : Z :=
  match pickle_dumps valor with
  | None => 0
  | Some datos_serializados =>
      if 10 * len datos_serializados <=? CacheL1Memoria.capacidad_bytes (cache_l1 c)
      then len datos_serializados
      else if habilitar_compresion c
           then len (CompresorInteligente.comprimir datos_serializados tipo)
           else len datos_serializados
  end.

Definition bytes_de (c : t) (op : operacion) : Z :=
  match op with
  | OpPut _ _ valor tipo _ _ => tamano_registrado c valor tipo
  | _ => 0
  end.

(** Tier exclusivity: no key is resident in both tiers. *)
Definition exclusivo (c : t) : Prop :=
  forall k, ~ (en_l1 k c = true /\ en_l2 k c = true).
End Multinivel.
End CacheMultinivel.

(** ** Data model of [sistema_paralelizacion_ultraavanzado.py] *)

Inductive PrioridadTarea := BAJA | NORMAL | ALTA | CRITICA.

Inductive EstadoTarea :=
  PENDIENTE | EN_COLA | EN_PROCESO | COMPLETADA | FALLIDA | CANCELADA.

Inductive TipoWorker := CPU_INTENSIVO | IO_INTENSIVO | MEMORIA_INTENSIVO | GENERAL.

#[global] Instance PrioridadTarea_eq_dec : EqDecision PrioridadTarea.
Proof. solve_decision. Defined.

#[global] Instance EstadoTarea_eq_dec : EqDecision EstadoTarea.
Proof. solve_decision. Defined.


(** What [future.result(timeout=...)] yields for a work function: its
    return value, or the exception it raised ([TimeoutError] included). *)
Inductive desenlace :=
  | Retorna (o : objeto)
  | Lanza (mensaje : string).

Definition Callable : Type := list objeto -> list (string * objeto) -> desenlace.

(** [timeout] is a float number of seconds, carried in milliseconds.
    [resultado] is [Optional[Any]]: [None] is [PyNone]. *)
Module TareaParalelizacion.
Record t := {
  id : string;
  funcion : Callable;
  args : list objeto;
  kwargs : list (string * objeto);
  prioridad : PrioridadTarea;
  tipo_worker : TipoWorker;
  timeout : Z;
  retries : Z;
  dependencias : list string;
  metadata : list (string * objeto);
  timestamp_creacion : Z;
  timestamp_inicio : option Z;
  timestamp_finalizacion : option Z;
  estado : EstadoTarea;
  resultado : objeto;
  error : option string
}.

Definition con_estado (e : EstadoTarea) (x : t) : t :=
  {| id := id x; funcion := funcion x; args := args x; kwargs := kwargs x;
     prioridad := prioridad x; tipo_worker := tipo_worker x; timeout := timeout x;
     retries := retries x; dependencias := dependencias x; metadata := metadata x;
     timestamp_creacion := timestamp_creacion x;
     timestamp_inicio := timestamp_inicio x;
     timestamp_finalizacion := timestamp_finalizacion x;
     estado := e; resultado := resultado x; error := error x |}.

Definition con_inicio (ahora : Z) (x : t) : t :=
  {| id := id x; funcion := funcion x; args := args x; kwargs := kwargs x;
     prioridad := prioridad x; tipo_worker := tipo_worker x; timeout := timeout x;
     retries := retries x; dependencias := dependencias x; metadata := metadata x;
     timestamp_creacion := timestamp_creacion x;
     timestamp_inicio := Some ahora;
     timestamp_finalizacion := timestamp_finalizacion x;
     estado := estado x; resultado := resultado x; error := error x |}.

Definition con_finalizacion (ahora : Z) (x : t) : t :=
  {| id := id x; funcion := funcion x; args := args x; kwargs := kwargs x;
     prioridad := prioridad x; tipo_worker := tipo_worker x; timeout := timeout x;
     retries := retries x; dependencias := dependencias x; metadata := metadata x;
     timestamp_creacion := timestamp_creacion x;
     timestamp_inicio := timestamp_inicio x;
     timestamp_finalizacion := Some ahora;
     estado := estado x; resultado := resultado x; error := error x |}.

Definition con_resultado (o : objeto) (x : t) : t :=
  {| id := id x; funcion := funcion x; args := args x; kwargs := kwargs x;
     prioridad := prioridad x; tipo_worker := tipo_worker x; timeout := timeout x;
     retries := retries x; dependencias := dependencias x; metadata := metadata x;
     timestamp_creacion := timestamp_creacion x;
     timestamp_inicio := timestamp_inicio x;
     timestamp_finalizacion := timestamp_finalizacion x;
     estado := estado x; resultado := o; error := error x |}.

Definition con_error (e : string) (x : t) : t :=
  {| id := id x; funcion := funcion x; args := args x; kwargs := kwargs x;
     prioridad := prioridad x; tipo_worker := tipo_worker x; timeout := timeout x;
     retries := retries x; dependencias := dependencias x; metadata := metadata x;
     timestamp_creacion := timestamp_creacion x;
     timestamp_inicio := timestamp_inicio x;
     timestamp_finalizacion := timestamp_finalizacion x;
     estado := estado x; resultado := resultado x; error := Some e |}.
End TareaParalelizacion.

(** ** [queue.PriorityQueue]

    A priority queue of [(float, str)] tuples: [get] removes the smallest
    tuple in Python's lexicographic tuple order. The queue is kept as a
    list sorted in that order. *)

Module PriorityQueue.
Definition elemento : Type := Z * string.

Definition menor (a b : elemento) : bool :=
  (fst a <? fst b) || ((fst a =? fst b) && String.ltb (snd a) (snd b)).

Fixpoint put (x : elemento) (q : list elemento) : list elemento :=
  match q with
  | [] => [x]
  | y :: r => if menor x y then x :: y :: r else y :: put x r
  end.

Definition get (q : list elemento) : option (elemento * list elemento) :=
  match q with
  | [] => None
  | x :: r => Some (x, r)
  end.

Definition empty (q : list elemento) : bool :=
  match q with [] => true | _ => false end.
End PriorityQueue.

(** ** [QueueInteligente]

    [tareas] maps a task id to the task object; the objects are shared
    with the scheduler, so mutating a task is updating this map. *)

Module QueueInteligente.

Record colas := {
  cola_baja : list PriorityQueue.elemento;
  cola_normal : list PriorityQueue.elemento;
  cola_alta : list PriorityQueue.elemento;
  cola_critica : list PriorityQueue.elemento
}.

Definition cola_de (p : PrioridadTarea) (cs : colas) : list PriorityQueue.elemento :=
  match p with
  | BAJA => cola_baja cs
  | NORMAL => cola_normal cs
  | ALTA => cola_alta cs
  | CRITICA => cola_critica cs
  end.

Definition con_cola (p : PrioridadTarea) (q : list PriorityQueue.elemento) (cs : colas)
  : colas :=
  match p with
  | BAJA => {| cola_baja := q; cola_normal := cola_normal cs;
               cola_alta := cola_alta cs; cola_critica := cola_critica cs |}
  | NORMAL => {| cola_baja := cola_baja cs; cola_normal := q;
                 cola_alta := cola_alta cs; cola_critica := cola_critica cs |}
  | ALTA => {| cola_baja := cola_baja cs; cola_normal := cola_normal cs;
               cola_alta := q; cola_critica := cola_critica cs |}
  | CRITICA => {| cola_baja := cola_baja cs; cola_normal := cola_normal cs;
                  cola_alta := cola_alta cs; cola_critica := q |}
  end.

Record t := {
  max_size : Z;
  tareas : gmap string TareaParalelizacion.t;
  cola_prioridad : colas
}.

Definition nuevo (max : Z) : t :=
  {| max_size := max; tareas := ∅;
     cola_prioridad := {| cola_baja := []; cola_normal := [];
                          cola_alta := []; cola_critica := [] |} |}.

Definition agregar_tarea (tarea : TareaParalelizacion.t) (q : t) : bool * t :=
  if (0 <? max_size q) && (max_size q <=? Z.of_nat (size (tareas q)))
  then (false, q)
  else
    let timestamp_negativo := - TareaParalelizacion.timestamp_creacion tarea in
    let p := TareaParalelizacion.prioridad tarea in
    (true,
     {| max_size := max_size q;
        tareas := <[TareaParalelizacion.id tarea :=
                      TareaParalelizacion.con_estado EN_COLA tarea]> (tareas q);
        cola_prioridad :=
          con_cola p
            (PriorityQueue.put (timestamp_negativo, TareaParalelizacion.id tarea)
               (cola_de p (cola_prioridad q)))
            (cola_prioridad q) |}).

(** The [for] loop of [obtener_tarea] over the priorities still to scan. *)
Fixpoint obtener_en (ps : list PrioridadTarea) (ahora : Z) (q : t)
  : option TareaParalelizacion.t * t :=
  match ps with
  | [] => (None, q)
  | p :: resto =>
      match PriorityQueue.get (cola_de p (cola_prioridad q)) with
      | None => obtener_en resto ahora q
      | Some ((_, tarea_id), cola') =>
          let q1 := {| max_size := max_size q; tareas := tareas q;
                       cola_prioridad := con_cola p cola' (cola_prioridad q) |} in
          match tareas q1 !! tarea_id with
          | Some tarea =>
              let tarea' :=
                TareaParalelizacion.con_inicio ahora
                  (TareaParalelizacion.con_estado EN_PROCESO tarea) in
              (Some tarea',
               {| max_size := max_size q1;
                  tareas := <[tarea_id := tarea']> (tareas q1);
                  cola_prioridad := cola_prioridad q1 |})
          | None => obtener_en resto ahora q1
          end
      end
  end.

Definition obtener_tarea (ahora : Z) (q : t) : option TareaParalelizacion.t * t :=
  obtener_en [CRITICA; ALTA; NORMAL; BAJA] ahora q.

Definition cancelar_tarea (ahora : Z) (tarea_id : string) (q : t) : bool * t :=
  match tareas q !! tarea_id with
  | Some tarea =>
      (true,
       {| max_size := max_size q;
          tareas := <[tarea_id :=
                        TareaParalelizacion.con_finalizacion ahora
                          (TareaParalelizacion.con_estado CANCELADA tarea)]> (tareas q);
          cola_prioridad := cola_prioridad q |})
  | None => (false, q)
  end.

Definition obtener_tarea_por_id (tarea_id : string) (q : t)
  : option TareaParalelizacion.t :=
  tareas q !! tarea_id.

Definition estado_de (tarea_id : string) (q : t) : option EstadoTarea :=
  TareaParalelizacion.estado <$> tareas q !! tarea_id.


End QueueInteligente.

(** ** [SistemaParalelizacionUltraAvanzado]

    The model keeps the cache, the queue and the integer counters of
    [MetricasSistema]. The worker pool and the load balancer only choose
    and account for the execution slot; they touch neither the cache nor
    the task table and are left out. [ejecutadas] is a ghost trace: the id
    of every task whose work function [executor.submit] has run. *)

Module SistemaParalelizacion.
Section Sistema.
Context {B : Bibliotecas}.

Record ConfiguracionParalelizacion := {
  max_workers : Z;
  min_workers : Z;
  timeout_tarea : Z;
  max_retries : Z;
  tamano_maximo_cola : Z;
  habilitar_autoscaling : bool
}.

Record MetricasSistema := {
  tareas_totales : Z;
  tareas_pendientes : Z;
  tareas_en_proceso : Z;
  tareas_completadas : Z;
  tareas_fallidas : Z
}.

Record t := {
  config : ConfiguracionParalelizacion;
  cache : CacheMultinivel.t;
  queue_inteligente : QueueInteligente.t;
  metricas_sistema : MetricasSistema;
  ejecutadas : list string
}.

Definition nuevo (cfg : ConfiguracionParalelizacion) (c : CacheMultinivel.t) : t :=
  {| config := cfg; cache := c;
     queue_inteligente := QueueInteligente.nuevo (tamano_maximo_cola cfg);
     metricas_sistema := {| tareas_totales := 0; tareas_pendientes := 0;
                            tareas_en_proceso := 0; tareas_completadas := 0;
                            tareas_fallidas := 0 |};
     ejecutadas := [] |}.

Definition con_cache (c : CacheMultinivel.t) (s : t) : t :=
  {| config := config s; cache := c; queue_inteligente := queue_inteligente s;
     metricas_sistema := metricas_sistema s; ejecutadas := ejecutadas s |}.

(** Python's [x or d] on an optional number. *)
Definition o_bien (x : option Z) (d : Z) : Z :=
  match x with
  | Some v => if v =? 0 then d else v
  | None => d
  end.

Definition cache_key (tarea_id : string) : string :=
  "tarea_" +:+ tarea_id +:+ "_resultado".

(** The id a call of [submit_tarea] mints for its task, from the clock,
    [reloj_us = int(time.time() * 1000000)], and from
    [h = hash(str(funcion) + str(args) + str(kwargs))], a number that is
    the same for the same function object and arguments within a process. *)
Definition generar_tarea_id (reloj_us h : Z) : string :=
  "tarea_" +:+ pretty reloj_us +:+ "_" +:+ pretty (h mod 10000).

(** The body of [submit_tarea] once the id is minted: [tarea_id] is
    the id of [generar_tarea_id]. The enum arguments are already enum
    members. The result is the returned id ([None] when the call
    raises), the task object the call built, and the new state. *)
Definition submit_tarea (ahora : Z) (tarea_id : string) (f : Callable)
    (argumentos : list objeto) (p : PrioridadTarea) (w : TipoWorker)
    (timeout_opt retries_opt : option Z) (deps : list string)
    (meta : list (string * objeto)) (kw : list (string * objeto)) (s : t)
  : option string * TareaParalelizacion.t * t :=
  let tarea :=
    {| TareaParalelizacion.id := tarea_id;
       TareaParalelizacion.funcion := f;
       TareaParalelizacion.args := argumentos;
       TareaParalelizacion.kwargs := kw;
       TareaParalelizacion.prioridad := p;
       TareaParalelizacion.tipo_worker := w;
       TareaParalelizacion.timeout := o_bien timeout_opt (timeout_tarea (config s));
       TareaParalelizacion.retries := o_bien retries_opt (max_retries (config s));
       TareaParalelizacion.dependencias := deps;
       TareaParalelizacion.metadata := meta;
       TareaParalelizacion.timestamp_creacion := ahora;
       TareaParalelizacion.timestamp_inicio := None;
       TareaParalelizacion.timestamp_finalizacion := None;
       TareaParalelizacion.estado := PENDIENTE;
       TareaParalelizacion.resultado := PyNone;
       TareaParalelizacion.error := None |} in
  let '(resultado_cached, c) := CacheMultinivel.get ahora (cache_key tarea_id) (cache s) in
  let s1 := con_cache c s in
  if negb (es_none resultado_cached)
  then
    (Some tarea_id,
     TareaParalelizacion.con_finalizacion ahora
       (TareaParalelizacion.con_resultado resultado_cached
          (TareaParalelizacion.con_estado COMPLETADA tarea)),
     s1)
  else
    match QueueInteligente.agregar_tarea tarea (queue_inteligente s1) with
    | (true, q) =>
        (Some tarea_id,
         TareaParalelizacion.con_estado EN_COLA tarea,
         {| config := config s1; cache := cache s1; queue_inteligente := q;
            metricas_sistema :=
              {| tareas_totales := tareas_totales (metricas_sistema s1) + 1;
                 tareas_pendientes := tareas_pendientes (metricas_sistema s1) + 1;
                 tareas_en_proceso := tareas_en_proceso (metricas_sistema s1);
                 tareas_completadas := tareas_completadas (metricas_sistema s1);
                 tareas_fallidas := tareas_fallidas (metricas_sistema s1) |};
            ejecutadas := ejecutadas s1 |})
    | (false, _) => (None, tarea, s1)
    end.

(** A call of [submit_tarea] as a caller makes it: the caller gives the
    function and the arguments, the id comes from the clock. *)
Definition submit_tarea_con_reloj (reloj_us h ahora : Z) (f : Callable)
    (argumentos : list objeto) (p : PrioridadTarea) (w : TipoWorker)
    (timeout_opt retries_opt : option Z) (deps : list string)
    (meta : list (string * objeto)) (kw : list (string * objeto)) (s : t)
  : option string * TareaParalelizacion.t * t :=
  submit_tarea ahora (generar_tarea_id reloj_us h) f argumentos p w
    timeout_opt retries_opt deps meta kw s.

(** The task object is the one the queue holds under its id (it was
    handed over by [obtener_tarea]): its mutation is an update of the
    task table. The cached computation cost is the literal [0.1] s. *)
Definition _procesar_tarea_en_worker (ahora : Z) (tarea : TareaParalelizacion.t)
    (worker_id : string) (s : t) : t :=
  let tid := TareaParalelizacion.id tarea in
  let q := queue_inteligente s in
  let m := metricas_sistema s in
  match TareaParalelizacion.funcion tarea
          (TareaParalelizacion.args tarea) (TareaParalelizacion.kwargs tarea) with
  | Retorna resultado =>
      let c := snd (CacheMultinivel.put ahora (cache_key tid) resultado JSON 100 5 (cache s)) in
      let final x :=
        TareaParalelizacion.con_resultado resultado
          (TareaParalelizacion.con_estado COMPLETADA
             (TareaParalelizacion.con_finalizacion ahora x)) in
      {| config := config s; cache := c;
         queue_inteligente :=
           {| QueueInteligente.max_size := QueueInteligente.max_size q;
              QueueInteligente.tareas := alter final tid (QueueInteligente.tareas q);
              QueueInteligente.cola_prioridad := QueueInteligente.cola_prioridad q |};
         metricas_sistema :=
           {| tareas_totales := tareas_totales m;
              tareas_pendientes := tareas_pendientes m - 1;
              tareas_en_proceso := tareas_en_proceso m;
              tareas_completadas := tareas_completadas m + 1;
              tareas_fallidas := tareas_fallidas m |};
         ejecutadas := ejecutadas s ++ [tid] |}
  | Lanza mensaje =>
      let final x :=
        TareaParalelizacion.con_error mensaje
          (TareaParalelizacion.con_estado FALLIDA
             (TareaParalelizacion.con_finalizacion ahora x)) in
      {| config := config s; cache := cache s;
         queue_inteligente :=
           {| QueueInteligente.max_size := QueueInteligente.max_size q;
              QueueInteligente.tareas := alter final tid (QueueInteligente.tareas q);
              QueueInteligente.cola_prioridad := QueueInteligente.cola_prioridad q |};
         metricas_sistema :=
           {| tareas_totales := tareas_totales m;
              tareas_pendientes := tareas_pendientes m - 1;
              tareas_en_proceso := tareas_en_proceso m;
              tareas_completadas := tareas_completadas m;
              tareas_fallidas := tareas_fallidas m + 1 |};
         ejecutadas := ejecutadas s ++ [tid] |}
  end.

(** One dispatch of the control loop with a worker at hand: dequeue the
    next task and run it. *)
Definition despachar (ahora : Z) (worker_id : string) (s : t) : t :=
  match QueueInteligente.obtener_tarea ahora (queue_inteligente s) with
  | (Some tarea, q) =>
      _procesar_tarea_en_worker ahora tarea worker_id
        {| config := config s; cache := cache s; queue_inteligente := q;
           metricas_sistema := metricas_sistema s; ejecutadas := ejecutadas s |}
  | (None, q) =>
      {| config := config s; cache := cache s; queue_inteligente := q;
         metricas_sistema := metricas_sistema s; ejecutadas := ejecutadas s |}
  end.
End Sistema.
End SistemaParalelizacion.

(** ** A reference instance of the external libraries

    A small self-inverse serialiser, a store-only compressor and a flat
    cache directory, used to evaluate the model on concrete inputs. *)

Module Modelo.

Fixpoint cod_pos (p : positive) : list byte :=
  match p with
  | xH => []
  | xO q => x00 :: cod_pos q
  | xI q => x01 :: cod_pos q
  end.

Fixpoint dec_pos (l : list byte) : option positive :=
  match l with
  | [] => Some xH
  | x00 :: r => match dec_pos r with Some q => Some (xO q) | None => None end
  | x01 :: r => match dec_pos r with Some q => Some (xI q) | None => None end
  | _ => None
  end.

Definition dumps (o : objeto) : option (list byte) :=
  match o with
  | PyNone => Some [x4e]
  | PyBool true => Some [x54]
  | PyBool false => Some [x46]
  | PyInt Z0 => Some [x30]
  | PyInt (Zpos p) => Some (x2b :: cod_pos p)
  | PyInt (Zneg p) => Some (x2d :: cod_pos p)
  | PyStr s => Some (x53 :: list_byte_of_string s)
  | PyBytes b => Some (x42 :: b)
  | PyCallable _ => None
  end.

Definition loads (l : list byte) : option objeto :=
  match l with
  | [x4e] => Some PyNone
  | [x54] => Some (PyBool true)
  | [x46] => Some (PyBool false)
  | [x30] => Some (PyInt 0)
  | x2b :: r => match dec_pos r with Some p => Some (PyInt (Zpos p)) | None => None end
  | x2d :: r => match dec_pos r with Some p => Some (PyInt (Zneg p)) | None => None end
  | x53 :: r => Some (PyStr (string_of_list_byte r))
  | x42 :: r => Some (PyBytes r)
  | _ => None
  end.

(** The compressor drops the run of zero bytes that ends the data and
    writes its length in front: magic number, length in binary digits,
    a separator, then the rest. *)
Fixpoint quitar_ceros (d : list byte) : list byte * nat :=
match d with
| [] => ([], O)
| b :: r =>
    let '(p, n) := quitar_ceros r in
    match p with
    | [] => if Byte.eqb b x00 then ([], S n) else ([b], n)
    | _ :: _ => (b :: p, n)
    end
end.

Fixpoint leer_pos (l : list byte) : option (positive * list byte) :=
match l with
| x02 :: r => Some (xH, r)
| x00 :: r => match leer_pos r with Some (q, s) => Some (xO q, s) | None => None end
| x01 :: r => match leer_pos r with Some (q, s) => Some (xI q, s) | None => None end
| _ => None
end.

Definition compress (nivel : Z) (d : list byte) : option (list byte) :=
let '(p, n) := quitar_ceros d in
Some (x1f :: x8b :: cod_pos (Pos.of_succ_nat n) ++ x02 :: p).

Definition decompress (d : list byte) : option (list byte) :=
match d with
| x1f :: x8b :: r =>
    match leer_pos r with
    | Some (q, p) => Some (p ++ repeat x00 (Nat.pred (Pos.to_nat q)))
    | None => None
    end
| _ => None
end.

(** The file system of the examples: a cache directory without
    subdirectories, in which only files of the directory itself can be
    created. The key and ".cache" are joined to the directory, the path
    is split at "/" and its empty and "." segments are dropped, as
    [pathlib] does; what is left has to be one file name. An absolute
    key, a key through a subdirectory or through ".." and a key with a
    NUL character designate no file. *)
Fixpoint segmentos_desde (actual ruta : string) : list string :=
match ruta with
| EmptyString => [actual]
| String c r =>
    if Ascii.eqb c "/"
    then actual :: segmentos_desde EmptyString r
    else segmentos_desde (actual +:+ String c EmptyString) r
end.

Definition segmentos (ruta : string) : list string := segmentos_desde EmptyString ruta.

Definition es_absoluta (ruta : string) : bool :=
match ruta with
| String c _ => Ascii.eqb c "/"
| EmptyString => false
end.

Definition nombre_archivo (k : string) : option string :=
let ruta := (k +:+ ".cache")%string in
if existsb (Ascii.eqb "000") (list_ascii_of_string k) || es_absoluta ruta
then None
else match List.filter (fun s => negb (String.eqb s "" || String.eqb s "."))
                       (segmentos ruta) with
     | [nombre] => Some nombre
     | _ => None
     end.

Definition bibliotecas : Bibliotecas :=
  {| pickle_dumps := dumps; pickle_loads := loads;
     gzip_compress := compress; gzip_decompress := decompress;
     sha256_hexdigest := fun _ => ""%string;
     archivo_de := nombre_archivo;
     en_directorio := fun _ => true |}.

(** A [bytes] value whose serialisation is [n + 1] bytes long. *)
Definition bloque (n : positive) : objeto := PyBytes (Pos.iter (cons x00) [] n).

End Modelo.

(** ** Histories of a Tier-1 store with every method

    [CacheL1Memoria.llamada] has the two calls of the public path; the
    monitor thread also calls [_evict_lru] and [limpiar_todo] calls
    [clear]. *)

Module HistoriaL1.
Inductive llamada :=
  | Get (ahora : Z) (k : string)
  | Put (k : string) (valor : objeto) (metadata : MetadataCache)
  | EvictLru
  | Clear.

Definition paso (c : CacheL1Memoria.t) (op : llamada) : CacheL1Memoria.t :=
  match op with
  | Get ahora k => snd (CacheL1Memoria.get ahora k c)
  | Put k v m => CacheL1Memoria.put k v m c
  | EvictLru => snd (CacheL1Memoria._evict_lru c)
  | Clear => CacheL1Memoria.clear c
  end.

Definition ejecutar (ops : list llamada) (c : CacheL1Memoria.t) : CacheL1Memoria.t :=
  fold_left paso ops c.

(** The size recorded by a call that stores an entry lies in [0, cap]. *)
Definition entrada_cabe (cap : Z) (op : llamada) : Prop :=
  match op with
  | Put _ _ m => 0 <= tamano_bytes m <= cap
  | _ => True
  end.

(** Every resident entry records a size that is not negative. *)
Definition no_negativos (d : list (string * (objeto * MetadataCache))) : Prop :=
  Forall (fun e => 0 <= tamano_bytes (snd (snd e))) d.

(** The three facts the capacity bound needs, kept by every method. *)
Definition acotado (c : CacheL1Memoria.t) : Prop :=
  CacheL1Memoria.bien_formado c /\ no_negativos (CacheL1Memoria.datos c) /\
  CacheL1Memoria.tamano_actual c <= CacheL1Memoria.capacidad_bytes c.
End HistoriaL1.

(** [EstadisticasCache.total_hits] *)
Definition total_hits (e : EstadisticasCache) : Z := hits_l1 e + hits_l2 e + hits_l3 e.

(** ** [MonitorMemoria] and one iteration of [_monitor_continuo]

    [psutil.virtual_memory().percent] is a percentage with one decimal
    (0.0 when [psutil] raises); it is an input, in tenths of a percent, so
    that [umbral_alto = 75.0] is 750. The iteration also refreshes
    [memoria_utilizada_mb], which is not part of the model. *)

Module MonitorMemoria.
Definition umbral_critico : Z := 900.
Definition umbral_alto : Z := 750.

Definition predecir_necesidad_limpieza (uso_memoria : Z) : bool :=
  umbral_alto <=? uso_memoria.
End MonitorMemoria.

Definition iteracion_monitor (uso_memoria : Z) (c : CacheMultinivel.t)
  : CacheMultinivel.t :=
  if CacheMultinivel.auto_limpieza c && MonitorMemoria.predecir_necesidad_limpieza uso_memoria
  then CacheMultinivel._limpieza_automatica c
  else c.

(** ** Histories and statistics of the queue *)

(** The number each priority has in the enumeration. *)
Definition valor_prioridad (p : PrioridadTarea) : Z :=
  match p with BAJA => 1 | NORMAL => 2 | ALTA => 3 | CRITICA => 4 end.

Module HistoriaCola.
Inductive llamada :=
  | Agregar (tarea : TareaParalelizacion.t)
  | Obtener (ahora : Z)
  | Cancelar (ahora : Z) (tarea_id : string).

Definition paso (q : QueueInteligente.t) (op : llamada) : QueueInteligente.t :=
  match op with
  | Agregar tarea => snd (QueueInteligente.agregar_tarea tarea q)
  | Obtener ahora => snd (QueueInteligente.obtener_tarea ahora q)
  | Cancelar ahora tarea_id => snd (QueueInteligente.cancelar_tarea ahora tarea_id q)
  end.

Definition ejecutar (ops : list llamada) (q : QueueInteligente.t) : QueueInteligente.t :=
  fold_left paso ops q.



(** Every entry of a bucket names a task of the table, stored under its
    own id, and no stored task is PENDIENTE. *)
Definition coherente (q : QueueInteligente.t) : Prop :=
  (forall p e, e ∈ QueueInteligente.cola_de p (QueueInteligente.cola_prioridad q) ->
     is_Some (QueueInteligente.tareas q !! snd e)) /\
  (forall k t, QueueInteligente.tareas q !! k = Some t ->
     TareaParalelizacion.id t = k /\ TareaParalelizacion.estado t <> PENDIENTE).

(** Two queues that differ at most in fields of their tasks other than
    the id. *)
Definition mismas_colas (q q' : QueueInteligente.t) : Prop :=
  QueueInteligente.max_size q' = QueueInteligente.max_size q /\
  QueueInteligente.cola_prioridad q' = QueueInteligente.cola_prioridad q /\
  forall k, TareaParalelizacion.id <$> QueueInteligente.tareas q' !! k =
            TareaParalelizacion.id <$> QueueInteligente.tareas q !! k.
End HistoriaCola.

(** ** [WorkerPoolDinamico]

    [workers] maps a worker id to its record, of which only the type
    varies; [workers_disponibles] holds one list of idle ids per type.
    The float metrics of [metricas_workers] are not part of the model.
    A worker id is [f"worker_{indice}_{int(time.time() * 1000)}"]; the
    clock reading taken when the worker of a given index is created is the
    input [reloj]. *)

Module WorkerPoolDinamico.
Record disponibles := {
  cpu_intensivo : list string;
  io_intensivo : list string;
  memoria_intensivo : list string;
  general : list string
}.

Definition de_tipo (w : TipoWorker) (d : disponibles) : list string :=
  match w with
  | CPU_INTENSIVO => cpu_intensivo d
  | IO_INTENSIVO => io_intensivo d
  | MEMORIA_INTENSIVO => memoria_intensivo d
  | GENERAL => general d
  end.

Definition con_tipo (w : TipoWorker) (l : list string) (d : disponibles) : disponibles :=
  match w with
  | CPU_INTENSIVO => {| cpu_intensivo := l; io_intensivo := io_intensivo d;
                        memoria_intensivo := memoria_intensivo d; general := general d |}
  | IO_INTENSIVO => {| cpu_intensivo := cpu_intensivo d; io_intensivo := l;
                       memoria_intensivo := memoria_intensivo d; general := general d |}
  | MEMORIA_INTENSIVO => {| cpu_intensivo := cpu_intensivo d; io_intensivo := io_intensivo d;
                            memoria_intensivo := l; general := general d |}
  | GENERAL => {| cpu_intensivo := cpu_intensivo d; io_intensivo := io_intensivo d;
                  memoria_intensivo := memoria_intensivo d; general := l |}
  end.

Record t := {
  max_workers : Z;
  min_workers : Z;
  habilitar_autoscaling : bool;
  workers : list (string * TipoWorker);
  workers_disponibles : disponibles
}.

Definition nombre_worker (indice ms : Z) : string :=
  "worker_" +:+ pretty indice +:+ "_" +:+ pretty ms.

Definition con_worker (worker_id : string) (tipo : TipoWorker) (pool : t) : t :=
  {| max_workers := max_workers pool; min_workers := min_workers pool;
     habilitar_autoscaling := habilitar_autoscaling pool;
     workers := dict_set worker_id tipo (workers pool);
     workers_disponibles :=
       con_tipo tipo (de_tipo tipo (workers_disponibles pool) ++ [worker_id])
         (workers_disponibles pool) |}.

Definition con_disponibles (d : disponibles) (pool : t) : t :=
  {| max_workers := max_workers pool; min_workers := min_workers pool;
     habilitar_autoscaling := habilitar_autoscaling pool;
     workers := workers pool; workers_disponibles := d |}.

(** The loop of [_inicializar_workers_minimos] for the indices [i, i+n). *)
Fixpoint inicializar_desde (reloj : Z -> Z) (i : Z) (n : nat) (pool : t) : t :=
  match n with
  | O => pool
  | S n' =>
      inicializar_desde reloj (i + 1) n'
        (con_worker (nombre_worker i (reloj i)) GENERAL pool)
  end.

Definition nuevo (reloj : Z -> Z) (maximo minimo : Z) (autoscaling : bool) : t :=
  inicializar_desde reloj 0 (Z.to_nat minimo)
    {| max_workers := maximo; min_workers := minimo;
       habilitar_autoscaling := autoscaling; workers := [];
       workers_disponibles := {| cpu_intensivo := []; io_intensivo := [];
                                 memoria_intensivo := []; general := [] |} |}.

Definition _crear_nuevo_worker (reloj : Z -> Z) (tipo : TipoWorker) (pool : t)
  : option string * t :=
  if max_workers pool <=? len (workers pool)
  then (None, pool)
  else
    let worker_id := nombre_worker (len (workers pool)) (reloj (len (workers pool))) in
    (Some worker_id, con_worker worker_id tipo pool).

Definition obtener_worker_disponible (reloj : Z -> Z) (tipo_requerido : TipoWorker) (pool : t)
  : option string * t :=
  match de_tipo tipo_requerido (workers_disponibles pool) with
  | w :: resto =>
      (Some w, con_disponibles (con_tipo tipo_requerido resto (workers_disponibles pool)) pool)
  | [] =>
      match general (workers_disponibles pool) with
      | w :: resto =>
          (Some w, con_disponibles (con_tipo GENERAL resto (workers_disponibles pool)) pool)
      | [] =>
          if len (workers pool) <? max_workers pool
          then _crear_nuevo_worker reloj tipo_requerido pool
          else (None, pool)
      end
  end.

Definition liberar_worker (worker_id : string) (tipo : TipoWorker) (pool : t) : t :=
  if dict_in worker_id (workers pool)
  then con_disponibles
         (con_tipo tipo (de_tipo tipo (workers_disponibles pool) ++ [worker_id])
            (workers_disponibles pool)) pool
  else pool.

(** The [for] loop of [escalar_workers]. *)
Fixpoint crear_varios (reloj : Z -> Z) (n : nat) (pool : t) : t :=
  match n with
  | O => pool
  | S n' => crear_varios reloj n' (snd (_crear_nuevo_worker reloj GENERAL pool))
  end.

(** The second branch of [escalar_workers] (scale down) is [pass]. *)
Definition escalar_workers (reloj : Z -> Z) (carga_actual : Z) (pool : t) : Z * t :=
  if negb (habilitar_autoscaling pool)
  then (0, pool)
  else if (len (workers pool) * 2 <? carga_actual)
          && (len (workers pool) <? max_workers pool)
  then
    let workers_necesarios :=
      Z.min (carga_actual / 2) (max_workers pool - len (workers pool)) in
    (Z.of_nat (Z.to_nat workers_necesarios),
     crear_varios reloj (Z.to_nat workers_necesarios) pool)
  else (0, pool).

(** The calls that change a pool. *)
Inductive llamada :=
  | Obtener (tipo : TipoWorker)
  | Liberar (worker_id : string) (tipo : TipoWorker)
  | Crear (tipo : TipoWorker)
  | Escalar (carga : Z).

Definition paso (reloj : Z -> Z) (pool : t) (op : llamada) : t :=
  match op with
  | Obtener tipo => snd (obtener_worker_disponible reloj tipo pool)
  | Liberar worker_id tipo => liberar_worker worker_id tipo pool
  | Crear tipo => snd (_crear_nuevo_worker reloj tipo pool)
  | Escalar carga => snd (escalar_workers reloj carga pool)
  end.

Definition ejecutar (reloj : Z -> Z) (ops : list llamada) (pool : t) : t :=
  fold_left (paso reloj) ops pool.
End WorkerPoolDinamico.

(** ** Concrete inputs of the examples *)

(** Metadata of a Tier-1 entry of [s] bytes. *)
Definition md (k : string) (s : Z) : MetadataCache :=
  CacheMultinivel.metadata_de k s JSON 0 L1_MEMORIA false "" 0 5.

(** The promotion scenario: a compressible value is put (it goes to
    Tier-2, compressed) and read once; its access counter is then 2. *)
Definition cache_frecuente : CacheMultinivel.t :=
  CacheMultinivel.aplicar_todas (B := Modelo.bibliotecas)
    [CacheMultinivel.OpPut 1 "k" (Modelo.bloque 50) BINARIO 0 5;
     CacheMultinivel.OpGet 2 "k"]
    (CacheMultinivel.nuevo 200 1000 true true).

Definition meta_frecuente : MetadataCache :=
  {| clave := "k"; tamano_bytes := 9; tipo_dato := BINARIO;
     timestamp_creacion := 1; timestamp_acceso := 2; frecuencia_acceso := 2;
     nivel_cache := L2_DISCO; comprimido := true; checksum := "";
     tiempo_computacion := 0; prioridad := 5 |}.

(** The same history followed by the get that promotes. *)
Definition cache_promovida : CacheMultinivel.t :=
  snd (CacheMultinivel.get (B := Modelo.bibliotecas) 3 "k" cache_frecuente).

(** A small value, then a large one, put under one key. *)
Definition cache_obsoleta (compresion : bool) : CacheMultinivel.t :=
  CacheMultinivel.aplicar_todas (B := Modelo.bibliotecas)
    [CacheMultinivel.OpPut 1 "k" (PyInt 5) JSON 0 5;
     CacheMultinivel.OpPut 2 "k" (Modelo.bloque 20) JSON 0 5]
    (CacheMultinivel.nuevo 100 1000 compresion true).

(** The eviction scenario: Tier-2 of 10 MB, Tier-1 of 1 MB, no
    compression; eleven values whose serialisation is exactly 1 MB are put
    under the keys "A" .. "K" at the instants 1 .. 11. *)
Definition MB : Z := 1048576.

Definition clave_escenario (i : nat) : string :=
  String (ascii_of_nat (65 + i)) EmptyString.

Definition cache_escenario : CacheMultinivel.t :=
  CacheMultinivel.aplicar_todas (B := Modelo.bibliotecas)
    (map (fun i => CacheMultinivel.OpPut (Z.of_nat i + 1) (clave_escenario i)
                     (Modelo.bloque 1048575) BINARIO 0 5)
         (seq 0 11))
    (CacheMultinivel.nuevo MB (10 * MB) false true).

(** A task as [submit_tarea] builds it with its default arguments. *)
Definition tarea_ej (i : string) (p : PrioridadTarea) (creada : Z) (f : Callable)
  : TareaParalelizacion.t :=
  {| TareaParalelizacion.id := i; TareaParalelizacion.funcion := f;
     TareaParalelizacion.args := []; TareaParalelizacion.kwargs := [];
     TareaParalelizacion.prioridad := p; TareaParalelizacion.tipo_worker := GENERAL;
     TareaParalelizacion.timeout := 300000; TareaParalelizacion.retries := 3;
     TareaParalelizacion.dependencias := []; TareaParalelizacion.metadata := [];
     TareaParalelizacion.timestamp_creacion := creada;
     TareaParalelizacion.timestamp_inicio := None;
     TareaParalelizacion.timestamp_finalizacion := None;
     TareaParalelizacion.estado := PENDIENTE; TareaParalelizacion.resultado := PyNone;
     TareaParalelizacion.error := None |}.

(** A work function that returns 1. *)
Definition f_uno : Callable := fun _ _ => Retorna (PyInt 1).

(** Two tasks of priority NORMAL, "a" created at 1 and "b" created at 2. *)
Definition cola_dos_normales : QueueInteligente.t :=
  snd (QueueInteligente.agregar_tarea (tarea_ej "b" NORMAL 2 f_uno)
         (snd (QueueInteligente.agregar_tarea (tarea_ej "a" NORMAL 1 f_uno)
                 (QueueInteligente.nuevo 0)))).

(** Tasks enqueued in the order low, critical, normal. *)
Definition cola_tres_prioridades : QueueInteligente.t :=
  snd (QueueInteligente.agregar_tarea (tarea_ej "n" NORMAL 3 f_uno)
         (snd (QueueInteligente.agregar_tarea (tarea_ej "c" CRITICA 2 f_uno)
                 (snd (QueueInteligente.agregar_tarea (tarea_ej "l" BAJA 1 f_uno)
                         (QueueInteligente.nuevo 0)))))).

(** A queue of maximum size 1 with its only task queued, running, and
    cancelled while queued. *)
Definition cola_una_en_cola : QueueInteligente.t :=
  snd (QueueInteligente.agregar_tarea (tarea_ej "a" NORMAL 1 f_uno)
         (QueueInteligente.nuevo 1)).

Definition cola_una_en_proceso : QueueInteligente.t :=
  snd (QueueInteligente.obtener_tarea 5 cola_una_en_cola).

Definition cola_una_cancelada : QueueInteligente.t :=
  snd (QueueInteligente.cancelar_tarea 6 "a" cola_una_en_cola).

(** The default configuration of the scheduler over an empty cache, and
    the system after task "t1" running [f] was submitted and dispatched. *)
Definition config_ej : SistemaParalelizacion.ConfiguracionParalelizacion :=
  {| SistemaParalelizacion.max_workers := 20;
     SistemaParalelizacion.min_workers := 4;
     SistemaParalelizacion.timeout_tarea := 300000;
     SistemaParalelizacion.max_retries := 3;
     SistemaParalelizacion.tamano_maximo_cola := 1000;
     SistemaParalelizacion.habilitar_autoscaling := true |}.

Definition sistema_ej : SistemaParalelizacion.t :=
  SistemaParalelizacion.nuevo config_ej (CacheMultinivel.nuevo 1000 10000 true true).

Definition sistema_tras_primera (f : Callable) : SistemaParalelizacion.t :=
  SistemaParalelizacion.despachar (B := Modelo.bibliotecas) 2 "w0"
    (snd (SistemaParalelizacion.submit_tarea (B := Modelo.bibliotecas)
            1 "t1" f [] NORMAL GENERAL None None [] [] [] sistema_ej)).

(** Two keys of one file: "a" and "./a" are put, each with a value too
    large for Tier-1, into a Tier-2 store of 60 bytes; "a" is then read,
    and a third value is put under "b", for which room has to be made. *)
Definition cache_dos_claves : CacheMultinivel.t :=
  CacheMultinivel.aplicar_todas (B := Modelo.bibliotecas)
    [CacheMultinivel.OpPut 1 "a" (Modelo.bloque 20) BINARIO 0 5;
     CacheMultinivel.OpPut 2 "./a" (Modelo.bloque 30) BINARIO 0 5]
    (CacheMultinivel.nuevo 100 60 false true).

Definition cache_sin_archivo : CacheMultinivel.t :=
  CacheMultinivel.aplicar_todas (B := Modelo.bibliotecas)
    [CacheMultinivel.OpGet 3 "a";
     CacheMultinivel.OpPut 4 "b" (Modelo.bloque 40) BINARIO 0 5]
    cache_dos_claves.

(** * Properties *)

(** ** Dictionaries *)

Lemma len_nonneg {A} (l : list A) : 0 <= len l.
Proof. unfold len. lia. Qed.

Section HechosDict.
Context {V : Type}.
Implicit Types (d : list (string * V)) (k : string).

Lemma dict_get_None k d : dict_get k d = None <-> k ∉ claves d.
Proof.
  induction d as [|[k' v] r IH]; simpl.
  - split; [intros _; apply not_elem_of_nil | done].
  - destruct (decide (k = k')) as [->|Hne].
    + split; [done | intros H; exfalso; apply H; left].
    + rewrite IH, not_elem_of_cons. tauto.
Qed.

Lemma dict_get_Some_elem k d v : dict_get k d = Some v -> k ∈ claves d.
Proof.
  intros H. destruct (decide (k ∈ claves d)) as [|Hno]; [done|].
  apply dict_get_None in Hno. congruence.
Qed.

Lemma dict_in_false k d : dict_in k d = false <-> k ∉ claves d.
Proof.
  unfold dict_in. rewrite <- dict_get_None. destruct (dict_get k d); split; congruence.
Qed.

Lemma dict_in_true k d : dict_in k d = true <-> k ∈ claves d.
Proof.
  destruct (dict_in k d) eqn:E.
  - split; [intros _ | done]. destruct (decide (k ∈ claves d)) as [|Hn]; [done|].
    apply dict_in_false in Hn. congruence.
  - apply dict_in_false in E. split; [done | intros; contradiction].
Qed.

Lemma claves_dict_del k d : claves (dict_del k d) = filter (fun x => x <> k) (claves d).
Proof.
  induction d as [|[k' v] r IH]; simpl; [done|].
  rewrite filter_cons. destruct (decide (k = k')) as [->|Hne].
  - rewrite decide_False by (intros H; by apply H). done.
  - rewrite decide_True by congruence. simpl. by rewrite IH.
Qed.

Lemma dict_del_ausente k d : k ∉ claves d -> dict_del k d = d.
Proof.
  induction d as [|[k' v] r IH]; simpl; [done|].
  rewrite not_elem_of_cons. intros [Hne Hr].
  rewrite decide_False by done. by rewrite IH.
Qed.

Lemma dict_get_del k d : dict_get k (dict_del k d) = None.
Proof.
  apply dict_get_None. rewrite claves_dict_del, list_elem_of_filter. tauto.
Qed.

Lemma dict_get_del_ne k k' d : k <> k' -> dict_get k (dict_del k' d) = dict_get k d.
Proof.
  intros Hne. induction d as [|[k2 v] r IH]; simpl; [done|].
  destruct (decide (k' = k2)) as [->|H2]; simpl.
  - rewrite decide_False by done. done.
  - destruct (decide (k = k2)); [done | exact IH].
Qed.

Lemma dict_get_app_final k v d : dict_get k (d ++ [(k, v)]) =
  match dict_get k d with Some x => Some x | None => Some v end.
Proof.
  induction d as [|[k2 v2] r IH]; simpl.
  - by rewrite decide_True.
  - destruct (decide (k = k2)); [done | exact IH].
Qed.

Lemma dict_get_app_ne k k' v d : k <> k' -> dict_get k (d ++ [(k', v)]) = dict_get k d.
Proof.
  intros Hne. induction d as [|[k2 v2] r IH]; simpl.
  - by rewrite decide_False.
  - destruct (decide (k = k2)); [done | exact IH].
Qed.

Lemma dict_get_set k v d : dict_get k (dict_set k v d) = Some v.
Proof.
  induction d as [|[k2 v2] r IH]; simpl.
  - by rewrite decide_True.
  - destruct (decide (k = k2)) as [->|Hne]; simpl.
    + by rewrite decide_True.
    + by rewrite decide_False.
Qed.

Lemma dict_get_set_ne k k' v d : k <> k' -> dict_get k (dict_set k' v d) = dict_get k d.
Proof.
  intros Hne. induction d as [|[k2 v2] r IH]; simpl.
  - by rewrite decide_False.
  - destruct (decide (k' = k2)) as [->|H2]; simpl.
    + by rewrite !decide_False.
    + destruct (decide (k = k2)); [done | exact IH].
Qed.
End HechosDict.

Lemma StronglySorted_sublista {A} (R : A -> A -> Prop) (l1 l2 : list A) :
  sublist l1 l2 -> StronglySorted R l2 -> StronglySorted R l1.
Proof.
  induction 1 as [|x l1 l2 Hs IH|x l1 l2 Hs IH]; intros Hss.
  - constructor.
  - apply StronglySorted_inv in Hss as [Hss Hall]. constructor; [by apply IH|].
    rewrite Forall_forall in Hall |- *. intros y Hy. apply Hall.
    eapply elem_of_sublist; eauto.
  - apply StronglySorted_inv in Hss as [Hss _]. by apply IH.
Qed.

Section HechosL1.
Import CacheL1Memoria.
Implicit Types (c : t) (d : list (string * (objeto * MetadataCache))).

Lemma suma_tamanos_app d1 d2 :
  suma_tamanos (d1 ++ d2) = suma_tamanos d1 + suma_tamanos d2.
Proof. induction d1 as [|e r IH]; simpl; [done | rewrite IH; lia]. Qed.

Lemma suma_dict_del k d v m :
  NoDup (claves d) -> dict_get k d = Some (v, m) ->
  suma_tamanos (dict_del k d) = suma_tamanos d - tamano_bytes m.
Proof.
  induction d as [|[k' [v' m']] r IH]; simpl; [done|].
  intros Hnd Hget. apply NoDup_cons in Hnd as [Hk' Hnd].
  destruct (decide (k = k')) as [->|Hne].
  - injection Hget as -> ->. rewrite dict_del_ausente by done. lia.
  - simpl. rewrite IH by done. lia.
Qed.

Lemma bucle_put_spec n necesario c :
  (length (datos c) <= n)%nat ->
  let r := bucle_put n necesario c in
  exists j : nat,
    (j <= length (datos c))%nat /\
    datos r = drop j (datos c) /\
    tamano_actual r = tamano_actual c - suma_tamanos (take j (datos c)) /\
    capacidad_bytes r = capacidad_bytes c /\
    (tamano_actual r + necesario <= capacidad_bytes c \/ datos r = []) /\
    (forall i : nat, (i < j)%nat ->
       capacidad_bytes c < tamano_actual c - suma_tamanos (take i (datos c)) + necesario).
Proof.
  revert c. induction n as [|n IH]; intros c Hlen; simpl.
  - exists O. destruct (datos c) eqn:E; [|simpl in Hlen; lia].
    simpl. repeat split; try done; try lia. by right.
  - destruct ((capacidad_bytes c <? tamano_actual c + necesario) && (0 <? len (datos c)))
      eqn:Hcond.
    + apply andb_true_iff in Hcond as [Hcap Hne].
      apply Z.ltb_lt in Hcap. apply Z.ltb_lt in Hne.
      unfold _evict_lru. destruct (datos c) as [|[k0 [v0 m0]] resto] eqn:E;
        [unfold len in Hne; simpl in Hne; lia|].
      simpl in Hlen. simpl.
      set (c' := {| capacidad_bytes := capacidad_bytes c; datos := resto;
                    tamano_actual := tamano_actual c - tamano_bytes m0 |}).
      destruct (IH c') as (j & Hj & Hd & Ht & Hc & Hfin & Hmin); [simpl; lia|].
      exists (S j). simpl in *. repeat split; try done; try lia.
      intros [|i] Hi; simpl; [lia|]. specialize (Hmin i). lia.
    + exists O. simpl. rewrite drop_0. repeat split; try done; try lia.
      apply andb_false_iff in Hcond as [H|H].
      * apply Z.ltb_ge in H. left; lia.
      * apply Z.ltb_ge in H. right. destruct (datos c); [done|].
        unfold len in H; simpl in H; lia.
Qed.

(** The bound on the iterations of the loop of [put] is enough: when the
    loop stops its condition is false. *)
Lemma bucle_put_fin necesario c :
  let r := bucle_put (length (datos c)) necesario c in
  (capacidad_bytes r <? tamano_actual r + necesario) && (0 <? len (datos r)) = false.
Proof.
  destruct (bucle_put_spec (length (datos c)) necesario c) as (j & _ & _ & _ & Hc & Hfin & _);
    [lia|].
  simpl. rewrite Hc. apply andb_false_iff. destruct Hfin as [H|H].
  - left. apply Z.ltb_ge. lia.
  - right. rewrite H. done.
Qed.

Lemma bien_formado_nuevo cap : bien_formado (nuevo cap).
Proof. split; simpl; [constructor | done]. Qed.

Lemma claves_app_uno d k (x : objeto * MetadataCache) :
  claves (d ++ [(k, x)]) = claves d ++ [k].
Proof. unfold claves. by rewrite map_app. Qed.

Lemma NoDup_filtro_mas k (l : list string) :
  NoDup l -> NoDup (filter (fun x => x <> k) l ++ [k]).
Proof.
  intros H. apply NoDup_app. split; [by apply NoDup_filter|]. split.
  - intros x Hx Hk. apply list_elem_of_filter in Hx as [Hne _].
    apply list_elem_of_singleton in Hk. done.
  - apply NoDup_singleton.
Qed.

Lemma bien_formado_get ahora k c : bien_formado c -> bien_formado (snd (get ahora k c)).
Proof.
  intros [Hnd Hsum]. unfold get.
  destruct (dict_get k (datos c)) as [[v m]|] eqn:E; simpl; [|done].
  split; simpl.
  - rewrite claves_app_uno, claves_dict_del. by apply NoDup_filtro_mas.
  - rewrite suma_tamanos_app, (suma_dict_del k _ v m) by done. simpl. lia.
Qed.

Lemma claves_drop j d : claves (drop j d) = drop j (claves d).
Proof. unfold claves. revert j; induction d; intros [|j]; simpl; auto. Qed.

Lemma suma_take_drop j d : suma_tamanos d = suma_tamanos (take j d) + suma_tamanos (drop j d).
Proof. rewrite <- suma_tamanos_app. by rewrite take_drop. Qed.

(** [put] as one equation: the entries that survive are a suffix of the
    old ones (without [k]), followed by the new entry. *)
Lemma put_forma k v m c :
  exists j : nat,
    let d1 := dict_del k (datos c) in
    let t1 := match dict_get k (datos c) with
              | Some (_, viejo) => tamano_actual c - tamano_bytes viejo
              | None => tamano_actual c
              end in
    (j <= length d1)%nat /\
    datos (put k v m c) = drop j d1 ++ [(k, (v, m))] /\
    tamano_actual (put k v m c) = t1 - suma_tamanos (take j d1) + tamano_bytes m /\
    capacidad_bytes (put k v m c) = capacidad_bytes c /\
    (t1 - suma_tamanos (take j d1) + tamano_bytes m <= capacidad_bytes c \/ drop j d1 = []) /\
    (forall i : nat, (i < j)%nat ->
       capacidad_bytes c < t1 - suma_tamanos (take i d1) + tamano_bytes m).
Proof.
  unfold put.
  set (c1 := match dict_get k (datos c) with
             | Some (_, viejo) => _ | None => c end).
  assert (Hc1 : datos c1 = dict_del k (datos c) /\ capacidad_bytes c1 = capacidad_bytes c /\
                tamano_actual c1 = match dict_get k (datos c) with
                                   | Some (_, viejo) => tamano_actual c - tamano_bytes viejo
                                   | None => tamano_actual c end).
  { subst c1. destruct (dict_get k (datos c)) as [[? ?]|] eqn:E; simpl; [done|].
    apply dict_get_None in E. by rewrite dict_del_ausente. }
  destruct Hc1 as (Hd1 & Hcap1 & Ht1).
  destruct (bucle_put_spec (length (datos c1)) (tamano_bytes m) c1)
    as (j & Hj & Hd & Ht & Hc & Hfin & Hmin); [lia|].
  exists j. simpl. rewrite Hd, Ht, Hc, Hd1, Hcap1, Ht1 in *.
  repeat split; done.
Qed.

Lemma bien_formado_put k v m c : bien_formado c -> bien_formado (put k v m c).
Proof.
  intros [Hnd Hsum]. destruct (put_forma k v m c) as (j & Hj & Hd & Ht & _).
  cbv zeta in Hj, Hd, Ht. split.
  - rewrite Hd, claves_app_uno, claves_drop, claves_dict_del.
    apply NoDup_app. split.
    + eapply sublist_NoDup; [| apply sublist_drop]. by apply NoDup_filter.
    + split; [|apply NoDup_singleton].
      intros x Hx Hk. apply list_elem_of_singleton in Hk. subst x.
      eapply elem_of_sublist in Hx; [|apply sublist_drop].
      apply list_elem_of_filter in Hx as [Hne _]. done.
  - rewrite Ht, Hd, suma_tamanos_app. simpl.
    assert (Hs : match dict_get k (datos c) with
                 | Some (_, viejo) => tamano_actual c - tamano_bytes viejo
                 | None => tamano_actual c end = suma_tamanos (dict_del k (datos c))).
    { destruct (dict_get k (datos c)) as [[v0 m0]|] eqn:E.
      - rewrite (suma_dict_del k _ v0 m0) by done. lia.
      - apply dict_get_None in E. by rewrite dict_del_ausente. }
    rewrite Hs. rewrite (suma_take_drop j (dict_del k (datos c))) at 1. lia.
Qed.

Lemma bien_formado_paso c op : bien_formado c -> bien_formado (paso c op).
Proof. destruct op; simpl; [apply bien_formado_get | apply bien_formado_put]. Qed.

Lemma ejecutar_app ops op c : ejecutar (ops ++ [op]) c = paso (ejecutar ops c) op.
Proof. unfold ejecutar. by rewrite fold_left_app. Qed.

Lemma bien_formado_ejecutar ops c : bien_formado c -> bien_formado (ejecutar ops c).
Proof.
  induction ops as [|op ops IH] using rev_ind; [done|].
  intros H. rewrite ejecutar_app. by apply bien_formado_paso, IH.
Qed.

Lemma ultimo_toque_desde_app i acc k ops op :
  ultimo_toque_desde i acc k (ops ++ [op]) =
  if decide (tocada op = k) then S (i + length ops) else ultimo_toque_desde i acc k ops.
Proof.
  revert i acc. induction ops as [|o r IH]; intros i acc; simpl.
  - destruct (decide (tocada op = k)); [f_equal; lia | done].
  - rewrite IH. destruct (decide (tocada op = k)); [f_equal; lia | done].
Qed.

Lemma ultimo_toque_app k ops op :
  ultimo_toque k (ops ++ [op]) =
  if decide (tocada op = k) then S (length ops) else ultimo_toque k ops.
Proof. unfold ultimo_toque. by rewrite ultimo_toque_desde_app. Qed.

(** What one call does to the recency order: the key it names, if
    resident afterwards, is last; the other survivors keep their order. *)
Lemma claves_paso c op :
  (claves (datos (paso c op)) = claves (datos c) /\ tocada op ∉ claves (datos c)) \/
  exists sub, sublist sub (filter (fun x => x <> tocada op) (claves (datos c))) /\
              claves (datos (paso c op)) = sub ++ [tocada op].
Proof.
  destruct op as [ahora k | k v m]; cbn [paso tocada].
  - unfold get. destruct (dict_get k (datos c)) as [[v m]|] eqn:E; simpl.
    + right. eexists. split; [reflexivity|].
      by rewrite claves_app_uno, claves_dict_del.
    + left. split; [done | by apply dict_get_None].
  - right. destruct (put_forma k v m c) as (j & _ & Hd & _). cbv zeta in Hd.
    exists (drop j (filter (fun x => x <> k) (claves (datos c)))). split.
    + apply sublist_drop.
    + by rewrite Hd, claves_app_uno, claves_drop, claves_dict_del.
Qed.

(** The order of [datos] is the order of last touch: the first key is
    the least recently touched one. *)
Lemma orden_es_recencia ops cap :
  por_recencia ops (claves (datos (ejecutar ops (nuevo cap)))).
Proof.
  induction ops as [|op ops IH] using rev_ind.
  - split; constructor.
  - rewrite ejecutar_app. destruct IH as [Hs Hb].
    set (c := ejecutar ops (nuevo cap)) in *.
    assert (Hmon : forall l, Forall (fun a => (1 <= ultimo_toque a ops <= length ops)%nat) l ->
              Forall (fun a => a <> tocada op) l ->
              StronglySorted (fun a b => (ultimo_toque a ops < ultimo_toque b ops)%nat) l ->
              por_recencia (ops ++ [op]) l).
    { intros l Hl Hne Hsl. split.
      - induction Hsl as [|a l Hsl IHl Ha]; constructor.
        + apply IHl; [by inversion Hl | by inversion Hne].
        + inversion Hne as [|? ? Hane Hne']; subst.
          rewrite Forall_forall in Ha, Hne' |- *. intros b Hb'.
          assert (tocada op <> b) by (intros Heq; by apply (Hne' b)).
          assert (tocada op <> a) by (intros Heq; by apply Hane).
          rewrite !ultimo_toque_app, !decide_False by done. by apply Ha.
      - rewrite Forall_forall in Hl, Hne |- *. intros a Ha.
        assert (tocada op <> a) by (intros Heq; by apply (Hne a)).
        rewrite ultimo_toque_app. rewrite decide_False by done.
        rewrite length_app. simpl. specialize (Hl a Ha). lia. }
    destruct (claves_paso c op) as [[Heq Hnot] | (sub & Hsub & Heq)]; rewrite Heq.
    + apply Hmon; [done | | done].
      rewrite Forall_forall. intros a Ha ->. done.
    + assert (Hsub' : sublist sub (claves (datos c))).
      { etrans; [exact Hsub | apply sublist_filter]. }
      assert (Hne : Forall (fun a => a <> tocada op) sub).
      { rewrite Forall_forall. intros a Ha.
        eapply elem_of_sublist in Ha; [|exact Hsub].
        by apply list_elem_of_filter in Ha as [? _]. }
      assert (Hbs : Forall (fun a => (1 <= ultimo_toque a ops <= length ops)%nat) sub).
      { rewrite Forall_forall in Hb |- *. intros a Ha. apply Hb.
        eapply elem_of_sublist; eauto. }
      destruct (Hmon sub Hbs Hne (StronglySorted_sublista _ _ _ Hsub' Hs)) as [Hs1 Hb1].
      split.
      * apply StronglySorted_app_2; [| done | repeat constructor].
        intros a b Ha Hb'. apply list_elem_of_singleton in Hb'. subst b.
        rewrite Forall_forall in Hb1. specialize (Hb1 a Ha).
        rewrite (ultimo_toque_app (tocada op)), decide_True by done.
        rewrite length_app in Hb1. simpl in Hb1.
        rewrite Forall_forall in Hne, Hbs. specialize (Hbs a Ha).
        assert (tocada op <> a) by (intros Heq'; by apply (Hne a)).
        rewrite ultimo_toque_app, decide_False by done. lia.
      * apply Forall_app. split; [done|]. constructor; [|constructor].
        rewrite ultimo_toque_app, decide_True, length_app by done. simpl. lia.
Qed.
End HechosL1.

Section TeoremaL1.
Import CacheL1Memoria.

Lemma capacidad_paso c op : capacidad_bytes (paso c op) = capacidad_bytes c.
Proof.
  destruct op as [ahora k | k v m]; cbn [paso].
  - unfold get. by destruct (dict_get k (datos c)) as [[? ?]|].
  - by destruct (put_forma k v m c) as (j & _ & _ & _ & Hc & _).
Qed.

Lemma capacidad_ejecutar ops c : capacidad_bytes (ejecutar ops c) = capacidad_bytes c.
Proof.
  induction ops as [|op ops IH] using rev_ind; [done|].
  by rewrite ejecutar_app, capacidad_paso.
Qed.

Lemma tamano_tras_borrar k c :
  bien_formado c ->
  match dict_get k (datos c) with
  | Some (_, viejo) => tamano_actual c - tamano_bytes viejo
  | None => tamano_actual c
  end = suma_tamanos (dict_del k (datos c)).
Proof.
  intros [Hnd Hsum]. destruct (dict_get k (datos c)) as [[v0 m0]|] eqn:E.
  - rewrite (suma_dict_del k _ v0 m0) by done. lia.
  - apply dict_get_None in E. by rewrite dict_del_ausente.
Qed.

Lemma suma_iguales s (d : list (string * (objeto * MetadataCache))) :
  Forall (fun e => tamano_bytes (snd (snd e)) = s) d -> suma_tamanos d = len d * s.
Proof.
  induction 1 as [|e r He Hr IH]; simpl; [done|].
  rewrite IH, He. unfold len. simpl length. lia.
Qed.

(** C8. Tier-1 LRU: in a store that holds N >= 1 entries of one size s
    and has room for exactly N of them, the put of a new key of size s
    evicts exactly the first key of the order, which is the resident
    key touched (by get or put) least recently; and every put keeps a
    suffix of the old entries, having dropped the oldest ones one at a
    time until the new entry fits or nothing is left. *)
Theorem l1_lru_correcto (cap : Z) (ops : list llamada) :
  let c := ejecutar ops (nuevo cap) in
  (forall (k : string) (v : objeto) (m : MetadataCache) (s : Z),
      0 < s ->
      Forall (fun e => tamano_bytes (snd (snd e)) = s) (datos c) ->
      (1 <= length (datos c))%nat ->
      len (datos c) * s <= cap < (len (datos c) + 1) * s ->
      dict_in k (datos c) = false ->
      tamano_bytes m = s ->
      exists victima resto,
        claves (datos c) = victima :: resto /\
        claves (datos (put k v m c)) = resto ++ [k] /\
        Forall (fun k' => (ultimo_toque victima ops < ultimo_toque k' ops)%nat) resto) /\
  (forall (k : string) (v : objeto) (m : MetadataCache),
      exists j : nat,
        let d1 := dict_del k (datos c) in
        datos (put k v m c) = drop j d1 ++ [(k, (v, m))] /\
        (suma_tamanos (drop j d1) + tamano_bytes m <= cap \/ drop j d1 = []) /\
        (forall i : nat, (i < j)%nat ->
           cap < suma_tamanos (drop i d1) + tamano_bytes m)).
Proof.
  intros c.
  assert (Hbf : bien_formado c) by apply bien_formado_ejecutar, bien_formado_nuevo.
  assert (Hcap : capacidad_bytes c = cap) by apply capacidad_ejecutar.
  assert (Hforma : forall k v m, exists j : nat,
             let d1 := dict_del k (datos c) in
             datos (put k v m c) = drop j d1 ++ [(k, (v, m))] /\
             (suma_tamanos (drop j d1) + tamano_bytes m <= cap \/ drop j d1 = []) /\
             (forall i : nat, (i < j)%nat ->
                cap < suma_tamanos (drop i d1) + tamano_bytes m)).
  { intros k v m.
    destruct (put_forma k v m c) as (j & Hj & Hd & _ & _ & Hfin & Hmin).
    cbv zeta in *. rewrite (tamano_tras_borrar k c Hbf), Hcap in Hfin, Hmin.
    exists j. split; [done|]. split.
    - destruct Hfin as [H|H]; [left | by right].
      rewrite (suma_take_drop j (dict_del k (datos c))) in H. lia.
    - intros i Hi. specialize (Hmin i Hi).
      rewrite (suma_take_drop i (dict_del k (datos c))) in Hmin. lia. }
  split; [|exact Hforma].
  intros k v m s Hs Hall Hn Hcabe Hk Hm.
  destruct (Hforma k v m) as (j & Hd & Hfin & Hmin). cbv zeta in *.
  apply dict_in_false in Hk. rewrite (dict_del_ausente k _ Hk) in *.
  destruct (datos c) as [|[k0 [v0 m0]] resto] eqn:E; [simpl in Hn; lia|].
  assert (Hj : j = 1%nat).
  { destruct j as [|[|j]]; [| done |].
    - exfalso. rewrite drop_0 in Hfin. destruct Hfin as [H|H]; [|done].
      rewrite (suma_iguales s) in H by done. lia.
    - exfalso. specialize (Hmin 1%nat ltac:(lia)). simpl in Hmin. rewrite drop_0 in Hmin.
      apply Forall_cons in Hall as [_ Hall].
      rewrite (suma_iguales s) in Hmin by done.
      unfold len in *. simpl length in Hcabe. lia. }
  subst j. cbn [drop] in Hd.
  exists k0, (claves resto). split; [done|]. split.
  - by rewrite Hd, claves_app_uno.
  - pose proof (orden_es_recencia ops cap) as [Hs' _].
    fold c in Hs'. rewrite E in Hs'. simpl in Hs'.
    by apply StronglySorted_inv in Hs' as [_ H].
Qed.

Lemma l1_lru_correcto_testigo :
  exists victima resto,
    claves (datos (ejecutar [Put "a" (PyInt 1) (md "a" 10); Put "b" (PyInt 2) (md "b" 10);
                             Get 5 "a"] (nuevo 20))) = victima :: resto /\
    claves (datos (put "c" (PyInt 3) (md "c" 10)
                     (ejecutar [Put "a" (PyInt 1) (md "a" 10); Put "b" (PyInt 2) (md "b" 10);
                                Get 5 "a"] (nuevo 20)))) = resto ++ ["c"] /\
    Forall (fun k' => (ultimo_toque victima
                         [Put "a" (PyInt 1) (md "a" 10); Put "b" (PyInt 2) (md "b" 10);
                          Get 5 "a"] <
                       ultimo_toque k'
                         [Put "a" (PyInt 1) (md "a" 10); Put "b" (PyInt 2) (md "b" 10);
                          Get 5 "a"])%nat) resto.
Proof.
  apply (proj1 (l1_lru_correcto 20
                  [Put "a" (PyInt 1) (md "a" 10); Put "b" (PyInt 2) (md "b" 10); Get 5 "a"])
           "c" (PyInt 3) (md "c" 10) 10).
  - lia.
  - vm_compute. repeat constructor.
  - vm_compute. lia.
  - split; vm_compute; [discriminate | reflexivity].
  - reflexivity.
  - reflexivity.
Defined.
End TeoremaL1.

(** ** Statistics of the multi-tier cache *)

Section Estadisticas.
Context {B : Bibliotecas}.
Import CacheMultinivel.
Implicit Types (c : t).

Lemma estadisticas_put ahora k v tipo tiempo prio c :
  exists n, 0 <= n /\
    estadisticas (snd (put ahora k v tipo tiempo prio c)) = mas_bytes n (estadisticas c)
    \/ snd (put ahora k v tipo tiempo prio c) = c.
Proof.
  unfold put. destruct (pickle_dumps v) as [b|]; [|exists 0; by right].
  destruct (10 * len b <=? _).
  - exists (len b). left. split; [unfold len; lia | done].
  - destruct (habilitar_compresion c); simpl.
    + exists (len (CompresorInteligente.comprimir b tipo)). left.
      split; [unfold len; lia | done].
    + exists (len b). left. split; [unfold len; lia | done].
Qed.

Lemma estadisticas_get ahora k c :
  bytes_almacenados (estadisticas (snd (get ahora k c))) = bytes_almacenados (estadisticas c) /\
  evictions (estadisticas (snd (get ahora k c))) = evictions (estadisticas c).
Proof.
  unfold get.
  destruct (CacheL1Memoria.get ahora k (cache_l1 c)) as [[[v m]|] l1]; [done|].
  destruct (CacheL2Disco.get ahora k (cache_l2 c)) as [[[v m]|] l2]; [|done].
  destruct (match (if comprimido m then isinstance_bytes v else None) with
            | Some b => _ | None => _ end); [|done].
  by destruct (_ && _).
Qed.

Lemma bytes_limpiar_uno c :
  bytes_almacenados (estadisticas (limpiar_uno c)) = bytes_almacenados (estadisticas c).
Proof. unfold limpiar_uno. by destruct (CacheL1Memoria.datos (cache_l1 c)). Qed.

Lemma bytes_limpieza_automatica c :
  bytes_almacenados (estadisticas (_limpieza_automatica c)) = bytes_almacenados (estadisticas c).
Proof.
  unfold _limpieza_automatica.
  generalize (Nat.div (length (CacheL1Memoria.datos (cache_l1 c))) 4) as n.
  induction n as [|n IH]; simpl; [done|]. by rewrite bytes_limpiar_uno.
Qed.

Lemma tamano_registrado_no_negativo c v tipo : 0 <= tamano_registrado c v tipo.
Proof.
  unfold tamano_registrado. destruct (pickle_dumps v) as [b|]; [|lia].
  destruct (10 * len b <=? _); [apply len_nonneg|].
  destruct (habilitar_compresion c); apply len_nonneg.
Qed.

(** What [put] changes of the statistics, and what it keeps of the
    configuration. *)
Lemma estadisticas_put_exacta ahora k v tipo tiempo prio c :
  let r := snd (put ahora k v tipo tiempo prio c) in
  estadisticas r = mas_bytes (tamano_registrado c v tipo) (estadisticas c) /\
  CacheL1Memoria.capacidad_bytes (cache_l1 r) = CacheL1Memoria.capacidad_bytes (cache_l1 c) /\
  habilitar_compresion r = habilitar_compresion c.
Proof.
  unfold put, tamano_registrado. destruct (pickle_dumps v) as [b|].
  - destruct (10 * len b <=? _).
    + cbn [snd estadisticas con_estadisticas cache_l1 con_l1 habilitar_compresion].
      split; [done|]. split; [|done].
      apply (capacidad_paso (cache_l1 c) (CacheL1Memoria.Put k v _)).
    + destruct (habilitar_compresion c) eqn:E;
        cbn [snd estadisticas con_estadisticas cache_l1 cache_l2 con_l2 habilitar_compresion
             tamano_bytes metadata_de]; by rewrite ?E.
  - cbn. split; [|done]. destruct (estadisticas c). unfold mas_bytes. cbn. f_equal. lia.
Qed.

Lemma configuracion_get ahora k c :
  CacheL1Memoria.capacidad_bytes (cache_l1 (snd (get ahora k c))) =
    CacheL1Memoria.capacidad_bytes (cache_l1 c) /\
  habilitar_compresion (snd (get ahora k c)) = habilitar_compresion c.
Proof.
  unfold get.
  pose proof (capacidad_paso (cache_l1 c) (CacheL1Memoria.Get ahora k)) as Hg.
  cbn [CacheL1Memoria.paso] in Hg.
  destruct (CacheL1Memoria.get ahora k (cache_l1 c)) as [[[v m]|] l1]; [done|].
  destruct (CacheL2Disco.get ahora k (cache_l2 c)) as [[[v m]|] l2]; [|done].
  destruct (match (if comprimido m then isinstance_bytes v else None) with
            | Some b => _ | None => _ end); [|done].
  destruct (_ && _); [|done].
  cbn [snd estadisticas con_estadisticas cache_l1 cache_l2 con_l1 con_l2 habilitar_compresion].
  split; [|done].
  apply (capacidad_paso (cache_l1 c) (CacheL1Memoria.Put k _ _)).
Qed.

Lemma configuracion_limpiar_uno c :
  CacheL1Memoria.capacidad_bytes (cache_l1 (limpiar_uno c)) =
    CacheL1Memoria.capacidad_bytes (cache_l1 c) /\
  habilitar_compresion (limpiar_uno c) = habilitar_compresion c.
Proof.
  unfold limpiar_uno, CacheL1Memoria._evict_lru.
  by destruct (CacheL1Memoria.datos (cache_l1 c)) as [|[k0 [v0 m0]] r].
Qed.

Lemma configuracion_limpieza_automatica c :
  CacheL1Memoria.capacidad_bytes (cache_l1 (_limpieza_automatica c)) =
    CacheL1Memoria.capacidad_bytes (cache_l1 c) /\
  habilitar_compresion (_limpieza_automatica c) = habilitar_compresion c.
Proof.
  unfold _limpieza_automatica.
  generalize (Nat.div (length (CacheL1Memoria.datos (cache_l1 c))) 4) as n.
  induction n as [|n IH]; [done|]. rewrite Nat.iter_succ.
  destruct (configuracion_limpiar_uno (Nat.iter n limpiar_uno c)) as [-> ->]. exact IH.
Qed.

Lemma bytes_aplicar_exacto c op :
  bytes_almacenados (estadisticas (aplicar c op)) =
    bytes_almacenados (estadisticas c) + bytes_de c op /\
  (forall op', bytes_de (aplicar c op) op' = bytes_de c op').
Proof.
  assert (Hconf : forall c',
            CacheL1Memoria.capacidad_bytes (cache_l1 c') =
              CacheL1Memoria.capacidad_bytes (cache_l1 c) ->
            habilitar_compresion c' = habilitar_compresion c ->
            forall op', bytes_de c' op' = bytes_de c op').
  { intros c' H1 H2 [a k v tipo ti pr | a k |]; cbn [bytes_de]; try done.
    unfold tamano_registrado. by rewrite H1, H2. }
  destruct op as [ahora k v tipo tiempo prio | ahora k |]; cbn [aplicar bytes_de].
  - destruct (estadisticas_put_exacta ahora k v tipo tiempo prio c) as (He & H1 & H2).
    cbv zeta in *. rewrite He. split; [done | by apply Hconf].
  - destruct (estadisticas_get ahora k c) as [-> _].
    destruct (configuracion_get ahora k c) as [H1 H2]. split; [lia | by apply Hconf].
  - rewrite bytes_limpieza_automatica.
    destruct (configuracion_limpieza_automatica c) as [H1 H2]. split; [lia | by apply Hconf].
Qed.

(** C10. [bytes_almacenados] is a running total: every put adds the size
    it records for the value (the serialised size, or the compressed size
    on the compressed Tier-2 path; nothing when serialisation fails),
    whether the key is new or overwritten and whatever the tiers evict to
    make room; get and the automatic clean-up, which evicts, add and
    subtract nothing. So after any sequence of these operations the
    counter is its initial value plus the sizes of all the puts, it has
    never decreased, and only [limpiar_todo] sets it back to zero. *)
Theorem bytes_almacenados_acumulativo (ops : list operacion) (c : t) :
  bytes_almacenados (estadisticas (aplicar_todas ops c)) =
    bytes_almacenados (estadisticas c) + foldr Z.add 0 (map (bytes_de c) ops) /\
  (forall op, 0 <= bytes_de c op) /\
  bytes_almacenados (estadisticas c)
    <= bytes_almacenados (estadisticas (aplicar_todas ops c)) /\
  bytes_almacenados (estadisticas (limpiar_todo (aplicar_todas ops c))) = 0.
Proof.
  assert (Hpos : forall c' op, 0 <= bytes_de c' op).
  { intros c' [a k v tipo ti pr | a k |]; cbn [bytes_de]; try lia.
    apply tamano_registrado_no_negativo. }
  assert (Hsuma : forall ops c,
            bytes_almacenados (estadisticas (aplicar_todas ops c)) =
              bytes_almacenados (estadisticas c) + foldr Z.add 0 (map (bytes_de c) ops)).
  { clear ops c. induction ops as [|op ops IH]; intros c; simpl; [lia|].
    destruct (bytes_aplicar_exacto c op) as [Hb Hde].
    change (fold_left aplicar ops (aplicar c op)) with (aplicar_todas ops (aplicar c op)).
    rewrite IH, Hb. rewrite (map_ext _ _ Hde). lia. }
  split; [apply Hsuma|]. split; [apply Hpos|]. split; [|done].
  rewrite Hsuma.
  assert (0 <= foldr Z.add 0 (map (bytes_de c) ops)); [|lia].
  induction ops as [|op ops IH]; simpl; [lia|]. specialize (Hpos c op). lia.
Qed.
End Estadisticas.

(** ** Tier-1 lookups after a put *)

Section BusquedaL1.
Import CacheL1Memoria.

Lemma l1_get_tras_put k v m c : dict_get k (datos (put k v m c)) = Some (v, m).
Proof.
  destruct (put_forma k v m c) as (j & _ & Hd & _). cbv zeta in Hd. rewrite Hd.
  rewrite dict_get_app_final.
  assert (H : dict_get k (drop j (dict_del k (datos c))) = None).
  { apply dict_get_None. rewrite claves_drop, claves_dict_del. intros Hin.
    eapply elem_of_sublist in Hin; [|apply sublist_drop].
    by apply list_elem_of_filter in Hin as [? _]. }
  by rewrite H.
Qed.

Lemma l1_get_acierto ahora k v m c :
  dict_get k (datos c) = Some (v, m) ->
  exists c', get ahora k c = (Some (v, con_acceso ahora (frecuencia_acceso m + 1) m), c') /\
             dict_get k (datos c') = Some (v, con_acceso ahora (frecuencia_acceso m + 1) m).
Proof.
  intros H. unfold get. rewrite H. eexists. split; [reflexivity|]. simpl.
  by rewrite dict_get_app_final, dict_get_del.
Qed.

Lemma l1_get_fallo ahora k c : dict_get k (datos c) = None -> get ahora k c = (None, c).
Proof. intros H. unfold get. by rewrite H. Qed.
End BusquedaL1.

(** ** The Tier-2 store: eviction victim and room-making loop *)

Section MasL2.
Context {B : Bibliotecas}.
Import CacheL2Disco.
Implicit Types (c : t) (d : list (string * MetadataCache)).

(** The left fold of [min]: the running best entry is the first one, in
    order, of the entries seen so far whose access time is the smallest. *)
Lemma min_por_acceso_forma (r pre medio : list (string * MetadataCache))
    (kb : string) (mb : MetadataCache) :
  Forall (fun e => timestamp_acceso mb < timestamp_acceso (snd e)) pre ->
  Forall (fun e => timestamp_acceso mb <= timestamp_acceso (snd e)) medio ->
  exists pre' post k m,
    pre ++ (kb, mb) :: medio ++ r = pre' ++ (k, m) :: post /\
    fold_left (fun mejor e =>
                 if timestamp_acceso (snd e) <? snd mejor
                 then (fst e, timestamp_acceso (snd e)) else mejor)
              r (kb, timestamp_acceso mb) = (k, timestamp_acceso m) /\
    Forall (fun e => timestamp_acceso m < timestamp_acceso (snd e)) pre' /\
    Forall (fun e => timestamp_acceso m <= timestamp_acceso (snd e)) post.
Proof.
  revert pre medio kb mb. induction r as [|[k1 m1] r IH]; intros pre medio kb mb Hpre Hmed.
  - exists pre, medio, kb, mb. rewrite app_nil_r. by repeat split.
  - simpl. destruct (timestamp_acceso m1 <? timestamp_acceso mb) eqn:E.
    + apply Z.ltb_lt in E.
      destruct (IH (pre ++ (kb, mb) :: medio) [] k1 m1) as (pre' & post & k & m & Heq & Hf & H1 & H2).
      * apply Forall_app. split; [|constructor].
        -- eapply Forall_impl; [exact Hpre|]. simpl. intros; lia.
        -- simpl. lia.
        -- eapply Forall_impl; [exact Hmed|]. simpl. intros; lia.
      * constructor.
      * exists pre', post, k, m. split; [|by repeat split].
        rewrite <- Heq. by rewrite <- app_assoc.
    + apply Z.ltb_ge in E.
      destruct (IH pre (medio ++ [(k1, m1)]) kb mb) as (pre' & post & k & m & Heq & Hf & H1 & H2).
      * done.
      * apply Forall_app. split; [done|]. constructor; [simpl; lia | constructor].
      * exists pre', post, k, m. split; [|by repeat split].
        rewrite <- Heq. by rewrite <- app_assoc.
Qed.

(** X13. The eviction victim of Tier-2: [mas_antiguo] returns no key
    exactly for an empty index; otherwise it returns the key of the first
    entry, in index order, whose access time is the smallest: every entry
    before it was accessed strictly later, every entry after it not
    earlier. *)
Theorem mas_antiguo_es_el_primero_minimo d :
  match mas_antiguo d with
  | None => d = []
  | Some k =>
      exists pre m post,
        d = pre ++ (k, m) :: post /\
        Forall (fun e => timestamp_acceso m < timestamp_acceso (snd e)) pre /\
        Forall (fun e => timestamp_acceso m <= timestamp_acceso (snd e)) post
  end.
Proof.
  destruct d as [|[k0 m0] r]; [done|]. simpl.
  destruct (min_por_acceso_forma r [] [] k0 m0) as (pre' & post & k' & m & Heq & Hf & H1 & H2);
    [constructor | constructor |].
  simpl in Heq. rewrite Hf. simpl. exists pre', m, post. by repeat split.
Qed.

Lemma mas_antiguo_forma d k :
  mas_antiguo d = Some k ->
  exists pre m post, d = pre ++ (k, m) :: post.
Proof.
  intros H. destruct d as [|[k0 m0] r]; [done|]. simpl in H.
  destruct (min_por_acceso_forma r [] [] k0 m0) as (pre' & post & k' & m & Heq & Hf & _);
    [constructor | constructor |].
  simpl in Heq. rewrite Hf in H. simpl in H. injection H as <-.
  by exists pre', m, post.
Qed.

Lemma mas_antiguo_elem d k : mas_antiguo d = Some k -> k ∈ claves d.
Proof.
  intros H. destruct (mas_antiguo_forma d k H) as (pre & m & post & ->).
  unfold claves. rewrite map_app. apply elem_of_app. right. simpl. left.
Qed.

Lemma length_dict_del_lt {V} (k : string) (d : list (string * V)) :
  k ∈ claves d -> (length (dict_del k d) < length d)%nat.
Proof.
  induction d as [|[k' v] r IH]; simpl; [by intros ?%elem_of_nil|].
  intros H. destruct (decide (k = k')) as [->|Hne].
  - assert (length (dict_del k' r) <= length r)%nat; [|lia].
    clear. induction r as [|[k2 v2] r IH]; simpl; [lia|].
    destruct (decide (k' = k2)); simpl; lia.
  - apply elem_of_cons in H as [?|H]; [done|]. simpl. specialize (IH H). lia.
Qed.

Lemma bucle_limpiar_forma n necesarios c :
  (length (metadatos c) <= n)%nat ->
  let r := bucle_limpiar n necesarios c in
  capacidad_bytes r = capacidad_bytes c /\
  (_calcular_tamano_actual r + necesarios <= capacidad_bytes c \/ metadatos r = []) /\
  sublist (metadatos r) (metadatos c) /\
  archivos r ⊆ archivos c.
Proof.
  revert c. induction n as [|n IH]; intros c Hlen; simpl.
  - split; [done|]. split; [|done]. right. destruct (metadatos c); [done | simpl in Hlen; lia].
  - destruct (capacidad_bytes c <? _calcular_tamano_actual c + necesarios) eqn:E.
    + destruct (mas_antiguo (metadatos c)) as [k|] eqn:Em.
      * destruct (IH (_eliminar_archivo k c)) as (Hc & Hfin & Hsub & Har).
        { simpl. pose proof (length_dict_del_lt k _ (mas_antiguo_elem _ _ Em)). lia. }
        simpl in *. split; [done|]. split; [done|]. split.
        -- etrans; [exact Hsub|]. clear. induction (metadatos c) as [|[k' v] r IHr]; simpl; [done|].
           destruct (decide (k = k')); [by apply sublist_cons | by apply sublist_skip].
        -- etrans; [exact Har|]. destruct (archivo_de k); [apply delete_subseteq | done].
      * assert (Hv : metadatos c = []) by (by destruct (metadatos c) as [|[? ?] ?]).
        split; [done|]. split; [by right | done].
    + apply Z.ltb_ge in E. split; [done|]. split; [left; lia | done].
Qed.

(** X14. Making room in Tier-2: [_limpiar_espacio] stops with the
    requested bytes fitting next to the files on disk, or with an empty
    index; it only removes index entries and files, never adds or
    rewrites one, and keeps the order of the entries that stay. *)
Theorem limpiar_espacio_deja_sitio (bytes_necesarios : Z) c :
  let r := _limpiar_espacio bytes_necesarios c in
  (_calcular_tamano_actual r + bytes_necesarios <= capacidad_bytes c \/ metadatos r = []) /\
  sublist (metadatos r) (metadatos c) /\
  archivos r ⊆ archivos c /\
  (_calcular_tamano_actual c + bytes_necesarios <= capacidad_bytes c -> r = c).
Proof.
  destruct (bucle_limpiar_forma (length (metadatos c)) bytes_necesarios c) as (_ & H1 & H2 & H3);
    [lia|].
  simpl. repeat split; try done.
  intros Hcabe. unfold _limpiar_espacio. destruct (length (metadatos c)); simpl; [done|].
  assert (E : (capacidad_bytes c <? _calcular_tamano_actual c + bytes_necesarios) = false)
    by (apply Z.ltb_ge; lia).
  by rewrite E.
Qed.

End MasL2.

Lemma limpiar_espacio_deja_sitio_testigo :
  CacheL2Disco._limpiar_espacio (B := Modelo.bibliotecas) 5
    (CacheMultinivel.cache_l2 cache_frecuente)
  = CacheMultinivel.cache_l2 cache_frecuente.
Proof.
  apply (limpiar_espacio_deja_sitio (B := Modelo.bibliotecas) 5
           (CacheMultinivel.cache_l2 cache_frecuente)).
  by apply Z.leb_le.
Defined.

(** ** Integrity of the Tier-2 store *)

Section IntegridadL2.
Context {B : Bibliotecas}.
Import CacheL2Disco.
Implicit Types (c : t) (ks : list string).

Lemma integro_nuevo cap : integro (nuevo cap).
Proof. intros k m H. discriminate. Qed.

Lemma sin_alias_distintos ks k k' :
  sin_alias ks -> k ∈ ks -> k' ∈ ks -> k' <> k -> archivo_de k' <> archivo_de k.
Proof.
  intros Hs Hk Hk' Hne Heq. destruct (Hs k Hk) as (p & Hp & Hu).
  apply Hne, Hu; [done|]. by rewrite Heq.
Qed.

(** Unlinking the file of a key leaves the file of a key that does not
    share it. *)
Lemma contenido_de_eliminar k k' c :
  archivo_de k' <> archivo_de k ->
  contenido_de k' (_eliminar_archivo k c) = contenido_de k' c.
Proof.
  intros H. unfold contenido_de, _eliminar_archivo. simpl.
  destruct (archivo_de k') as [p'|] eqn:E'; [|done].
  destruct (archivo_de k) as [p|] eqn:E; [|done].
  rewrite lookup_delete_ne; [done|]. congruence.
Qed.

Lemma claves_eliminar k c :
  claves (metadatos (_eliminar_archivo k c)) ⊆ claves (metadatos c).
Proof.
  simpl. rewrite claves_dict_del. intros x Hx. by apply list_elem_of_filter in Hx as [_ ?].
Qed.

Lemma integro_eliminar ks k c :
  sin_alias ks -> claves (metadatos c) ⊆ ks -> k ∈ claves (metadatos c) ->
  integro c -> integro (_eliminar_archivo k c).
Proof.
  intros Hs Hsub Hk Hi k' m Hget.
  destruct (decide (k' = k)) as [->|Hne]; [simpl in Hget; by rewrite dict_get_del in Hget|].
  simpl in Hget. rewrite dict_get_del_ne in Hget by done.
  rewrite contenido_de_eliminar; [by apply Hi|].
  apply (sin_alias_distintos ks); try done; [by apply Hsub|].
  apply Hsub. by eapply dict_get_Some_elem.
Qed.

Lemma integro_bucle_limpiar ks n necesarios c :
  sin_alias ks -> claves (metadatos c) ⊆ ks ->
  integro c -> integro (bucle_limpiar n necesarios c).
Proof.
  intros Hs. revert c. induction n as [|n IH]; intros c Hsub Hi; simpl; [done|].
  destruct (capacidad_bytes c <? _); [|done].
  destruct (mas_antiguo (metadatos c)) as [k|] eqn:Em; [|done].
  apply IH.
  - etrans; [apply claves_eliminar | done].
  - eapply integro_eliminar; try done. by apply mas_antiguo_elem.
Qed.

Lemma claves_limpiar_espacio necesarios c :
  claves (metadatos (_limpiar_espacio necesarios c)) ⊆ claves (metadatos c).
Proof.
  destruct (bucle_limpiar_forma (length (metadatos c)) necesarios c) as (_ & _ & Hsub & _);
    [lia|].
  intros x Hx. unfold claves in *. eapply elem_of_sublist; [exact Hx|].
  by apply (fmap_sublist fst).
Qed.

Lemma integro_limpiar_espacio ks necesarios c :
  sin_alias ks -> claves (metadatos c) ⊆ ks ->
  integro c -> integro (_limpiar_espacio necesarios c).
Proof. apply integro_bucle_limpiar. Qed.

Lemma claves_dict_set {V} k (v : V) d : claves (dict_set k v d) ⊆ k :: claves d.
Proof.
  induction d as [|[k' v'] r IH]; simpl; [done|].
  destruct (decide (k = k')) as [->|Hne]; simpl.
  - intros x Hx. by right.
  - intros x Hx. apply elem_of_cons in Hx as [->|Hx].
    + right. left.
    + apply IH in Hx. apply elem_of_cons in Hx as [->|Hx]; [left | right; by right].
Qed.

Lemma claves_put_l2 k guardado m c :
  claves (metadatos (put k guardado m c)) ⊆ k :: claves (metadatos c).
Proof.
  pose proof (claves_limpiar_espacio (tamano_bytes m) c) as Hl.
  unfold put. destruct (archivo_de k) as [p|].
  - destruct (pickle_dumps guardado); simpl.
    + etrans; [apply claves_dict_set|]. intros x Hx.
      apply elem_of_cons in Hx as [->|Hx]; [left | right; by apply Hl].
    + intros x Hx. right. by apply Hl.
  - intros x Hx. right. by apply Hl.
Qed.

Lemma integro_put ks k guardado m contenido v c :
  sin_alias ks -> claves (metadatos c) ⊆ ks -> k ∈ ks ->
  integro c ->
  pickle_dumps guardado = Some contenido ->
  decodifica m contenido v ->
  integro (put k guardado m c).
Proof.
  intros Hs Hsub Hk Hi Hd Hdec.
  pose proof (claves_limpiar_espacio (tamano_bytes m) c) as Hl.
  apply (integro_limpiar_espacio ks (tamano_bytes m)) in Hi; [|done..].
  destruct (Hs k Hk) as (p & Hp & _).
  unfold put. rewrite Hp, Hd. intros k' m' Hget. simpl in *.
  destruct (decide (k' = k)) as [->|Hne].
  - rewrite dict_get_set in Hget. injection Hget as <-.
    exists contenido, v. unfold contenido_de. simpl. by rewrite Hp, lookup_insert_eq.
  - rewrite dict_get_set_ne in Hget by done.
    destruct (Hi k' m' Hget) as (co & v' & Hco & Hv'). exists co, v'. split; [|done].
    assert (Hne' : archivo_de k' <> archivo_de k).
    { apply (sin_alias_distintos ks); try done.
      apply Hsub, Hl. by eapply dict_get_Some_elem. }
    unfold contenido_de in *. simpl.
    destruct (archivo_de k') as [p'|]; [|done].
    rewrite lookup_insert_ne; [done|]. congruence.
Qed.

Lemma decodifica_con_acceso ahora f m contenido v :
  decodifica m contenido v -> decodifica (con_acceso ahora f m) contenido v.
Proof. done. Qed.

Lemma claves_get_l2 ahora k c :
  claves (metadatos (snd (get ahora k c))) ⊆ claves (metadatos c).
Proof.
  unfold get.
  destruct (dict_get k (metadatos c)) as [m|] eqn:Em; [|done].
  destruct (contenido_de k c) as [contenido|]; [|done].
  destruct (pickle_loads contenido) as [datos|]; [|done].
  simpl. etrans; [apply claves_dict_set|]. intros x Hx.
  apply elem_of_cons in Hx as [->|Hx]; [by eapply dict_get_Some_elem | done].
Qed.

Lemma integro_get ahora k c : integro c -> integro (snd (get ahora k c)).
Proof.
  intros Hi. unfold get.
  destruct (dict_get k (metadatos c)) as [m|] eqn:Em; [|done].
  destruct (contenido_de k c) as [contenido|] eqn:Ea; [|done].
  destruct (pickle_loads contenido) as [datos|] eqn:El; [|done].
  intros k' m' Hget. simpl in *.
  destruct (decide (k' = k)) as [->|Hne].
  - rewrite dict_get_set in Hget. injection Hget as <-.
    destruct (Hi k m Em) as (co & v & Hco & Hdec). exists co, v. split; [done|].
    by apply decodifica_con_acceso.
  - rewrite dict_get_set_ne in Hget by done. by apply Hi.
Qed.

(** A hit of the Tier-2 store on an indexed key of an intact store. *)
Lemma l2_get_acierto ahora k m c :
  integro c -> dict_get k (metadatos c) = Some m ->
  exists guardado contenido v,
    contenido_de k c = Some contenido /\
    pickle_loads contenido = Some guardado /\
    match (if comprimido m then isinstance_bytes guardado else None) with
    | Some b => pickle_loads (CompresorInteligente.descomprimir b) = Some v
    | None => guardado = v
    end /\
    get ahora k c =
      (Some (guardado, con_acceso ahora (frecuencia_acceso m + 1) m),
       {| capacidad_bytes := capacidad_bytes c;
          metadatos := dict_set k (con_acceso ahora (frecuencia_acceso m + 1) m) (metadatos c);
          archivos := archivos c |}).
Proof.
  intros Hi Hm. destruct (Hi k m Hm) as (contenido & v & Ha & guardado & Hl & Hdec).
  exists guardado, contenido, v. repeat split; try done.
  unfold get. by rewrite Hm, Ha, Hl.
Qed.

Lemma l2_get_fallo ahora k c :
  dict_get k (metadatos c) = None -> get ahora k c = (None, c).
Proof. intros H. unfold get. by rewrite H. Qed.
End IntegridadL2.

(** ** The multi-tier cache: integrity, hits and promotion *)

Section HechosMultinivel.
Context {B : Bibliotecas}.
Import CacheMultinivel.
Implicit Types (c : t).

Lemma comprimir_descomprimir `{!BibliotecasCorrectas B} b tipo :
  CompresorInteligente.descomprimir (CompresorInteligente.comprimir b tipo) = b.
Proof.
  unfold CompresorInteligente.comprimir, CompresorInteligente.descomprimir.
  destruct (gzip_total (match tipo with TEXTO | JSON => 6 | _ => 3 end) b) as [dc Hdc].
  rewrite Hdc. by rewrite (gzip_ida_vuelta _ _ _ Hdc).
Qed.

(** What [put] hands to the Tier-2 store decodes to the value put. *)
Lemma put_l2_forma `{!BibliotecasCorrectas B} ahora k v tipo tiempo prio c b :
  pickle_dumps v = Some b ->
  (10 * len b <=? CacheL1Memoria.capacidad_bytes (cache_l1 c)) = false ->
  exists guardado m contenido,
    pickle_dumps guardado = Some contenido /\
    CacheL2Disco.decodifica m contenido v /\
    put ahora k v tipo tiempo prio c =
      (true, con_estadisticas (mas_bytes (tamano_bytes m) (estadisticas c))
               (con_l2 (CacheL2Disco.put k guardado m (cache_l2 c)) c)).
Proof.
  intros Hb Hgrande. unfold put. rewrite Hb, Hgrande.
  destruct (habilitar_compresion c).
  - destruct (pickle_bytes (CompresorInteligente.comprimir b tipo)) as [s Hs].
    eexists _, _, s. split; [exact Hs|]. split; [|reflexivity].
    exists (PyBytes (CompresorInteligente.comprimir b tipo)). split.
    + by apply pickle_ida_vuelta.
    + simpl. rewrite comprimir_descomprimir. by apply pickle_ida_vuelta.
  - eexists _, _, b. split; [exact Hb|]. split; [|reflexivity].
    exists v. split; [by apply pickle_ida_vuelta | done].
Qed.

Lemma claves_l2_tras_put ahora k v tipo tiempo prio c :
  claves (CacheL2Disco.metadatos (cache_l2 (snd (put ahora k v tipo tiempo prio c))))
    ⊆ k :: claves (CacheL2Disco.metadatos (cache_l2 c)).
Proof.
  unfold put. destruct (pickle_dumps v) as [b|]; [|intros x Hx; by right].
  destruct (10 * len b <=? _); [intros x Hx; by right|].
  destruct (habilitar_compresion c); apply claves_put_l2.
Qed.

Lemma integro_tras_put `{!BibliotecasCorrectas B} ks ahora k v tipo tiempo prio c :
  CacheL2Disco.sin_alias ks ->
  claves (CacheL2Disco.metadatos (cache_l2 c)) ⊆ ks -> k ∈ ks ->
  CacheL2Disco.integro (cache_l2 c) ->
  CacheL2Disco.integro (cache_l2 (snd (put ahora k v tipo tiempo prio c))).
Proof.
  intros Hs Hsub Hk Hi. destruct (pickle_dumps v) as [b|] eqn:Hb.
  - destruct (10 * len b <=? CacheL1Memoria.capacidad_bytes (cache_l1 c)) eqn:Hp.
    + unfold put. by rewrite Hb, Hp.
    + destruct (put_l2_forma ahora k v tipo tiempo prio c b Hb Hp)
        as (g & m & co & Hg & Hdec & ->). simpl.
      by eapply integro_put.
  - unfold put. by rewrite Hb.
Qed.

Lemma claves_l2_tras_get ahora k c :
  claves (CacheL2Disco.metadatos (cache_l2 (snd (get ahora k c))))
    ⊆ claves (CacheL2Disco.metadatos (cache_l2 c)).
Proof.
  unfold get.
  destruct (CacheL1Memoria.get ahora k (cache_l1 c)) as [[[v m]|] l1]; [done|].
  pose proof (claves_get_l2 ahora k (cache_l2 c)) as Hg.
  destruct (CacheL2Disco.get ahora k (cache_l2 c)) as [[[v m]|] l2]; [|done].
  destruct (match (if comprimido m then isinstance_bytes v else None) with
            | Some b => _ | None => _ end); [|done].
  by destruct (_ && _).
Qed.

Lemma integro_tras_get ahora k c :
  CacheL2Disco.integro (cache_l2 c) ->
  CacheL2Disco.integro (cache_l2 (snd (get ahora k c))).
Proof.
  intros Hi. unfold get.
  destruct (CacheL1Memoria.get ahora k (cache_l1 c)) as [[[v m]|] l1]; [done|].
  pose proof (integro_get ahora k (cache_l2 c) Hi) as Hg.
  destruct (CacheL2Disco.get ahora k (cache_l2 c)) as [[[v m]|] l2]; [|done].
  destruct (match (if comprimido m then isinstance_bytes v else None) with
            | Some b => _ | None => _ end); [|done].
  by destruct (_ && _).
Qed.

Lemma l2_tras_limpieza c : cache_l2 (_limpieza_automatica c) = cache_l2 c.
Proof.
  unfold _limpieza_automatica.
  generalize (Nat.div (length (CacheL1Memoria.datos (cache_l1 c))) 4) as n.
  induction n as [|n IH]; simpl; [done|].
  unfold limpiar_uno at 1. by destruct (CacheL1Memoria.datos _).
Qed.

(** Every state reached from an intact Tier-2 store by operations whose
    keys each have a file of their own has an intact Tier-2 store. *)
Lemma integro_alcanzable `{!BibliotecasCorrectas B} ks ops c :
  CacheL2Disco.sin_alias ks ->
  claves_put ops ⊆ ks ->
  claves (CacheL2Disco.metadatos (cache_l2 c)) ⊆ ks ->
  CacheL2Disco.integro (cache_l2 c) ->
  CacheL2Disco.integro (cache_l2 (aplicar_todas ops c)).
Proof.
  intros Hs. revert c. induction ops as [|op ops IH]; intros c Hops Hsub Hi; simpl; [done|].
  assert (Hresto : claves_put ops ⊆ ks).
  { intros x Hx. apply Hops. unfold claves_put. cbn [flat_map].
    apply elem_of_app. by right. }
  destruct op as [ahora k v tipo tiempo prio | ahora k |]; cbn [aplicar].
  - assert (Hk : k ∈ ks).
    { apply Hops. unfold claves_put. cbn [flat_map]. apply elem_of_app. left. left. }
    apply IH; [done | | by eapply integro_tras_put].
    etrans; [apply claves_l2_tras_put|]. intros x Hx.
    apply elem_of_cons in Hx as [->|Hx]; [done | by apply Hsub].
  - apply IH; [done | | by apply integro_tras_get].
    etrans; [apply claves_l2_tras_get | done].
  - apply IH; [done | by rewrite l2_tras_limpieza | by rewrite l2_tras_limpieza].
Qed.

Lemma get_acierto_l1 ahora k v m c :
  dict_get k (CacheL1Memoria.datos (cache_l1 c)) = Some (v, m) ->
  exists l1,
    get ahora k c = (v, con_estadisticas (mas_hit_l1 (estadisticas c)) (con_l1 l1 c)) /\
    dict_get k (CacheL1Memoria.datos l1) = Some (v, con_acceso ahora (frecuencia_acceso m + 1) m).
Proof.
  intros H. destruct (l1_get_acierto ahora k v m _ H) as (l1 & Hg & Hd).
  exists l1. split; [|done]. unfold get. by rewrite Hg.
Qed.

(** A get that misses Tier-1, hits an intact Tier-2 entry that is small
    and frequent enough, and so promotes it. *)
Lemma get_promueve ahora k m c :
  CacheL2Disco.integro (cache_l2 c) ->
  dict_get k (CacheL1Memoria.datos (cache_l1 c)) = None ->
  dict_get k (CacheL2Disco.metadatos (cache_l2 c)) = Some m ->
  20 * tamano_bytes m <= CacheL1Memoria.capacidad_bytes (cache_l1 c) ->
  3 <= frecuencia_acceso m + 1 ->
  let m' := con_acceso ahora (frecuencia_acceso m + 1) m in
  exists v contenido l2,
    CacheL2Disco.contenido_de k (cache_l2 c) = Some contenido /\
    CacheL2Disco.decodifica m contenido v /\
    CacheL2Disco.archivos l2 = CacheL2Disco.archivos (cache_l2 c) /\
    CacheL2Disco.metadatos l2 = dict_set k m' (CacheL2Disco.metadatos (cache_l2 c)) /\
    get ahora k c =
      (v, con_l1 (CacheL1Memoria.put k v m' (cache_l1 c))
            (con_estadisticas (mas_hit_l2 (estadisticas c)) (con_l2 l2 c))).
Proof.
  intros Hi Hl1 Hm Htam Hfrec m'.
  destruct (l2_get_acierto ahora k m _ Hi Hm) as (g & co & v & Ha & Hl & Hdec & Hget).
  exists v, co,
    {| CacheL2Disco.capacidad_bytes := CacheL2Disco.capacidad_bytes (cache_l2 c);
       CacheL2Disco.metadatos := dict_set k m' (CacheL2Disco.metadatos (cache_l2 c));
       CacheL2Disco.archivos := CacheL2Disco.archivos (cache_l2 c) |}.
  split; [exact Ha|]. split; [by exists g|]. split; [done|]. split; [done|].
  unfold get. rewrite (l1_get_fallo _ _ _ Hl1), Hget.
  assert (Hd : match (if comprimido m' then isinstance_bytes g else None) with
               | Some b => pickle_loads (CompresorInteligente.descomprimir b)
               | None => Some g end = Some v).
  { change (comprimido m') with (comprimido m).
    destruct (if comprimido m then isinstance_bytes g else None); [done | by subst]. }
  fold m'. rewrite Hd.
  match goal with |- (if ?cnd then _ else _) = _ => assert (Hc : cnd = true) end.
  { apply andb_true_iff. split; apply Z.leb_le; [exact Htam | exact Hfrec]. }
  rewrite Hc. reflexivity.
Qed.

(** C9. Promotion law: for a key indexed in an intact Tier-2 store whose
    recorded size is at most 5% of the Tier-1 capacity and whose access
    counter reaches at least 3 with this access (so in particular when it
    already was at least 3), a get leaves the key in Tier-1 and the next
    get of the key is a Tier-1 hit returning the same value. When the key
    was not in Tier-1 before, the Tier-1 entry is the decoded Tier-2
    entry. *)
Theorem ley_de_promocion (c : t) (k : string) (m : MetadataCache) (ahora ahora' : Z) :
  CacheL2Disco.integro (cache_l2 c) ->
  dict_get k (CacheL2Disco.metadatos (cache_l2 c)) = Some m ->
  20 * tamano_bytes m <= CacheL1Memoria.capacidad_bytes (cache_l1 c) ->
  3 <= frecuencia_acceso m + 1 ->
  let r1 := get ahora k c in
  let r2 := get ahora' k (snd r1) in
  en_l1 k (snd r1) = true /\
  fst r2 = fst r1 /\
  estadisticas (snd r2) = mas_hit_l1 (estadisticas (snd r1)) /\
  (en_l1 k c = false ->
   exists contenido,
     CacheL2Disco.contenido_de k (cache_l2 c) = Some contenido /\
     CacheL2Disco.decodifica m contenido (fst r1) /\
     dict_get k (CacheL1Memoria.datos (cache_l1 (snd r1))) =
       Some (fst r1, con_acceso ahora (frecuencia_acceso m + 1) m)).
Proof.
  intros Hi Hm Htam Hfrec r1 r2.
  assert (Hcasos :
    exists v mm, dict_get k (CacheL1Memoria.datos (cache_l1 (snd r1))) = Some (v, mm) /\
                 fst r1 = v /\
                 (en_l1 k c = false ->
                  mm = con_acceso ahora (frecuencia_acceso m + 1) m /\
                  exists contenido,
                    CacheL2Disco.contenido_de k (cache_l2 c) = Some contenido /\
                    CacheL2Disco.decodifica m contenido v)).
  { subst r1. destruct (dict_get k (CacheL1Memoria.datos (cache_l1 c))) as [[v0 m0]|] eqn:E1.
    - destruct (get_acierto_l1 ahora k v0 m0 c E1) as (l1 & -> & Hd).
      exists v0, (con_acceso ahora (frecuencia_acceso m0 + 1) m0). split; [exact Hd|].
      split; [done|]. unfold en_l1, dict_in. by rewrite E1.
    - destruct (get_promueve ahora k m c Hi E1 Hm Htam Hfrec)
        as (v & co & l2 & Ha & Hdec & _ & _ & ->).
      exists v, (con_acceso ahora (frecuencia_acceso m + 1) m). split.
      + apply l1_get_tras_put.
      + split; [done|]. intros _. split; [done|]. by exists co. }
  destruct Hcasos as (v & mm & Hd & Hv & Hnuevo).
  destruct (get_acierto_l1 ahora' k v mm (snd r1) Hd) as (l1 & Hg2 & _).
  subst r2. rewrite Hg2. simpl. repeat split.
  - unfold en_l1, dict_in. by rewrite Hd.
  - done.
  - intros Hno. destruct (Hnuevo Hno) as (-> & co & Ha & Hdec).
    exists co. rewrite Hv. by repeat split.
Qed.

(** C3, as amended. Promotion copies: after a get that promotes a Tier-2
    entry, the key is resident in Tier-1 and still resident in Tier-2. *)
Theorem promocion_copia (c : t) (k : string) (m : MetadataCache) (ahora : Z) :
  CacheL2Disco.integro (cache_l2 c) ->
  en_l1 k c = false ->
  dict_get k (CacheL2Disco.metadatos (cache_l2 c)) = Some m ->
  20 * tamano_bytes m <= CacheL1Memoria.capacidad_bytes (cache_l1 c) ->
  3 <= frecuencia_acceso m + 1 ->
  en_l1 k (snd (get ahora k c)) = true /\ en_l2 k (snd (get ahora k c)) = true.
Proof.
  intros Hi Hl1 Hm Htam Hfrec.
  assert (E1 : dict_get k (CacheL1Memoria.datos (cache_l1 c)) = None).
  { unfold en_l1, dict_in in Hl1. by destruct (dict_get k _). }
  destruct (get_promueve ahora k m c Hi E1 Hm Htam Hfrec)
    as (v & co & l2 & Ha & Hdec & Har & Hme & ->).
  split.
  - unfold en_l1, dict_in. cbn [snd cache_l1 con_l1]. by rewrite l1_get_tras_put.
  - unfold en_l2, CacheL2Disco.residente, dict_in, CacheL2Disco.contenido_de in *.
    cbn [snd cache_l2 con_l1 con_estadisticas con_l2].
    by rewrite Hme, Har, dict_get_set, Ha.
Qed.

(** Round trip through the cache: a serialisable value that was put is
    what the next get returns, on the Tier-1 path and on both Tier-2
    paths, provided the put does not leave an older Tier-1 copy of the key
    in front of a Tier-2 entry and the key of a Tier-2 entry designates a
    file. *)
Lemma ida_y_vuelta `{!BibliotecasCorrectas B} ahora ahora' k v tipo tiempo prio c b :
  pickle_dumps v = Some b ->
  (en_l1 k c = false /\ is_Some (archivo_de k)) \/
    10 * len b <= CacheL1Memoria.capacidad_bytes (cache_l1 c) ->
  fst (put ahora k v tipo tiempo prio c) = true /\
  fst (get ahora' k (snd (put ahora k v tipo tiempo prio c))) = v.
Proof.
  intros Hb Hcaso.
  destruct (10 * len b <=? CacheL1Memoria.capacidad_bytes (cache_l1 c)) eqn:Hp.
  - unfold put. rewrite Hb, Hp. split; [done|]. cbn [snd].
    edestruct (get_acierto_l1 ahora' k v) as (l1 & -> & _); [|done].
    cbn [cache_l1 con_estadisticas con_l1]. apply l1_get_tras_put.
  - destruct Hcaso as [[Hl1 [p Hp']] | Hle]; [|apply Z.leb_gt in Hp; lia].
    destruct (put_l2_forma ahora k v tipo tiempo prio c b Hb Hp)
      as (g & m & co & Hg & (g' & Hl & Hdec) & ->).
    split; [done|]. cbn [snd].
    assert (Hg' : g' = g).
    { pose proof (pickle_ida_vuelta _ _ Hg) as H. congruence. }
    subst g'.
    assert (E1 : dict_get k (CacheL1Memoria.datos (cache_l1 c)) = None).
    { unfold en_l1, dict_in in Hl1. by destruct (dict_get k _). }
    unfold get. cbn [cache_l1 cache_l2 con_estadisticas con_l2].
    rewrite (l1_get_fallo _ _ _ E1).
    unfold CacheL2Disco.get, CacheL2Disco.contenido_de, CacheL2Disco.put. rewrite Hp', Hg.
    cbn [CacheL2Disco.metadatos CacheL2Disco.archivos].
    rewrite dict_get_set, lookup_insert_eq, (pickle_ida_vuelta _ _ Hg).
    cbn [comprimido con_acceso].
    assert (Hd : match (if comprimido m then isinstance_bytes g else None) with
                 | Some b0 => pickle_loads (CompresorInteligente.descomprimir b0)
                 | None => Some g end = Some v).
    { destruct (if comprimido m then isinstance_bytes g else None); [done | by subst]. }
    rewrite Hd. by destruct (_ && _).
Qed.

Lemma evictions_put ahora k v tipo tiempo prio c :
  evictions (estadisticas (snd (put ahora k v tipo tiempo prio c))) = evictions (estadisticas c).
Proof.
  destruct (estadisticas_put ahora k v tipo tiempo prio c) as (n & [[_ ->] | ->]); done.
Qed.
End HechosMultinivel.

(** ** The reference libraries satisfy the laws *)

Section ModeloCorrecto.
Import Modelo.

Lemma dec_cod_pos p : dec_pos (cod_pos p) = Some p.
Proof. induction p as [p IH|p IH|]; simpl; by rewrite ?IH. Qed.

Lemma leer_cod_pos p r : leer_pos (cod_pos p ++ x02 :: r) = Some (p, r).
Proof. induction p as [p IH|p IH|]; simpl; by rewrite ?IH. Qed.

Lemma quitar_ceros_correcto d p n : quitar_ceros d = (p, n) -> d = p ++ repeat x00 n.
Proof.
  revert p n. induction d as [|b r IH]; intros p n; simpl.
  - by intros [= <- <-].
  - destruct (quitar_ceros r) as [p' n']. specialize (IH p' n' eq_refl). subst r.
    destruct p' as [|b' p'].
    + destruct (Byte.eqb b x00) eqn:E; intros [= <- <-]; [|done].
      apply Byte.byte_dec_bl in E. by subst b.
    + by intros [= <- <-].
Qed.

Lemma modelo_correcto : BibliotecasCorrectas bibliotecas.
Proof.
  split; simpl.
  - intros o b H. destruct o as [|[|]|[|p|p]| s | l | n]; simpl in H;
      try discriminate; injection H as <-; simpl; rewrite ?dec_cod_pos; try done.
    by rewrite string_of_list_byte_of_string.
  - intros b. by eexists.
  - intros n d dc. unfold compress. destruct (quitar_ceros d) as [p z] eqn:E.
    intros [= <-]. simpl. rewrite leer_cod_pos, SuccNat2Pos.id_succ. simpl.
    by rewrite (quitar_ceros_correcto d p z E).
  - intros n d. unfold compress. destruct (quitar_ceros d). by eexists.
Qed.
End ModeloCorrecto.

(** ** The cache on concrete histories *)

Lemma cache_frecuente_integra :
  CacheL2Disco.integro (B := Modelo.bibliotecas) (CacheMultinivel.cache_l2 cache_frecuente).
Proof.
  apply (integro_alcanzable (BibliotecasCorrectas0 := modelo_correcto) ["k"%string]).
  - intros k Hk. apply list_elem_of_singleton in Hk as ->. exists "k.cache"%string.
    split; [done|]. intros k' Hk' _. by apply list_elem_of_singleton in Hk'.
  - cbn [CacheMultinivel.claves_put flat_map app]. by intros x Hx.
  - intros x Hx. by apply elem_of_nil in Hx.
  - apply integro_nuevo.
Qed.

Lemma ley_de_promocion_testigo :
  CacheMultinivel.en_l1 "k" cache_frecuente = false /\
  CacheMultinivel.en_l1 "k" cache_promovida = true /\
  fst (CacheMultinivel.get (B := Modelo.bibliotecas) 4 "k" cache_promovida) = Modelo.bloque 50.
Proof.
  split; [reflexivity|].
  pose proof (ley_de_promocion (B := Modelo.bibliotecas) cache_frecuente "k" meta_frecuente 3 4
                cache_frecuente_integra eq_refl
                ltac:(by apply Z.leb_le) ltac:(by apply Z.leb_le)) as (H1 & H2 & _).
  split; [exact H1|]. etrans; [exact H2 | by vm_compute].
Defined.

Lemma promocion_copia_testigo :
  CacheMultinivel.en_l1 "k" cache_promovida = true /\
  CacheMultinivel.en_l2 (B := Modelo.bibliotecas) "k" cache_promovida = true.
Proof.
  exact (promocion_copia (B := Modelo.bibliotecas) cache_frecuente "k" meta_frecuente 3
           cache_frecuente_integra eq_refl eq_refl
           ltac:(by apply Z.leb_le) ltac:(by apply Z.leb_le)).
Defined.

(** C3, counterexample. After put; get; get of one compressible value the
    key is resident in both tiers. *)
Lemma exclusividad_contraejemplo :
  ~ CacheMultinivel.exclusivo (B := Modelo.bibliotecas) cache_promovida.
Proof. intros H. apply (H "k"). by vm_compute. Qed.

(** C7, failing input. A key put first with a small value and then with
    a large one reads back the small value: the second put wrote Tier-2
    and left the Tier-1 copy in place, and get answers from Tier-1. On
    both Tier-2 paths (compressed or not). *)
Lemma put_get_copia_obsoleta (compresion : bool) :
  fst (CacheMultinivel.put (B := Modelo.bibliotecas) 2 "k" (Modelo.bloque 20) JSON 0 5
         (snd (CacheMultinivel.put (B := Modelo.bibliotecas) 1 "k" (PyInt 5) JSON 0 5
                 (CacheMultinivel.nuevo 100 1000 compresion true)))) = true /\
  CacheMultinivel.en_l2 (B := Modelo.bibliotecas) "k" (cache_obsoleta compresion) = true /\
  fst (CacheMultinivel.get (B := Modelo.bibliotecas) 3 "k" (cache_obsoleta compresion)) = PyInt 5 /\
  PyInt 5 <> Modelo.bloque 20.
Proof. destruct compresion; by vm_compute. Qed.

(** C5, failing input. In the 10 MB scenario the least recently accessed
    key "A" is gone and the ten others are resident, so one entry was
    evicted; the statistics report 0 evictions. *)
Lemma escenario_diez_megas :
  CacheMultinivel.en_l1 "A" cache_escenario = false /\
  CacheMultinivel.en_l2 (B := Modelo.bibliotecas) "A" cache_escenario = false /\
  fst (CacheMultinivel.get (B := Modelo.bibliotecas) 12 "A" cache_escenario) = PyNone /\
  claves (CacheL2Disco.metadatos (CacheMultinivel.cache_l2 cache_escenario)) =
    ["B"; "C"; "D"; "E"; "F"; "G"; "H"; "I"; "J"; "K"]%string /\
  CacheL2Disco._calcular_tamano_actual (B := Modelo.bibliotecas)
    (CacheMultinivel.cache_l2 cache_escenario) = 10 * MB /\
  evictions (CacheMultinivel.estadisticas cache_escenario) = 0.
Proof. by vm_compute. Qed.

(** ** The priority queue *)

Section HechosCola.
Import QueueInteligente.
Implicit Types (q : t).

(** C2, failing input. Of two tasks of priority NORMAL, "a" created at
    instant 1 and "b" created at instant 2, [obtener_tarea] returns "b"
    first: the bucket is keyed by the negated creation time and
    [PriorityQueue.get] takes the smallest key. Across buckets the scan
    does go from CRITICA down to BAJA. *)
Lemma obtener_tarea_ultima_primero :
  cola_normal (cola_prioridad cola_dos_normales) = [(-2, "b"%string); (-1, "a"%string)] /\
  TareaParalelizacion.id <$> fst (obtener_tarea 10 cola_dos_normales) = Some "b"%string /\
  TareaParalelizacion.id <$>
    fst (obtener_tarea 11 (snd (obtener_tarea 10 cola_dos_normales))) = Some "a"%string /\
  (let r1 := obtener_tarea 10 cola_tres_prioridades in
   let r2 := obtener_tarea 11 (snd r1) in
   let r3 := obtener_tarea 12 (snd r2) in
   (TareaParalelizacion.id <$> fst r1, TareaParalelizacion.id <$> fst r2,
    TareaParalelizacion.id <$> fst r3) = (Some "c", Some "n", Some "l")%string).
Proof. by vm_compute. Qed.

(** Within a bucket the later creation time always wins: for any two
    creation times [ta < tb], whatever the order of the two enqueues. *)
Lemma obtener_tarea_prefiere_reciente (p : PrioridadTarea) (ta tb ahora : Z) (f : Callable)
    (primero_a : bool) :
  ta < tb ->
  let a := tarea_ej "a" p ta f in
  let b := tarea_ej "b" p tb f in
  let q := if primero_a
           then snd (agregar_tarea b (snd (agregar_tarea a (nuevo 0))))
           else snd (agregar_tarea a (snd (agregar_tarea b (nuevo 0)))) in
  TareaParalelizacion.id <$> fst (obtener_tarea ahora q) = Some "b"%string.
Proof.
  intros Hlt a b q. subst q a b.
  assert (H1 : (- tb <? - ta) = true) by (apply Z.ltb_lt; lia).
  assert (H2 : (- ta <? - tb) = false) by (apply Z.ltb_ge; lia).
  assert (H3 : (- ta =? - tb) = false) by (apply Z.eqb_neq; lia).
  destruct primero_a, p; unfold obtener_tarea, agregar_tarea; simpl;
    unfold PriorityQueue.menor; simpl; rewrite ?H1, ?H2, ?H3; simpl; reflexivity.
Qed.




(** C4, as amended. [cancelar_tarea] checks no state: for every task in
    the table, whatever its state, it returns true and the task is
    CANCELADA afterwards; nothing else changes. For an unknown id it
    returns false and changes nothing. *)
Theorem cancelar_tarea_sin_guardia (ahora : Z) (tarea_id : string)
    (tarea : TareaParalelizacion.t) q :
  tareas q !! tarea_id = Some tarea ->
  fst (cancelar_tarea ahora tarea_id q) = true /\
  estado_de tarea_id (snd (cancelar_tarea ahora tarea_id q)) = Some CANCELADA /\
  (forall otra, otra <> tarea_id ->
     tareas (snd (cancelar_tarea ahora tarea_id q)) !! otra = tareas q !! otra) /\
  cola_prioridad (snd (cancelar_tarea ahora tarea_id q)) = cola_prioridad q /\
  (forall desconocida, tareas q !! desconocida = None ->
     cancelar_tarea ahora desconocida q = (false, q)).
Proof.
  intros H. unfold cancelar_tarea, estado_de. rewrite H. simpl.
  rewrite lookup_insert_eq. repeat split; try done.
  - intros otra Hne. by rewrite lookup_insert_ne.
  - intros d Hd. by rewrite Hd.
Qed.

Lemma cancelar_tarea_sin_guardia_testigo :
  estado_de "a" cola_una_en_proceso = Some EN_PROCESO /\
  fst (cancelar_tarea 6 "a" cola_una_en_proceso) = true /\
  estado_de "a" (snd (cancelar_tarea 6 "a" cola_una_en_proceso)) = Some CANCELADA.
Proof.
  split; [reflexivity|].
  destruct (cancelar_tarea_sin_guardia 6 "a"
              (TareaParalelizacion.con_inicio 5
                 (TareaParalelizacion.con_estado EN_PROCESO
                    (TareaParalelizacion.con_estado EN_COLA (tarea_ej "a" NORMAL 1 f_uno))))
              cola_una_en_proceso eq_refl) as (H1 & H2 & _).
  split; [exact H1 | exact H2].
Defined.

(** C4, counterexample. A task that is EN_PROCESO is cancelled: the call
    returns true and the task is CANCELADA. *)
Lemma cancelar_tarea_contraejemplo :
  estado_de "a" cola_una_en_proceso = Some EN_PROCESO /\
  fst (cancelar_tarea 6 "a" cola_una_en_proceso) = true /\
  estado_de "a" (snd (cancelar_tarea 6 "a" cola_una_en_proceso)) = Some CANCELADA.
Proof. by vm_compute. Qed.
End HechosCola.

(** ** More on the Tier-1 store *)

Section MasL1.
Import CacheL1Memoria.
Implicit Types (c : t).

Lemma bien_formado_evict c : bien_formado c -> bien_formado (snd (_evict_lru c)).
Proof.
  intros H. unfold _evict_lru.
  destruct (datos c) as [|[k0 [v0 m0]] resto] eqn:E; simpl; [done|].
  destruct H as [Hnd Hsum]. rewrite E in Hnd, Hsum.
  simpl in Hnd, Hsum. apply NoDup_cons in Hnd as [_ Hnd]. split; simpl; [done | lia].
Qed.

Lemma bien_formado_clear c : bien_formado (clear c).
Proof. split; simpl; [constructor | done]. Qed.

Lemma bien_formado_historia ops c :
  bien_formado c -> bien_formado (HistoriaL1.ejecutar ops c).
Proof.
  revert c. induction ops as [|op ops IH]; intros c H; simpl; [done|].
  apply IH. destruct op; cbn [HistoriaL1.paso].
  - by apply bien_formado_get.
  - by apply bien_formado_put.
  - by apply bien_formado_evict.
  - apply bien_formado_clear.
Qed.

(** X1. Size accounting of Tier-1: after any history of get, put,
    _evict_lru and clear on an empty store, the keys of [datos] are
    pairwise distinct and [tamano_actual] is the sum of the sizes recorded
    for the resident entries. *)
Theorem l1_contabilidad_exacta (cap : Z) (ops : list HistoriaL1.llamada) :
  NoDup (claves (datos (HistoriaL1.ejecutar ops (nuevo cap)))) /\
  tamano_actual (HistoriaL1.ejecutar ops (nuevo cap)) =
    suma_tamanos (datos (HistoriaL1.ejecutar ops (nuevo cap))).
Proof. apply bien_formado_historia, bien_formado_nuevo. Qed.

Lemma suma_no_negativa d : HistoriaL1.no_negativos d -> 0 <= suma_tamanos d.
Proof. induction 1 as [|e r He Hr IH]; simpl; lia. Qed.

Lemma no_negativos_dict_del k d : HistoriaL1.no_negativos d -> HistoriaL1.no_negativos (dict_del k d).
Proof.
  induction 1 as [|[k' x] r He Hr IH]; simpl; [constructor|].
  destruct (decide (k = k')); [done | by constructor].
Qed.

Lemma no_negativos_drop j d : HistoriaL1.no_negativos d -> HistoriaL1.no_negativos (drop j d).
Proof. apply Forall_drop. Qed.

Lemma acotado_put k v m c :
  0 <= tamano_bytes m <= capacidad_bytes c -> HistoriaL1.acotado c -> HistoriaL1.acotado (put k v m c).
Proof.
  intros Hm (Hbf & Hnn & Hle).
  pose proof (bien_formado_put k v m c Hbf) as Hbf'.
  destruct (put_forma k v m c) as (j & Hj & Hd & Ht & Hc & Hfin & _). cbv zeta in *.
  split; [done|]. split.
  - rewrite Hd. apply Forall_app. split.
    + by apply no_negativos_drop, no_negativos_dict_del.
    + constructor; [simpl; lia | constructor].
  - rewrite Hc. destruct Hfin as [H|H]; [lia|].
    destruct Hbf' as [_ Hs]. rewrite Hs, Hd, H. simpl. lia.
Qed.

Lemma acotado_get ahora k c : HistoriaL1.acotado c -> HistoriaL1.acotado (snd (get ahora k c)).
Proof.
  intros (Hbf & Hnn & Hle). split; [by apply bien_formado_get|].
  unfold get. destruct (dict_get k (datos c)) as [[v m]|] eqn:E; simpl; [|done].
  split; [|done]. apply Forall_app. split; [by apply no_negativos_dict_del|].
  constructor; [|constructor]. simpl.
  clear -E Hnn. induction Hnn as [|[k' [v' m']] r He Hr IH]; simpl in E; [done|].
  destruct (decide (k = k')); [by injection E as <- <- | by apply IH].
Qed.

Lemma acotado_evict c : HistoriaL1.acotado c -> HistoriaL1.acotado (snd (_evict_lru c)).
Proof.
  intros (Hbf & Hnn & Hle). split; [by apply bien_formado_evict|].
  unfold _evict_lru. destruct (datos c) as [|[k0 [v0 m0]] resto] eqn:E; simpl.
  - by rewrite E.
  - apply Forall_cons in Hnn as [H0 Hnn]. simpl in H0. split; [done | lia].
Qed.

(** X2. Capacity bound of Tier-1: on any history from an empty store of
    capacity [cap >= 0] in which every entry put has a recorded size
    between 0 and [cap], the resident bytes never exceed the capacity. *)
Theorem l1_nunca_excede_capacidad (cap : Z) (ops : list HistoriaL1.llamada) :
  0 <= cap ->
  Forall (HistoriaL1.entrada_cabe cap) ops ->
  suma_tamanos (datos (HistoriaL1.ejecutar ops (nuevo cap))) <= cap.
Proof.
  intros Hcap Hops.
  assert (H : forall c, capacidad_bytes c = cap -> HistoriaL1.acotado c ->
                capacidad_bytes (HistoriaL1.ejecutar ops c) = cap /\
                HistoriaL1.acotado (HistoriaL1.ejecutar ops c)).
  { induction Hops as [|op ops Hop Hops IH]; intros c Hc Ha; simpl; [done|].
    apply IH.
    - destruct op as [ahora k | k v m | |]; cbn [HistoriaL1.paso].
      + unfold get. by destruct (dict_get k (datos c)) as [[? ?]|].
      + by destruct (put_forma k v m c) as (j & _ & _ & _ & -> & _).
      + unfold _evict_lru. by destruct (datos c) as [|[? [? ?]] ?].
      + done.
    - destruct op as [ahora k | k v m | |]; cbn [HistoriaL1.paso].
      + by apply acotado_get.
      + apply acotado_put; [simpl in Hop; lia | done].
      + by apply acotado_evict.
      + split; [apply bien_formado_clear|]. split; [constructor | simpl; lia]. }
  destruct (H (nuevo cap)) as (Hc & (_ & Hs) & _ & Hle).
  - done.
  - split; [apply bien_formado_nuevo|]. split; [constructor | simpl; lia].
  - rewrite <- Hs. rewrite Hc in Hle. exact Hle.
Qed.

Lemma l1_nunca_excede_capacidad_testigo :
  suma_tamanos
    (datos (HistoriaL1.ejecutar
              [HistoriaL1.Put "a" (PyInt 1) (md "a" 10);
               HistoriaL1.Put "b" (PyInt 2) (md "b" 10);
               HistoriaL1.Get 5 "a";
               HistoriaL1.Put "c" (PyInt 3) (md "c" 15)]
              (nuevo 25))) <= 25.
Proof.
  apply l1_nunca_excede_capacidad; [lia|].
  repeat constructor; simpl; lia.
Defined.

(** X3. Insert then look up in Tier-1: a get of the key just put returns
    the value put, with the metadata put except for the access time (now)
    and the access counter (one more); an entry larger than the whole
    tier is stored all the same, alone. *)
Theorem l1_put_luego_get (ahora : Z) (k : string) (v : objeto) (m : MetadataCache) c :
  fst (get ahora k (put k v m c)) =
    Some (v, con_acceso ahora (frecuencia_acceso m + 1) m) /\
  (bien_formado c -> HistoriaL1.no_negativos (datos c) -> capacidad_bytes c < tamano_bytes m ->
   datos (put k v m c) = [(k, (v, m))]).
Proof.
  split.
  - destruct (l1_get_acierto ahora k v m _ (l1_get_tras_put k v m c)) as (c' & -> & _). done.
  - intros Hbf Hnn Hgrande.
    destruct (put_forma k v m c) as (j & _ & Hd & _ & _ & Hfin & _). cbv zeta in *.
    rewrite (tamano_tras_borrar k c Hbf) in Hfin.
    destruct Hfin as [H|H]; [|by rewrite Hd, H].
    exfalso.
    pose proof (suma_no_negativa _ (no_negativos_drop j _ (no_negativos_dict_del k _ Hnn))).
    rewrite (suma_take_drop j (dict_del k (datos c))) in H. lia.
Qed.

Lemma l1_put_luego_get_testigo :
  datos (put "g" (PyInt 9) (md "g" 50)
           (HistoriaL1.ejecutar [HistoriaL1.Put "a" (PyInt 1) (md "a" 10)] (nuevo 20)))
  = [("g"%string, (PyInt 9, md "g" 50))].
Proof.
  apply (proj2 (l1_put_luego_get 0 "g" (PyInt 9) (md "g" 50)
                  (HistoriaL1.ejecutar [HistoriaL1.Put "a" (PyInt 1) (md "a" 10)] (nuevo 20)))).
  - apply bien_formado_historia, bien_formado_nuevo.
  - repeat constructor. simpl. lia.
  - simpl. lia.
Defined.

Lemma dict_get_sublista_final (d : list (string * (objeto * MetadataCache))) j k x :
  NoDup (claves d) -> dict_get k (drop j d) = Some x -> dict_get k d = Some x.
Proof.
  revert j. induction d as [|[k' y] r IH]; intros j Hnd H.
  - by rewrite drop_nil in H.
  - destruct j as [|j]; [done|]. simpl in H.
    apply NoDup_cons in Hnd as [Hk' Hnd]. simpl.
    destruct (decide (k = k')) as [->|Hne]; [|by eapply IH].
    exfalso. apply Hk'.
    assert (Hin : k' ∈ claves (drop j r)).
    { destruct (decide (k' ∈ claves (drop j r))) as [|Hn]; [done|].
      apply dict_get_None in Hn. congruence. }
    rewrite claves_drop in Hin. eapply elem_of_sublist; [exact Hin | apply sublist_drop].
Qed.

(** X4. A put in Tier-1 never alters another key: after [put k], any other
    key is either gone (evicted) or has exactly the value and metadata it
    had before. *)
Theorem l1_put_no_altera_otras (k k' : string) (v : objeto) (m : MetadataCache) c :
  bien_formado c -> k' <> k ->
  dict_get k' (datos (put k v m c)) = None \/
  dict_get k' (datos (put k v m c)) = dict_get k' (datos c).
Proof.
  intros [Hnd _] Hne.
  destruct (put_forma k v m c) as (j & _ & Hd & _). cbv zeta in Hd. rewrite Hd.
  rewrite dict_get_app_ne by done.
  destruct (dict_get k' (drop j (dict_del k (datos c)))) as [x|] eqn:E; [right | by left].
  apply dict_get_sublista_final in E.
  - by rewrite dict_get_del_ne in E.
  - rewrite claves_dict_del. by apply NoDup_filter.
Qed.

Lemma l1_put_no_altera_otras_testigo :
  dict_get "b"
    (datos (put "c" (PyInt 3) (md "c" 10)
              (ejecutar [Put "a" (PyInt 1) (md "a" 10); Put "b" (PyInt 2) (md "b" 10)]
                 (nuevo 20)))) = None \/
  dict_get "b"
    (datos (put "c" (PyInt 3) (md "c" 10)
              (ejecutar [Put "a" (PyInt 1) (md "a" 10); Put "b" (PyInt 2) (md "b" 10)]
                 (nuevo 20)))) =
  dict_get "b"
    (datos (ejecutar [Put "a" (PyInt 1) (md "a" 10); Put "b" (PyInt 2) (md "b" 10)]
              (nuevo 20))).
Proof.
  apply l1_put_no_altera_otras.
  - apply bien_formado_ejecutar, bien_formado_nuevo.
  - discriminate.
Defined.
End MasL1.

(** ** More on the multi-tier cache *)

Section MasMultinivel.
Context {B : Bibliotecas}.
Import CacheMultinivel.
Implicit Types (c : t).

Lemma iterar_limpiar_uno (n : nat) c :
  (n <= length (CacheL1Memoria.datos (cache_l1 c)))%nat ->
  let r := Nat.iter n limpiar_uno c in
  CacheL1Memoria.datos (cache_l1 r) = drop n (CacheL1Memoria.datos (cache_l1 c)) /\
  CacheL1Memoria.tamano_actual (cache_l1 r) =
    CacheL1Memoria.tamano_actual (cache_l1 c) -
    CacheL1Memoria.suma_tamanos (take n (CacheL1Memoria.datos (cache_l1 c))) /\
  estadisticas r =
    {| hits_l1 := hits_l1 (estadisticas c); hits_l2 := hits_l2 (estadisticas c);
       hits_l3 := hits_l3 (estadisticas c); misses := misses (estadisticas c);
       evictions := evictions (estadisticas c) + Z.of_nat n;
       bytes_almacenados := bytes_almacenados (estadisticas c) |} /\
  cache_l2 r = cache_l2 c /\
  habilitar_compresion r = habilitar_compresion c /\
  auto_limpieza r = auto_limpieza c.
Proof.
  induction n as [|n IH]; intros Hn.
  - simpl. rewrite drop_0. repeat split; try done; try lia.
    destruct (estadisticas c). simpl. f_equal. lia.
  - destruct IH as (Hd & Ht & He & H2 & Hc & Ha); [lia|].
    rewrite Nat.iter_succ. set (r := Nat.iter n limpiar_uno c) in *. cbv zeta in *.
    destruct (lookup_lt_is_Some_2 (CacheL1Memoria.datos (cache_l1 c)) n ltac:(lia))
      as [[k0 [v0 m0]] Hx].
    pose proof (drop_S _ _ _ Hx) as Hdrop.
    pose proof (take_S_r _ _ _ Hx) as Htake.
    unfold limpiar_uno. rewrite Hd, Hdrop. unfold CacheL1Memoria._evict_lru.
    rewrite Hd, Hdrop. cbn. rewrite He, Ht, Htake, suma_tamanos_app. cbn.
    split; [done|]. split; [lia|]. split; [|done].
    unfold mas_eviction. cbn. f_equal. lia.
Qed.

(** X6. The automatic clean-up: [_limpieza_automatica] removes exactly
    the floor(n/4) least recently used of the n Tier-1 entries, lowers
    the Tier-1 byte count by their sizes, adds that number to the
    eviction counter and touches nothing else; an iteration of the
    monitor runs it only when auto clean-up is on and memory use is at
    least 75%. *)
Theorem limpieza_automatica_un_cuarto (uso_memoria : Z) c :
  let n := Nat.div (length (CacheL1Memoria.datos (cache_l1 c))) 4 in
  let r := _limpieza_automatica c in
  CacheL1Memoria.datos (cache_l1 r) = drop n (CacheL1Memoria.datos (cache_l1 c)) /\
  CacheL1Memoria.tamano_actual (cache_l1 r) =
    CacheL1Memoria.tamano_actual (cache_l1 c) -
    CacheL1Memoria.suma_tamanos (take n (CacheL1Memoria.datos (cache_l1 c))) /\
  evictions (estadisticas r) = evictions (estadisticas c) + Z.of_nat n /\
  bytes_almacenados (estadisticas r) = bytes_almacenados (estadisticas c) /\
  cache_l2 r = cache_l2 c /\
  iteracion_monitor uso_memoria c =
    (if auto_limpieza c && (750 <=? uso_memoria) then r else c).
Proof.
  intros n r.
  destruct (iterar_limpiar_uno n c) as (Hd & Ht & He & H2 & _).
  { subst n. apply Nat.Div0.div_le_upper_bound. lia. }
  subst r. unfold _limpieza_automatica. fold n. cbv zeta in *.
  rewrite Hd, Ht, He, H2. by repeat split.
Qed.



(** The four shapes the statistics can take after a get. *)
Lemma get_estadisticas_forma ahora k c :
  let e := estadisticas c in
  let r := get ahora k c in
  (estadisticas (snd r) = mas_hit_l1 e /\ en_l1 k c = true) \/
  (estadisticas (snd r) = mas_hit_l2 e /\ en_l1 k c = false /\
   dict_in k (CacheL2Disco.metadatos (cache_l2 c)) = true) \/
  (estadisticas (snd r) = mas_miss e /\ fst r = PyNone /\ en_l1 k c = false /\
   snd r = con_estadisticas (mas_miss e) c) \/
  (estadisticas (snd r) = mas_miss (mas_hit_l2 e) /\ fst r = PyNone /\
   exists m contenido guardado b,
     dict_get k (CacheL2Disco.metadatos (cache_l2 c)) = Some m /\
     CacheL2Disco.contenido_de k (cache_l2 c) = Some contenido /\
     pickle_loads contenido = Some guardado /\
     comprimido m = true /\ isinstance_bytes guardado = Some b /\
     pickle_loads (CompresorInteligente.descomprimir b) = None).
Proof.
  intros e r. subst r e. unfold get, en_l1, dict_in, CacheL1Memoria.get.
  destruct (dict_get k (CacheL1Memoria.datos (cache_l1 c))) as [[v0 m0]|] eqn:E1;
    [by left|]. right.
  unfold CacheL2Disco.get.
  destruct (dict_get k (CacheL2Disco.metadatos (cache_l2 c))) as [m|] eqn:Em;
    [|right; left; by repeat split].
  destruct (CacheL2Disco.contenido_de k (cache_l2 c)) as [co|] eqn:Ea;
    [|right; left; by repeat split].
  destruct (pickle_loads co) as [g|] eqn:El; [|right; left; by repeat split].
  cbn [comprimido con_acceso].
  destruct (comprimido m) eqn:Ec.
  - destruct (isinstance_bytes g) as [b|] eqn:Eb.
    + destruct (pickle_loads (CompresorInteligente.descomprimir b)) as [v|] eqn:Ed.
      * left. by destruct (_ && _).
      * right; right. split; [done|]. split; [done|]. by exists m, co, g, b.
    + left. by destruct (_ && _).
  - left. by destruct (_ && _).
Qed.

(** X10. Hit and miss accounting: on a cache whose Tier-2 store is
    intact, a get adds exactly one to exactly one of [hits_l1] (the key is
    in Tier-1), [hits_l2] (it is not, and Tier-2 indexes it) and [misses]
    (the call returns [None] and changes nothing else), so
    [total_hits + misses] counts the gets. *)
Theorem get_cuenta_una_vez (ahora : Z) (k : string) c :
  CacheL2Disco.integro (cache_l2 c) ->
  let e := estadisticas c in
  let r := get ahora k c in
  ((estadisticas (snd r) = mas_hit_l1 e /\ en_l1 k c = true) \/
   (estadisticas (snd r) = mas_hit_l2 e /\ en_l1 k c = false /\
    dict_in k (CacheL2Disco.metadatos (cache_l2 c)) = true) \/
   (estadisticas (snd r) = mas_miss e /\ fst r = PyNone /\ en_l1 k c = false /\
    snd r = con_estadisticas (mas_miss e) c)) /\
  total_hits (estadisticas (snd r)) + misses (estadisticas (snd r)) =
    total_hits e + misses e + 1.
Proof.
  intros Hi e r.
  assert (H : (estadisticas (snd r) = mas_hit_l1 e /\ en_l1 k c = true) \/
              (estadisticas (snd r) = mas_hit_l2 e /\ en_l1 k c = false /\
               dict_in k (CacheL2Disco.metadatos (cache_l2 c)) = true) \/
              (estadisticas (snd r) = mas_miss e /\ fst r = PyNone /\ en_l1 k c = false /\
               snd r = con_estadisticas (mas_miss e) c)).
  { destruct (get_estadisticas_forma ahora k c) as [H|[H|[H|H]]]; [by left | by right; left | by right; right |].
    exfalso. destruct H as (_ & _ & m & co & g & b & Hm & Ha & Hl & Hc & Hb & Hd).
    destruct (Hi k m Hm) as (co' & v & Ha' & g' & Hl' & Hdec).
    rewrite Ha in Ha'. injection Ha' as <-. rewrite Hl in Hl'. injection Hl' as <-.
    rewrite Hc, Hb in Hdec. congruence. }
  split; [exact H|].
  destruct H as [[-> _]|[(-> & _)|(-> & _)]]; unfold total_hits; simpl; lia.
Qed.

(** X11. What put and get never count: over any sequence of put, get and
    automatic clean-up, [hits_l3] keeps its value (no operation serves a
    third tier), and a sequence without automatic clean-up leaves
    [evictions] as it was, whatever the tiers evicted to make room. *)
Theorem contadores_que_no_cambian (ops : list operacion) c :
  hits_l3 (estadisticas (aplicar_todas ops c)) = hits_l3 (estadisticas c) /\
  (Forall (fun op => op <> OpLimpiezaAutomatica) ops ->
   evictions (estadisticas (aplicar_todas ops c)) = evictions (estadisticas c)).
Proof.
  assert (Hpaso : forall c op,
            hits_l3 (estadisticas (aplicar c op)) = hits_l3 (estadisticas c) /\
            (op <> OpLimpiezaAutomatica ->
             evictions (estadisticas (aplicar c op)) = evictions (estadisticas c))).
  { intros c0 op. destruct op as [ahora k v tipo tiempo prio | ahora k |]; cbn [aplicar].
    - destruct (estadisticas_put ahora k v tipo tiempo prio c0) as (n & [[_ ->] | ->]); done.
    - destruct (get_estadisticas_forma ahora k c0) as [[-> _]|[(-> & _)|[(-> & _)|(-> & _)]]]; done.
    - split; [|done].
      destruct (iterar_limpiar_uno
                  (Nat.div (length (CacheL1Memoria.datos (cache_l1 c0))) 4) c0)
        as (_ & _ & He & _).
      + apply Nat.Div0.div_le_upper_bound. lia.
      + unfold _limpieza_automatica. cbv zeta in He. by rewrite He. }
  revert c. induction ops as [|op ops IH]; intros c; simpl; [done|].
  destruct (IH (aplicar c op)) as [H3 He]. destruct (Hpaso c op) as [H3' He'].
  split; [congruence|]. intros Hall. apply Forall_cons in Hall as [Hop Hall].
  rewrite (He Hall). by apply He'.
Qed.
(** X8. Tier placement by size: [put] fails, changing nothing, exactly
    when the value cannot be serialised. Otherwise a value whose
    serialisation is at most a tenth of the Tier-1 capacity is stored in
    Tier-1 as it is, with its serialised size, and Tier-2 is untouched. A
    larger value leaves Tier-1 untouched; when its key designates a file
    it becomes resident in Tier-2, with the size [put] counts and marked
    compressed exactly when compression is enabled; when its key
    designates no file, room is made for it in Tier-2 and nothing is
    stored, though [put] returns [True]. *)
Theorem put_coloca_por_tamano `{!BibliotecasCorrectas B}
    (ahora : Z) (k : string) (v : objeto) (tipo : TipoDato) (tiempo prio : Z) c :
  let r := put ahora k v tipo tiempo prio c in
  match pickle_dumps v with
  | None => r = (false, c)
  | Some b =>
      fst r = true /\
      if 10 * len b <=? CacheL1Memoria.capacidad_bytes (cache_l1 c)
      then
        cache_l2 (snd r) = cache_l2 c /\
        dict_get k (CacheL1Memoria.datos (cache_l1 (snd r))) =
          Some (v, metadata_de k (len b) tipo ahora L1_MEMORIA false
                     (sha256_hexdigest b) tiempo prio)
      else
        cache_l1 (snd r) = cache_l1 c /\
        match archivo_de k with
        | Some _ =>
            en_l2 k (snd r) = true /\
            exists m,
              dict_get k (CacheL2Disco.metadatos (cache_l2 (snd r))) = Some m /\
              tamano_bytes m = tamano_registrado c v tipo /\
              comprimido m = habilitar_compresion c /\
              nivel_cache m = L2_DISCO /\
              frecuencia_acceso m = 1
        | None =>
            cache_l2 (snd r) =
              CacheL2Disco._limpiar_espacio (tamano_registrado c v tipo) (cache_l2 c)
        end
  end.
Proof.
  intros r. subst r. unfold put, tamano_registrado.
  destruct (pickle_dumps v) as [b|] eqn:Hb; [|done].
  destruct (10 * len b <=? CacheL1Memoria.capacidad_bytes (cache_l1 c)) eqn:Hp.
  - split; [done|]. split; [done|]. cbn [snd cache_l1 con_estadisticas con_l1].
    apply l1_get_tras_put.
  - unfold en_l2, CacheL2Disco.residente, dict_in, CacheL2Disco.contenido_de, CacheL2Disco.put.
    destruct (habilitar_compresion c).
    + destruct (pickle_bytes (CompresorInteligente.comprimir b tipo)) as [s Hs].
      cbn [fst snd cache_l1 cache_l2 con_estadisticas con_l2 tamano_bytes metadata_de].
      destruct (archivo_de k) as [p|] eqn:Ep; [|done]. rewrite Hs.
      cbn [CacheL2Disco.metadatos CacheL2Disco.archivos].
      rewrite dict_get_set, lookup_insert_eq. split; [done|]. split; [done|].
      split; [done|]. by eexists.
    + cbn [fst snd cache_l1 cache_l2 con_estadisticas con_l2 tamano_bytes metadata_de].
      destruct (archivo_de k) as [p|] eqn:Ep; [|done]. rewrite Hb.
      cbn [CacheL2Disco.metadatos CacheL2Disco.archivos].
      rewrite dict_get_set, lookup_insert_eq. split; [done|]. split; [done|].
      split; [done|]. by eexists.
Qed.

(** X9. Round trip through the cache: a serialisable value that is small
    enough for Tier-1, or that is put under a key that has no Tier-1 copy
    and designates a file, is returned by the next get of the key,
    whether it went to Tier-1, to Tier-2 uncompressed or to Tier-2
    compressed. *)
Theorem put_luego_get `{!BibliotecasCorrectas B}
    (ahora ahora' : Z) (k : string) (v : objeto) (tipo : TipoDato) (tiempo prio : Z) c
    (b : list byte) :
  pickle_dumps v = Some b ->
  (en_l1 k c = false /\ is_Some (archivo_de k)) \/
    10 * len b <= CacheL1Memoria.capacidad_bytes (cache_l1 c) ->
  fst (get ahora' k (snd (put ahora k v tipo tiempo prio c))) = v.
Proof. intros Hb Hc. by destruct (ida_y_vuelta ahora ahora' k v tipo tiempo prio c b Hb Hc). Qed.

(** X12. Integrity of Tier-2: in every state reached from an empty cache
    by put, get and automatic clean-up, when the keys that are put each
    designate a file of their own, each key of the Tier-2 index has its
    file, the file unpickles, and a payload marked compressed
    decompresses to the pickle of a value. *)
Theorem tier2_siempre_integro `{!BibliotecasCorrectas B}
    (ops : list operacion) (l1_capacidad l2_capacidad : Z) (compresion limpieza : bool) :
  CacheL2Disco.sin_alias (claves_put ops) ->
  CacheL2Disco.integro
    (cache_l2 (aplicar_todas ops (nuevo l1_capacidad l2_capacidad compresion limpieza))).
Proof.
  intros Hs. apply (integro_alcanzable (claves_put ops)); [done | done | | apply integro_nuevo].
  intros x Hx. by apply elem_of_nil in Hx.
Qed.


(** X15. The compressor undoes itself: decompressing what [comprimir]
    returned gives back the data, for every data kind. *)
Theorem compresor_ida_y_vuelta `{!BibliotecasCorrectas B} (datos : list byte) (tipo : TipoDato) :
  CompresorInteligente.descomprimir (CompresorInteligente.comprimir datos tipo) = datos.
Proof. apply comprimir_descomprimir. Qed.
End MasMultinivel.

Lemma put_coloca_por_tamano_testigo :
  fst (CacheMultinivel.put (B := Modelo.bibliotecas) 1 "k" (Modelo.bloque 50) BINARIO 0 5
         (CacheMultinivel.nuevo 200 1000 true true)) = true /\
  CacheMultinivel.en_l2 (B := Modelo.bibliotecas) "k"
    (snd (CacheMultinivel.put (B := Modelo.bibliotecas) 1 "k" (Modelo.bloque 50) BINARIO 0 5
            (CacheMultinivel.nuevo 200 1000 true true))) = true.
Proof.
  pose proof (put_coloca_por_tamano (B := Modelo.bibliotecas)
                (BibliotecasCorrectas0 := modelo_correcto)
                1 "k" (Modelo.bloque 50) BINARIO 0 5
                (CacheMultinivel.nuevo 200 1000 true true)) as H.
  cbv zeta in H. destruct H as (H1 & _ & H2 & _). by split.
Defined.

Lemma put_luego_get_testigo :
  fst (CacheMultinivel.get (B := Modelo.bibliotecas) 2 "k"
         (snd (CacheMultinivel.put (B := Modelo.bibliotecas) 1 "k" (Modelo.bloque 50) BINARIO 0 5
                 (CacheMultinivel.nuevo 200 1000 true true)))) = Modelo.bloque 50.
Proof.
  apply (put_luego_get (B := Modelo.bibliotecas) (BibliotecasCorrectas0 := modelo_correcto)
           1 2 "k" (Modelo.bloque 50) BINARIO 0 5
           (CacheMultinivel.nuevo 200 1000 true true)
           (x42 :: repeat x00 50) eq_refl
           (or_introl (conj eq_refl (ex_intro _ "k.cache"%string eq_refl)))).
Defined.

Lemma sin_alias_k : CacheL2Disco.sin_alias (B := Modelo.bibliotecas) ["k"%string].
Proof.
  intros k Hk. apply list_elem_of_singleton in Hk as ->. exists "k.cache"%string.
  split; [done|]. intros k' Hk' _. by apply list_elem_of_singleton in Hk'.
Qed.

Lemma tier2_siempre_integro_testigo :
  CacheL2Disco.integro (B := Modelo.bibliotecas) (CacheMultinivel.cache_l2 cache_frecuente).
Proof.
  exact (tier2_siempre_integro (B := Modelo.bibliotecas)
           (BibliotecasCorrectas0 := modelo_correcto)
           [CacheMultinivel.OpPut 1 "k" (Modelo.bloque 50) BINARIO 0 5;
            CacheMultinivel.OpGet 2 "k"] 200 1000 true true sin_alias_k).
Defined.


(** X26. Keys that share a file. In a directory where "./a" and "a"
    designate the same file, a value put under "./a" overwrites the file
    of "a": both keys are indexed, the directory holds one file, and a
    get of "a" returns the value put under "./a". When room is made and
    "./a" is evicted, its file is unlinked: "a" stays in the index
    without a file, the store is no longer intact and a get of "a" is a
    miss. *)
Lemma claves_de_un_mismo_archivo :
  archivo_de (Bibliotecas := Modelo.bibliotecas) "a" = Some "a.cache"%string /\
  archivo_de (Bibliotecas := Modelo.bibliotecas) "./a" = Some "a.cache"%string /\
  claves (CacheL2Disco.metadatos (CacheMultinivel.cache_l2 cache_dos_claves)) =
    ["a"; "./a"]%string /\
  CacheL2Disco._calcular_tamano_actual (B := Modelo.bibliotecas)
    (CacheMultinivel.cache_l2 cache_dos_claves) = 31 /\
  fst (CacheMultinivel.get (B := Modelo.bibliotecas) 3 "a" cache_dos_claves) = Modelo.bloque 30 /\
  claves (CacheL2Disco.metadatos (CacheMultinivel.cache_l2 cache_sin_archivo)) =
    ["a"; "b"]%string /\
  CacheL2Disco.contenido_de (B := Modelo.bibliotecas) "a"
    (CacheMultinivel.cache_l2 cache_sin_archivo) = None /\
  fst (CacheMultinivel.get (B := Modelo.bibliotecas) 5 "a" cache_sin_archivo) = PyNone /\
  ~ CacheL2Disco.integro (B := Modelo.bibliotecas) (CacheMultinivel.cache_l2 cache_sin_archivo).
Proof.
  split; [by vm_compute|]. split; [by vm_compute|]. split; [by vm_compute|].
  split; [by vm_compute|]. split; [by vm_compute|]. split; [by vm_compute|].
  assert (H : CacheL2Disco.contenido_de (B := Modelo.bibliotecas) "a"
                (CacheMultinivel.cache_l2 cache_sin_archivo) = None) by (by vm_compute).
  split; [exact H|]. split; [by vm_compute|].
  intros Hi.
  destruct (dict_get "a" (CacheL2Disco.metadatos (CacheMultinivel.cache_l2 cache_sin_archivo)))
    as [m|] eqn:Em; [|by vm_compute in Em].
  destruct (Hi "a" m Em) as (co & v & Hco & _). congruence.
Qed.

Lemma compresor_ida_y_vuelta_testigo :
  CompresorInteligente.descomprimir (B := Modelo.bibliotecas)
    (CompresorInteligente.comprimir (B := Modelo.bibliotecas)
       [x42; x00; x00; x00] TEXTO) = [x42; x00; x00; x00].
Proof.
  exact (compresor_ida_y_vuelta (B := Modelo.bibliotecas)
           (BibliotecasCorrectas0 := modelo_correcto) [x42; x00; x00; x00] TEXTO).
Defined.

Lemma get_cuenta_una_vez_testigo :
  total_hits (CacheMultinivel.estadisticas
                (snd (CacheMultinivel.get (B := Modelo.bibliotecas) 3 "k" cache_frecuente))) +
  misses (CacheMultinivel.estadisticas
            (snd (CacheMultinivel.get (B := Modelo.bibliotecas) 3 "k" cache_frecuente))) =
  total_hits (CacheMultinivel.estadisticas cache_frecuente) +
  misses (CacheMultinivel.estadisticas cache_frecuente) + 1.
Proof.
  exact (proj2 (get_cuenta_una_vez (B := Modelo.bibliotecas) 3 "k" cache_frecuente
                  cache_frecuente_integra)).
Defined.

Lemma contadores_que_no_cambian_testigo :
  evictions (CacheMultinivel.estadisticas cache_escenario) = 0.
Proof.
  apply (proj2 (contadores_que_no_cambian (B := Modelo.bibliotecas)
                  (map (fun i => CacheMultinivel.OpPut (Z.of_nat i + 1) (clave_escenario i)
                                   (Modelo.bloque 1048575) BINARIO 0 5) (seq 0 11))
                  (CacheMultinivel.nuevo MB (10 * MB) false true))).
  repeat constructor; discriminate.
Defined.

(** ** More on the priority queue *)

Section MasCola.
Import QueueInteligente.
Implicit Types (q : t).

Lemma cola_de_con_cola p p' x cs :
  cola_de p (con_cola p' x cs) = if decide (p = p') then x else cola_de p cs.
Proof. by destruct p, p'. Qed.

Lemma con_cola_misma p cs : con_cola p (cola_de p cs) cs = cs.
Proof. by destruct p, cs. Qed.

(** The result of [obtener_en] on a list of priorities whose buckets are
    all empty except possibly the last ones. *)
Lemma obtener_en_salta ps resto ahora q :
  Forall (fun p => cola_de p (cola_prioridad q) = []) ps ->
  obtener_en (ps ++ resto) ahora q = obtener_en resto ahora q.
Proof.
  induction 1 as [|p ps Hp Hps IH]; simpl; [done|]. by rewrite Hp.
Qed.

Lemma obtener_en_toma p resto ahora q ts tid cola' tarea :
  cola_de p (cola_prioridad q) = (ts, tid) :: cola' ->
  tareas q !! tid = Some tarea ->
  obtener_en (p :: resto) ahora q =
    (Some (TareaParalelizacion.con_inicio ahora
             (TareaParalelizacion.con_estado EN_PROCESO tarea)),
     {| max_size := max_size q;
        tareas := <[tid := TareaParalelizacion.con_inicio ahora
                             (TareaParalelizacion.con_estado EN_PROCESO tarea)]> (tareas q);
        cola_prioridad := con_cola p cola' (cola_prioridad q) |}).
Proof. intros Hc Ht. simpl. rewrite Hc. simpl. by rewrite Ht. Qed.

(** The scan of [obtener_tarea] stops at the first bucket that is not empty. *)
Lemma obtener_tarea_toma_la_primera (p : PrioridadTarea) (ahora ts : Z)
    (tid : string) (cola' : list PriorityQueue.elemento) (tarea : TareaParalelizacion.t) q :
  (forall p', valor_prioridad p < valor_prioridad p' -> cola_de p' (cola_prioridad q) = []) ->
  cola_de p (cola_prioridad q) = (ts, tid) :: cola' ->
  tareas q !! tid = Some tarea ->
  obtener_tarea ahora q =
    (Some (TareaParalelizacion.con_inicio ahora
             (TareaParalelizacion.con_estado EN_PROCESO tarea)),
     {| max_size := max_size q;
        tareas := <[tid := TareaParalelizacion.con_inicio ahora
                             (TareaParalelizacion.con_estado EN_PROCESO tarea)]> (tareas q);
        cola_prioridad := con_cola p cola' (cola_prioridad q) |}).
Proof.
  intros Hsup Hc Ht. unfold obtener_tarea.
  destruct p.
  - rewrite (obtener_en_salta [CRITICA; ALTA; NORMAL] [BAJA]).
    + by apply (obtener_en_toma _ _ _ _ ts).
    + repeat constructor; apply Hsup; simpl; lia.
  - rewrite (obtener_en_salta [CRITICA; ALTA] [NORMAL; BAJA]).
    + by apply (obtener_en_toma _ _ _ _ ts).
    + repeat constructor; apply Hsup; simpl; lia.
  - rewrite (obtener_en_salta [CRITICA] [ALTA; NORMAL; BAJA]).
    + by apply (obtener_en_toma _ _ _ _ ts).
    + repeat constructor; apply Hsup; simpl; lia.
  - by apply (obtener_en_toma _ _ _ _ ts).
Qed.

(** X16. Strict priority: when every bucket of a higher priority is
    empty and the bucket of priority [p] starts with a task of the table,
    [obtener_tarea] hands out that task, marked EN_PROCESO with the start
    time set, removes it from its bucket and leaves the other buckets and
    tasks as they were. *)
Theorem obtener_tarea_prioridad_estricta (p : PrioridadTarea) (ahora ts : Z)
    (tid : string) (cola' : list PriorityQueue.elemento) (tarea : TareaParalelizacion.t) q :
  (forall p', valor_prioridad p < valor_prioridad p' -> cola_de p' (cola_prioridad q) = []) ->
  cola_de p (cola_prioridad q) = (ts, tid) :: cola' ->
  tareas q !! tid = Some tarea ->
  obtener_tarea ahora q =
    (Some (TareaParalelizacion.con_inicio ahora
             (TareaParalelizacion.con_estado EN_PROCESO tarea)),
     {| max_size := max_size q;
        tareas := <[tid := TareaParalelizacion.con_inicio ahora
                             (TareaParalelizacion.con_estado EN_PROCESO tarea)]> (tareas q);
        cola_prioridad := con_cola p cola' (cola_prioridad q) |}).
Proof. apply obtener_tarea_toma_la_primera. Qed.

Lemma obtener_tarea_prioridad_estricta_testigo :
  TareaParalelizacion.id <$> fst (obtener_tarea 10 cola_tres_prioridades) = Some "c"%string.
Proof.
  rewrite (obtener_tarea_prioridad_estricta CRITICA 10 (-2) "c" []
             (TareaParalelizacion.con_estado EN_COLA (tarea_ej "c" CRITICA 2 f_uno))
             cola_tres_prioridades).
  - reflexivity.
  - intros p' Hp'. destruct p'; simpl in Hp'; lia.
  - reflexivity.
  - reflexivity.
Defined.

Lemma pq_put_elem (x y : PriorityQueue.elemento) l :
  x ∈ PriorityQueue.put y l <-> x = y \/ x ∈ l.
Proof.
  induction l as [|z r IH]; simpl.
  - rewrite list_elem_of_singleton. split; [by left | intros [?|?%elem_of_nil]; done].
  - destruct (PriorityQueue.menor y z).
    + by rewrite elem_of_cons.
    + rewrite !elem_of_cons, IH. tauto.
Qed.

Lemma coherente_nuevo max : HistoriaCola.coherente (nuevo max).
Proof.
  split.
  - intros p e H. destruct p; simpl in H; by apply elem_of_nil in H.
  - intros k t H. simpl in H. by rewrite lookup_empty in H.
Qed.

Lemma coherente_agregar tarea q :
  HistoriaCola.coherente q -> HistoriaCola.coherente (snd (agregar_tarea tarea q)).
Proof.
  intros [Hc Ht]. unfold agregar_tarea.
  destruct ((0 <? max_size q) && (max_size q <=? Z.of_nat (size (tareas q)))); [done|].
  split; simpl.
  - intros p e He. rewrite cola_de_con_cola in He.
    destruct (decide (TareaParalelizacion.id tarea = snd e)) as [->|Hne].
    + rewrite lookup_insert_eq. by eexists.
    + rewrite lookup_insert_ne by done.
      destruct (decide (p = TareaParalelizacion.prioridad tarea)) as [->|Hp];
        [|by apply (Hc p)].
      apply pq_put_elem in He as [->|He]; [done | by apply (Hc _ _ He)].
  - intros k t Hk. destruct (decide (TareaParalelizacion.id tarea = k)) as [<-|Hne].
    + rewrite lookup_insert_eq in Hk. injection Hk as <-. by split.
    + rewrite lookup_insert_ne in Hk by done. by apply Ht.
Qed.

Lemma coherente_obtener_en ps ahora q :
  HistoriaCola.coherente q -> HistoriaCola.coherente (snd (obtener_en ps ahora q)).
Proof.
  revert q. induction ps as [|p ps IH]; intros q Hq; simpl; [done|].
  destruct (cola_de p (cola_prioridad q)) as [|[ts tid] cola'] eqn:Ec; simpl; [by apply IH|].
  assert (Hq1 : HistoriaCola.coherente
                  {| max_size := max_size q; tareas := tareas q;
                     cola_prioridad := con_cola p cola' (cola_prioridad q) |}).
  { destruct Hq as [Hc Ht]. split; simpl; [|done].
    intros p' e He. rewrite cola_de_con_cola in He.
    destruct (decide (p' = p)) as [->|Hp]; [|by apply (Hc p')].
    apply (Hc p). rewrite Ec. by right. }
  destruct (tareas q !! tid) as [tarea|] eqn:Et; [|by apply IH].
  destruct Hq1 as [Hc Ht]. split; simpl in *.
  - intros p' e He. destruct (decide (tid = snd e)) as [->|Hne].
    + rewrite lookup_insert_eq. by eexists.
    + rewrite lookup_insert_ne by done. by apply (Hc p').
  - intros k t Hk. destruct (decide (tid = k)) as [<-|Hne].
    + rewrite lookup_insert_eq in Hk. injection Hk as <-.
      destruct (Ht tid tarea Et) as [Hid _]. by split.
    + rewrite lookup_insert_ne in Hk by done. by apply Ht.
Qed.

Lemma coherente_cancelar ahora tid q :
  HistoriaCola.coherente q -> HistoriaCola.coherente (snd (cancelar_tarea ahora tid q)).
Proof.
  intros [Hc Ht]. unfold cancelar_tarea.
  destruct (tareas q !! tid) as [tarea|] eqn:Et; [|done].
  split; simpl.
  - intros p e He. destruct (decide (tid = snd e)) as [->|Hne].
    + rewrite lookup_insert_eq. by eexists.
    + rewrite lookup_insert_ne by done. by apply (Hc p).
  - intros k t Hk. destruct (decide (tid = k)) as [<-|Hne].
    + rewrite lookup_insert_eq in Hk. injection Hk as <-.
      destruct (Ht tid tarea Et) as [Hid _]. by split.
    + rewrite lookup_insert_ne in Hk by done. by apply Ht.
Qed.

Lemma coherente_ejecutar ops q :
  HistoriaCola.coherente q -> HistoriaCola.coherente (HistoriaCola.ejecutar ops q).
Proof.
  revert q. induction ops as [|op ops IH]; intros q Hq; simpl; [done|].
  apply IH. destruct op; cbn [HistoriaCola.paso].
  - by apply coherente_agregar.
  - by apply coherente_obtener_en.
  - by apply coherente_cancelar.
Qed.

Lemma obtener_en_vacio ps ahora q :
  HistoriaCola.coherente q ->
  (fst (obtener_en ps ahora q) = None <->
   Forall (fun p => cola_de p (cola_prioridad q) = []) ps) /\
  (fst (obtener_en ps ahora q) = None -> snd (obtener_en ps ahora q) = q).
Proof.
  intros Hq. induction ps as [|p ps IH]; simpl.
  - split; [split; [constructor | done] | done].
  - destruct (cola_de p (cola_prioridad q)) as [|[ts tid] cola'] eqn:Ec; simpl.
    + destruct IH as [IH1 IH2]. split; [|done]. rewrite IH1. split.
      * intros H. by constructor.
      * intros H. by apply Forall_cons in H as [_ H].
    + destruct Hq as [Hc _]. destruct (Hc p (ts, tid)) as [tarea Ht].
      { rewrite Ec. left. }
      simpl in Ht. rewrite Ht. simpl. split; [split|]; try done.
      intros H. apply Forall_cons in H as [H _]. congruence.
Qed.

(** X17. The empty queue: after any history of enqueue, dequeue and
    cancel calls on a new queue, [obtener_tarea] returns no task exactly
    when all four buckets are empty, and then it changes nothing;
    whenever some bucket holds an entry a task is handed out. *)
Theorem obtener_tarea_vacia (max ahora : Z) (ops : list HistoriaCola.llamada) :
  let q := HistoriaCola.ejecutar ops (nuevo max) in
  (fst (obtener_tarea ahora q) = None <->
   forall p, cola_de p (cola_prioridad q) = []) /\
  (fst (obtener_tarea ahora q) = None -> snd (obtener_tarea ahora q) = q).
Proof.
  intros q.
  assert (Hq : HistoriaCola.coherente q) by apply coherente_ejecutar, coherente_nuevo.
  destruct (obtener_en_vacio [CRITICA; ALTA; NORMAL; BAJA] ahora q Hq) as [H1 H2].
  split; [|exact H2]. unfold obtener_tarea. rewrite H1. split.
  - intros H p. rewrite !Forall_cons in H. destruct p; tauto.
  - intros H. repeat constructor; apply H.
Qed.

Lemma obtener_tarea_vacia_testigo :
  snd (obtener_tarea 9 (HistoriaCola.ejecutar
                          [HistoriaCola.Agregar (tarea_ej "a" NORMAL 1 f_uno);
                           HistoriaCola.Obtener 2] (nuevo 0)))
  = HistoriaCola.ejecutar
      [HistoriaCola.Agregar (tarea_ej "a" NORMAL 1 f_uno); HistoriaCola.Obtener 2] (nuevo 0).
Proof.
  apply (proj2 (obtener_tarea_vacia 0 9
                  [HistoriaCola.Agregar (tarea_ej "a" NORMAL 1 f_uno);
                   HistoriaCola.Obtener 2])).
  reflexivity.
Defined.




Lemma mismas_colas_obtener_en ps ahora q q' :
  HistoriaCola.mismas_colas q q' ->
  TareaParalelizacion.id <$> fst (obtener_en ps ahora q') =
    TareaParalelizacion.id <$> fst (obtener_en ps ahora q) /\
  TareaParalelizacion.estado <$> fst (obtener_en ps ahora q') =
    TareaParalelizacion.estado <$> fst (obtener_en ps ahora q) /\
  cola_prioridad (snd (obtener_en ps ahora q')) = cola_prioridad (snd (obtener_en ps ahora q)) /\
  (forall t, fst (obtener_en ps ahora q') = Some t ->
     TareaParalelizacion.estado t = EN_PROCESO /\
     TareaParalelizacion.timestamp_inicio t = Some ahora).
Proof.
  revert q q'. induction ps as [|p ps IH]; intros q q' (Hm & Hc & Ht); simpl; [done|].
  rewrite Hc.
  destruct (cola_de p (cola_prioridad q)) as [|[ts tid] cola'] eqn:Ec; simpl.
  - by apply IH.
  - pose proof (Ht tid) as Htid.
    destruct (tareas q' !! tid) as [t'|] eqn:E'; destruct (tareas q !! tid) as [t|] eqn:E;
      simpl in Htid; try done.
    + injection Htid as Hid. simpl. rewrite Hid.
      split; [done|]. split; [done|]. split; [done|].
      intros t0 [= <-]. by split.
    + apply IH. by repeat split.
Qed.

Lemma mismas_colas_cancelar ahora tid q :
  HistoriaCola.coherente q ->
  HistoriaCola.mismas_colas q (snd (cancelar_tarea ahora tid q)).
Proof.
  intros [_ Ht]. unfold cancelar_tarea.
  destruct (tareas q !! tid) as [tarea|] eqn:Et; [|done].
  split; [done|]. split; [done|]. intros k. cbn [snd tareas].
  destruct (decide (tid = k)) as [<-|Hne].
  - by rewrite lookup_insert_eq, Et.
  - by rewrite lookup_insert_ne.
Qed.

(** X19. Cancelling does not take a task out of its bucket: after any
    history, a [cancelar_tarea] changes neither which task the next
    [obtener_tarea] hands out nor the buckets it leaves, and the task
    handed out is EN_PROCESO with its start time set, even when it is the
    task just cancelled. *)
Theorem cancelar_no_retira_de_la_cola (max ahora ahora' : Z) (tid : string)
    (ops : list HistoriaCola.llamada) :
  let q := HistoriaCola.ejecutar ops (nuevo max) in
  let q' := snd (cancelar_tarea ahora tid q) in
  TareaParalelizacion.id <$> fst (obtener_tarea ahora' q') =
    TareaParalelizacion.id <$> fst (obtener_tarea ahora' q) /\
  cola_prioridad (snd (obtener_tarea ahora' q')) =
    cola_prioridad (snd (obtener_tarea ahora' q)) /\
  (forall t, fst (obtener_tarea ahora' q') = Some t ->
     TareaParalelizacion.estado t = EN_PROCESO /\
     TareaParalelizacion.timestamp_inicio t = Some ahora').
Proof.
  intros q q'.
  assert (Hq : HistoriaCola.coherente q) by apply coherente_ejecutar, coherente_nuevo.
  destruct (mismas_colas_obtener_en [CRITICA; ALTA; NORMAL; BAJA] ahora' q q'
              (mismas_colas_cancelar ahora tid q Hq)) as (H1 & _ & H3 & H4).
  unfold obtener_tarea. split; [exact H1|]. split; [exact H3 | exact H4].
Qed.

Lemma cancelar_no_retira_de_la_cola_testigo :
  estado_de "a" cola_una_cancelada = Some CANCELADA /\
  TareaParalelizacion.estado <$> fst (obtener_tarea 7 cola_una_cancelada) = Some EN_PROCESO.
Proof.
  split; [reflexivity|].
  destruct (fst (obtener_tarea 7 cola_una_cancelada)) as [t|] eqn:E; [|by vm_compute in E].
  simpl. f_equal.
  apply (proj2 (proj2 (cancelar_no_retira_de_la_cola 1 6 7 "a"
                         [HistoriaCola.Agregar (tarea_ej "a" NORMAL 1 f_uno)])) t E).
Defined.
End MasCola.

(** ** Identifiers built from numbers *)

Section Identificadores.

Lemma lista_de_app (a b : string) :
  list_ascii_of_string (a +:+ b) = list_ascii_of_string a ++ list_ascii_of_string b.
Proof. induction a as [|c a IH]; simpl; [done | by rewrite IH]. Qed.

Lemma lista_de_inj (a b : string) :
  list_ascii_of_string a = list_ascii_of_string b -> a = b.
Proof.
  intros H. rewrite <- (string_of_list_ascii_of_string a), <- (string_of_list_ascii_of_string b).
  by rewrite H.
Qed.

Lemma app_cancelar_final (a b s : string) : a +:+ s = b +:+ s -> a = b.
Proof.
  intros H. apply lista_de_inj. apply (f_equal list_ascii_of_string) in H.
  rewrite !lista_de_app in H. by apply app_inv_tail in H.
Qed.

(** The decimal notation of a number has no underscore. *)
Lemma pretty_N_go_sin_guion (x : N) (s : string) :
  Forall (fun c => c <> "_"%char) (list_ascii_of_string s) ->
  Forall (fun c => c <> "_"%char) (list_ascii_of_string (pretty_N_go x s)).
Proof.
  revert s. induction (N.lt_wf_0 x) as [x _ IH]; intros s Hs.
  assert (x = 0 \/ 0 < x)%N as [->|Hx] by lia; [by rewrite pretty_N_go_0|].
  rewrite pretty_N_go_step by done. apply IH; [by apply N.div_lt|].
  simpl. constructor; [|done].
  unfold pretty_N_char. by repeat case_match.
Qed.

Lemma pretty_Z_sin_guion (z : Z) :
  Forall (fun c => c <> "_"%char) (list_ascii_of_string (pretty z)).
Proof.
  assert (HN : forall n : N, Forall (fun c => c <> "_"%char) (list_ascii_of_string (pretty n))).
  { intros n. unfold pretty, pretty_N. case_decide.
    - by repeat constructor.
    - apply pretty_N_go_sin_guion. constructor. }
  destruct z as [|p|p].
  - by repeat constructor.
  - apply (HN (Npos p)).
  - change (pretty (Z.neg p)) with ("-" +:+ pretty (Npos p)). simpl.
    constructor; [done | apply (HN (Npos p))].
Qed.

(** Two texts without underscore, each followed by an underscore and a
    rest, are equal only when they and their rests are. *)
Lemma separar_en_guion (a b r r' : string) :
  Forall (fun c => c <> "_"%char) (list_ascii_of_string a) ->
  Forall (fun c => c <> "_"%char) (list_ascii_of_string b) ->
  a +:+ String "_" r = b +:+ String "_" r' -> a = b /\ r = r'.
Proof.
  revert b. induction a as [|c a IH]; intros [|d b] Ha Hb H; cbn in *.
  - by injection H as ->.
  - injection H as <- _. by apply Forall_cons in Hb as [? _].
  - injection H as -> _. by apply Forall_cons in Ha as [? _].
  - injection H as -> H. apply Forall_cons in Ha as [_ Ha]. apply Forall_cons in Hb as [_ Hb].
    destruct (IH b Ha Hb H) as [-> ->]. done.
Qed.

Lemma nombre_worker_inj (i j a b : Z) :
  WorkerPoolDinamico.nombre_worker i a = WorkerPoolDinamico.nombre_worker j b ->
  i = j /\ a = b.
Proof.
  unfold WorkerPoolDinamico.nombre_worker. intros H.
  apply (inj (String.app "worker_")) in H.
  apply separar_en_guion in H as [Hi Ha]; [|apply pretty_Z_sin_guion..].
  split; by apply (inj pretty).
Qed.

Lemma generar_tarea_id_inj (r1 r2 h1 h2 : Z) :
  SistemaParalelizacion.generar_tarea_id r1 h1 = SistemaParalelizacion.generar_tarea_id r2 h2 ->
  r1 = r2.
Proof.
  unfold SistemaParalelizacion.generar_tarea_id. intros H.
  apply (inj (String.app "tarea_")) in H.
  apply separar_en_guion in H as [Hi _]; [|apply pretty_Z_sin_guion..].
  by apply (inj pretty).
Qed.

Lemma cache_key_inj (a b : string) :
  SistemaParalelizacion.cache_key a = SistemaParalelizacion.cache_key b -> a = b.
Proof.
  unfold SistemaParalelizacion.cache_key. intros H.
  apply (inj (String.app "tarea_")) in H. by apply app_cancelar_final in H.
Qed.
End Identificadores.

(** ** The worker pool *)

Section HechosPool.
Import WorkerPoolDinamico.
Implicit Types (pool : t) (reloj : Z -> Z).

Lemma len_dict_set {V} (k : string) (v : V) (d : list (string * V)) :
  len d <= len (dict_set k v d) <= len d + 1.
Proof.
  unfold len. induction d as [|[k' v'] r IH]; simpl; [lia|].
  destruct (decide (k = k')); simpl; lia.
Qed.

Lemma de_tipo_con_tipo w l d : de_tipo w (con_tipo w l d) = l.
Proof. by destruct w. Qed.

Lemma crear_techo reloj tipo pool :
  let r := snd (_crear_nuevo_worker reloj tipo pool) in
  max_workers r = max_workers pool /\
  len (workers pool) <= len (workers r) /\
  (len (workers pool) <= max_workers pool -> len (workers r) <= max_workers pool).
Proof.
  unfold _crear_nuevo_worker.
  destruct (max_workers pool <=? len (workers pool)) eqn:E; simpl; [lia|].
  apply Z.leb_gt in E.
  pose proof (len_dict_set (nombre_worker (len (workers pool)) (reloj (len (workers pool))))
                tipo (workers pool)).
  lia.
Qed.

Lemma crear_varios_techo reloj n pool :
  let r := crear_varios reloj n pool in
  max_workers r = max_workers pool /\
  len (workers pool) <= len (workers r) /\
  (len (workers pool) <= max_workers pool -> len (workers r) <= max_workers pool).
Proof.
  revert pool. induction n as [|n IH]; intros pool; simpl; [lia|].
  destruct (crear_techo reloj GENERAL pool) as (H1 & H2 & H3).
  destruct (IH (snd (_crear_nuevo_worker reloj GENERAL pool))) as (H4 & H5 & H6).
  cbv zeta in *. rewrite H1 in H4, H6. split; [exact H4|]. split; [lia|].
  intros H. by apply H6, H3.
Qed.

Lemma paso_techo reloj pool op :
  max_workers (paso reloj pool op) = max_workers pool /\
  len (workers pool) <= len (workers (paso reloj pool op)) /\
  (len (workers pool) <= max_workers pool ->
   len (workers (paso reloj pool op)) <= max_workers pool).
Proof.
  destruct op as [tipo | wid tipo | tipo | carga]; cbn [paso].
  - unfold obtener_worker_disponible.
    destruct (de_tipo tipo (workers_disponibles pool)); [|simpl; lia].
    destruct (general (workers_disponibles pool)); [|simpl; lia].
    destruct (len (workers pool) <? max_workers pool); [apply crear_techo | simpl; lia].
  - unfold liberar_worker. destruct (dict_in wid (workers pool)); simpl; lia.
  - apply crear_techo.
  - unfold escalar_workers. destruct (habilitar_autoscaling pool); simpl; [|lia].
    destruct (_ && _); [apply crear_varios_techo | simpl; lia].
Qed.

(** X22. The ceiling of the pool: a pool that has at most [max_workers]
    workers still has at most [max_workers] after any sequence of
    acquire, release, create and scale calls, and no call ever removes a
    worker. *)
Theorem pool_respeta_el_techo reloj (ops : list llamada) pool :
  len (workers pool) <= max_workers pool ->
  len (workers (ejecutar reloj ops pool)) <= max_workers pool /\
  len (workers pool) <= len (workers (ejecutar reloj ops pool)).
Proof.
  revert pool. induction ops as [|op ops IH]; intros pool H; simpl; [lia|].
  destruct (paso_techo reloj pool op) as (H1 & H2 & H3).
  destruct (IH (paso reloj pool op)) as [H4 H5]; [rewrite H1; by apply H3|].
  rewrite H1 in H4. lia.
Qed.

(** X23. Acquiring a worker: [obtener_worker_disponible] returns no
    worker exactly when the idle list of the requested type and the
    general idle list are empty and the pool is at its ceiling, and then
    the pool is unchanged. When both lists are empty and the pool is
    below the ceiling it creates a worker and returns its id, but the id
    stays in the idle list of its type, so the next request of that type
    is given the same worker. *)
Theorem obtener_worker_casos reloj (tipo : TipoWorker) pool :
  let r := obtener_worker_disponible reloj tipo pool in
  (fst r = None <->
   de_tipo tipo (workers_disponibles pool) = [] /\
   general (workers_disponibles pool) = [] /\
   max_workers pool <= len (workers pool)) /\
  (fst r = None -> snd r = pool) /\
  (de_tipo tipo (workers_disponibles pool) = [] ->
   general (workers_disponibles pool) = [] ->
   len (workers pool) < max_workers pool ->
   let nuevo_id := nombre_worker (len (workers pool)) (reloj (len (workers pool))) in
   fst r = Some nuevo_id /\
   de_tipo tipo (workers_disponibles (snd r)) = [nuevo_id] /\
   fst (obtener_worker_disponible reloj tipo (snd r)) = Some nuevo_id).
Proof.
  intros r.
  destruct (de_tipo tipo (workers_disponibles pool)) as [|w resto] eqn:Et.
  - destruct (general (workers_disponibles pool)) as [|w resto] eqn:Eg.
    + destruct (len (workers pool) <? max_workers pool) eqn:El.
      * apply Z.ltb_lt in El.
        assert (Hr : r = (Some (nombre_worker (len (workers pool)) (reloj (len (workers pool)))),
                          con_worker (nombre_worker (len (workers pool))
                                        (reloj (len (workers pool)))) tipo pool)).
        { subst r. unfold obtener_worker_disponible, _crear_nuevo_worker.
          rewrite Et, Eg.
          assert (E1 : (len (workers pool) <? max_workers pool) = true) by (by apply Z.ltb_lt).
          assert (E2 : (max_workers pool <=? len (workers pool)) = false)
            by (apply Z.leb_gt; lia).
          by rewrite E1, E2. }
        rewrite Hr. cbn [fst snd].
        split; [split; [done | intros (_ & _ & ?); lia]|]. split; [done|].
        intros _ _ _. cbv zeta. split; [done|].
        unfold obtener_worker_disponible, con_worker. cbn [workers_disponibles].
        rewrite de_tipo_con_tipo, Et. by split.
      * assert (Hr : r = (None, pool)).
        { subst r. unfold obtener_worker_disponible. by rewrite Et, Eg, El. }
        apply Z.ltb_ge in El. rewrite Hr. cbn [fst snd].
        split; [split; [by intros | done]|]. split; [done|]. intros; lia.
    + assert (Hr : fst r = Some w).
      { subst r. unfold obtener_worker_disponible. by rewrite Et, Eg. }
      rewrite Hr. split; [split; [done | by intros (_ & ? & _)]|]. split; done.
  - assert (Hr : fst r = Some w).
    { subst r. unfold obtener_worker_disponible. by rewrite Et. }
    rewrite Hr. split; [split; [done | by intros (? & _)]|]. split; done.
Qed.

Lemma obtener_worker_casos_testigo :
  fst (obtener_worker_disponible (fun i => 1700000000000 + i) CPU_INTENSIVO
         (nuevo (fun i => 1700000000000 + i) 3 0 true)) = Some "worker_0_1700000000000"%string /\
  fst (obtener_worker_disponible (fun i => 1700000000000 + i) CPU_INTENSIVO
         (snd (obtener_worker_disponible (fun i => 1700000000000 + i) CPU_INTENSIVO
                 (nuevo (fun i => 1700000000000 + i) 3 0 true))))
    = Some "worker_0_1700000000000"%string.
Proof.
  destruct (proj2 (proj2 (obtener_worker_casos (fun i => 1700000000000 + i) CPU_INTENSIVO
                            (nuevo (fun i => 1700000000000 + i) 3 0 true)))
              eq_refl eq_refl ltac:(by apply Z.ltb_lt)) as (H1 & _ & H3).
  split; [exact H1 | exact H3].
Defined.

Lemma pool_respeta_el_techo_testigo :
  len (workers (ejecutar (fun i => 1700000000000 + i)
                  [Escalar 50; Obtener CPU_INTENSIVO; Crear IO_INTENSIVO]
                  (nuevo (fun i => 1700000000000 + i) 3 2 true))) <= 3.
Proof.
  apply (proj1 (pool_respeta_el_techo (fun i => 1700000000000 + i)
                  [Escalar 50; Obtener CPU_INTENSIVO; Crear IO_INTENSIVO]
                  (nuevo (fun i => 1700000000000 + i) 3 2 true)
                  ltac:(by apply Z.leb_le))).
Defined.

(** X24. Scaling up: [escalar_workers] reports
    min(carga // 2, max_workers - n) new workers when autoscaling is on,
    the load exceeds twice the pool size n and the pool is below its
    ceiling, and 0 otherwise; when it reports 0 the pool is unchanged,
    and it never shrinks the pool. *)
Theorem escalar_workers_cuenta reloj (carga : Z) pool :
  let n := len (workers pool) in
  let r := escalar_workers reloj carga pool in
  fst r = (if habilitar_autoscaling pool && (n * 2 <? carga) && (n <? max_workers pool)
           then Z.min (carga / 2) (max_workers pool - n) else 0) /\
  (fst r = 0 -> snd r = pool) /\
  n <= len (workers (snd r)).
Proof.
  intros n r. subst r n. unfold escalar_workers.
  destruct (habilitar_autoscaling pool); simpl; [|by repeat split; lia].
  destruct ((len (workers pool) * 2 <? carga) && (len (workers pool) <? max_workers pool))
    eqn:E; simpl; [|by repeat split; lia].
  apply andb_true_iff in E as [E1 E2]. apply Z.ltb_lt in E1. apply Z.ltb_lt in E2.
  assert (H0 : 0 <= len (workers pool)) by (unfold len; lia).
  assert (Hn : 0 <= Z.min (carga / 2) (max_workers pool - len (workers pool))).
  { apply Z.min_glb; [apply Z.div_pos; lia | lia]. }
  rewrite Z2Nat.id by done. split; [done|]. split.
  - intros Hz. by rewrite Hz.
  - by destruct (crear_varios_techo reloj
                   (Z.to_nat (Z.min (carga / 2) (max_workers pool - len (workers pool)))) pool)
       as (_ & H & _).
Qed.

Lemma inicializar_desde_forma reloj i n pool :
  let r := inicializar_desde reloj i n pool in
  general (workers_disponibles r) =
    general (workers_disponibles pool) ++
    map (fun j => nombre_worker (i + Z.of_nat j) (reloj (i + Z.of_nat j))) (seq 0 n) /\
  cpu_intensivo (workers_disponibles r) = cpu_intensivo (workers_disponibles pool) /\
  io_intensivo (workers_disponibles r) = io_intensivo (workers_disponibles pool) /\
  memoria_intensivo (workers_disponibles r) = memoria_intensivo (workers_disponibles pool) /\
  len (workers r) <= len (workers pool) + Z.of_nat n /\
  max_workers r = max_workers pool.
Proof.
  revert i pool. induction n as [|n IH]; intros i pool.
  - simpl. rewrite app_nil_r. repeat split; try done. lia.
  - cbn [inicializar_desde].
    destruct (IH (i + 1) (con_worker (nombre_worker i (reloj i)) GENERAL pool))
      as (H1 & H2 & H3 & H4 & H5 & H6).
    cbv zeta in *. rewrite H1, H2, H3, H4, H6. cbn [workers_disponibles con_worker con_tipo
      general cpu_intensivo io_intensivo memoria_intensivo de_tipo max_workers].
    split; [|repeat split; try done].
    + rewrite <- app_assoc. f_equal. cbn [seq map]. rewrite Z.add_0_r. cbn [app]. f_equal.
      rewrite <- seq_shift, map_map. apply map_ext. intros j.
      replace (i + 1 + Z.of_nat j) with (i + Z.of_nat (S j)) by lia. done.
    + pose proof (len_dict_set (nombre_worker i (reloj i)) GENERAL (workers pool)).
      cbn [workers con_worker] in H5. lia.
Qed.

Lemma dict_set_ausente {V} (k : string) (v : V) (d : list (string * V)) :
  k ∉ claves d -> dict_set k v d = d ++ [(k, v)].
Proof.
  induction d as [|[k' v'] r IH]; simpl; [done|]. intros H.
  apply not_elem_of_cons in H as [Hne H]. rewrite decide_False by done. by rewrite IH.
Qed.

(** The loop of [_inicializar_workers_minimos] on a table that has none
    of the ids it mints: it appends one general worker per index, to the
    table and to the idle list of the general workers. *)
Lemma inicializar_desde_tabla reloj i n pool :
  (forall j : nat, nombre_worker (i + Z.of_nat j) (reloj (i + Z.of_nat j)) ∉ claves (workers pool)) ->
  let r := inicializar_desde reloj i n pool in
  let ids := map (fun j => nombre_worker (i + Z.of_nat j) (reloj (i + Z.of_nat j))) (seq 0 n) in
  workers r = workers pool ++ map (fun w => (w, GENERAL)) ids /\
  general (workers_disponibles r) = general (workers_disponibles pool) ++ ids.
Proof.
  revert i pool. induction n as [|n IH]; intros i pool Hnuevo.
  - simpl. by rewrite !app_nil_r.
  - cbn [inicializar_desde].
    destruct (IH (i + 1) (con_worker (nombre_worker i (reloj i)) GENERAL pool)) as (H1 & H2).
    { intros j. cbn [workers con_worker]. rewrite dict_set_ausente.
      - unfold claves. rewrite map_app. intros Hin. apply elem_of_app in Hin as [Hin|Hin].
        + apply (Hnuevo (S j)). replace (i + Z.of_nat (S j)) with (i + 1 + Z.of_nat j) by lia.
          exact Hin.
        + apply list_elem_of_singleton in Hin. apply nombre_worker_inj in Hin as [? _]. lia.
      - specialize (Hnuevo O). by rewrite Z.add_0_r in Hnuevo. }
    cbv zeta in *. rewrite H1, H2.
    cbn [workers workers_disponibles con_worker con_tipo de_tipo general].
    rewrite dict_set_ausente.
    2:{ specialize (Hnuevo O). by rewrite Z.add_0_r in Hnuevo. }
    assert (Hids : map (fun j => nombre_worker (i + Z.of_nat j) (reloj (i + Z.of_nat j)))
                     (seq 0 (S n)) =
                   nombre_worker i (reloj i) ::
                   map (fun j => nombre_worker (i + 1 + Z.of_nat j) (reloj (i + 1 + Z.of_nat j)))
                     (seq 0 n)).
    { cbn [seq map]. rewrite Z.add_0_r. f_equal.
      rewrite <- seq_shift, map_map. apply map_ext. intros j.
      by replace (i + Z.of_nat (S j)) with (i + 1 + Z.of_nat j) by lia. }
    rewrite Hids. cbn [map]. by rewrite <- !app_assoc.
Qed.

(** X5. The initial pool: construction creates [min_workers] workers,
    one per index from 0, named by index and creation time; the worker
    table holds exactly these, each of type GENERAL and under a name of
    its own, and all of them are idle in the general list in index order;
    the other idle lists are empty. The ceiling is not consulted, so this
    holds even when [min_workers] exceeds [max_workers]. *)
Theorem pool_inicial reloj (maximo minimo : Z) (autoscaling : bool) :
  let pool := nuevo reloj maximo minimo autoscaling in
  let ids := map (fun j => nombre_worker (Z.of_nat j) (reloj (Z.of_nat j)))
                 (seq 0 (Z.to_nat minimo)) in
  workers pool = map (fun w => (w, GENERAL)) ids /\
  NoDup ids /\
  len (workers pool) = Z.max 0 minimo /\
  (forall j, 0 <= j < minimo ->
     dict_get (nombre_worker j (reloj j)) (workers pool) = Some GENERAL) /\
  general (workers_disponibles pool) = ids /\
  cpu_intensivo (workers_disponibles pool) = [] /\
  io_intensivo (workers_disponibles pool) = [] /\
  memoria_intensivo (workers_disponibles pool) = [].
Proof.
  intros pool ids.
  assert (Hdup : NoDup ids).
  { subst ids. apply NoDup_fmap_2_strong; [|apply NoDup_seq].
    intros a b _ _ H. apply nombre_worker_inj in H as [? _]. lia. }
  assert (Htabla : workers pool = map (fun w => (w, GENERAL)) ids /\
                   general (workers_disponibles pool) = ids).
  { subst pool ids. unfold nuevo.
    match goal with |- context [inicializar_desde reloj 0 ?n ?p] =>
      destruct (inicializar_desde_tabla reloj 0 n p) as (H1 & H2) end.
    { intros j. cbn. apply not_elem_of_nil. }
    cbv zeta in *. rewrite H1, H2. cbn [workers workers_disponibles general app].
    split; done. }
  destruct Htabla as [Hw Hg].
  assert (Hotros : cpu_intensivo (workers_disponibles pool) = [] /\
                   io_intensivo (workers_disponibles pool) = [] /\
                   memoria_intensivo (workers_disponibles pool) = []).
  { subst pool. unfold nuevo.
    match goal with |- context [inicializar_desde reloj 0 ?n ?p] =>
      destruct (inicializar_desde_forma reloj 0 n p) as (_ & H2 & H3 & H4 & _) end.
    cbv zeta in *. by rewrite H2, H3, H4. }
  split; [exact Hw|]. split; [exact Hdup|]. split.
  { rewrite Hw. unfold len, ids. rewrite !length_map, length_seq. lia. }
  split; [|by split].
  intros j Hj. rewrite Hw.
  assert (Hin : nombre_worker j (reloj j) ∈ ids).
  { subst ids. apply list_elem_of_fmap. exists (Z.to_nat j).
    rewrite Z2Nat.id by lia. split; [done|]. apply elem_of_seq. lia. }
  clear Hw Hg Hotros Hdup. induction ids as [|w ws IH]; [by apply elem_of_nil in Hin|].
  cbn [map dict_get]. destruct (decide (nombre_worker j (reloj j) = w)) as [|Hne]; [done|].
  apply IH. by apply elem_of_cons in Hin as [|].
Qed.
End HechosPool.

(** ** Keys the cache does not hold *)

Section OtraClave.
Context {B : Bibliotecas}.
Import CacheMultinivel.
Implicit Types (c : t).

(** A key that neither tier lists is a miss. *)
Lemma get_ausente ahora k c :
  dict_get k (CacheL1Memoria.datos (cache_l1 c)) = None ->
  dict_get k (CacheL2Disco.metadatos (cache_l2 c)) = None ->
  get ahora k c = (PyNone, con_estadisticas (mas_miss (estadisticas c)) c).
Proof.
  intros H1 H2. unfold get. by rewrite (l1_get_fallo _ _ _ H1), (l2_get_fallo _ _ _ H2).
Qed.

(** A put under one key does not make another key appear. *)
Lemma put_otra_clave ahora k k' v tipo tiempo prio c :
  k' <> k ->
  dict_get k' (CacheL1Memoria.datos (cache_l1 c)) = None ->
  dict_get k' (CacheL2Disco.metadatos (cache_l2 c)) = None ->
  dict_get k' (CacheL1Memoria.datos (cache_l1 (snd (put ahora k v tipo tiempo prio c)))) = None /\
  dict_get k' (CacheL2Disco.metadatos (cache_l2 (snd (put ahora k v tipo tiempo prio c)))) = None.
Proof.
  intros Hne H1 H2. split.
  - unfold put. destruct (pickle_dumps v) as [b|]; [|done].
    destruct (10 * len b <=? _); [|by destruct (habilitar_compresion c)].
    cbn [snd cache_l1 con_estadisticas con_l1].
    match goal with |- context [CacheL1Memoria.put k v ?m _] =>
      destruct (put_forma k v m (cache_l1 c)) as (j & _ & Hd & _) end.
    cbv zeta in Hd. rewrite Hd, dict_get_app_ne by done.
    apply dict_get_None. rewrite claves_drop, claves_dict_del. intros Hin.
    eapply elem_of_sublist in Hin; [|apply sublist_drop].
    apply list_elem_of_filter in Hin as [_ Hin]. by apply dict_get_None in H1.
  - apply dict_get_None. intros Hin.
    apply claves_l2_tras_put in Hin. apply elem_of_cons in Hin as [?|Hin]; [done|].
    by apply dict_get_None in H2.
Qed.
End OtraClave.

(** ** Submission and dispatch *)

Section SubmitDespacho.
Context {B : Bibliotecas}.
Import SistemaParalelizacion.
Implicit Types (s : t).

(** One submission that the cache cannot answer and the queue accepts,
    followed by one dispatch on a queue with no other task waiting. *)
Lemma submit_y_despacho_forma (ahora ahora' : Z) (tid worker_id : string)
    (f : Callable) (argumentos : list objeto) (p : PrioridadTarea) (w : TipoWorker)
    (timeout_opt retries_opt : option Z) (deps : list string)
    (meta kw : list (string * objeto)) (o : objeto) s :
  (forall p', QueueInteligente.cola_de p'
                (QueueInteligente.cola_prioridad (queue_inteligente s)) = []) ->
  fst (CacheMultinivel.get ahora (cache_key tid) (cache s)) = PyNone ->
  (0 <? QueueInteligente.max_size (queue_inteligente s)) &&
  (QueueInteligente.max_size (queue_inteligente s) <=?
     Z.of_nat (size (QueueInteligente.tareas (queue_inteligente s)))) = false ->
  f argumentos kw = Retorna o ->
  let r := submit_tarea ahora tid f argumentos p w timeout_opt retries_opt deps meta kw s in
  let s' := despachar ahora' worker_id (snd r) in
  fst (fst r) = Some tid /\
  TareaParalelizacion.estado (snd (fst r)) = EN_COLA /\
  QueueInteligente.estado_de tid (queue_inteligente s') = Some COMPLETADA /\
  TareaParalelizacion.resultado <$> QueueInteligente.tareas (queue_inteligente s') !! tid
    = Some o /\
  ejecutadas s' = ejecutadas s ++ [tid] /\
  cache s' =
    snd (CacheMultinivel.put ahora' (cache_key tid) o JSON 100 5
           (snd (CacheMultinivel.get ahora (cache_key tid) (cache s)))) /\
  (forall p', QueueInteligente.cola_de p'
                (QueueInteligente.cola_prioridad (queue_inteligente s')) = []) /\
  ejecutadas (snd r) = ejecutadas s /\
  QueueInteligente.max_size (queue_inteligente s') =
    QueueInteligente.max_size (queue_inteligente s) /\
  exists final,
    QueueInteligente.tareas (queue_inteligente s') =
      <[tid := final]> (QueueInteligente.tareas (queue_inteligente s)).
Proof.
  intros Hvacia Hmiss Hsitio Hf r s'.
  set (tarea0 :=
    {| TareaParalelizacion.id := tid; TareaParalelizacion.funcion := f;
       TareaParalelizacion.args := argumentos; TareaParalelizacion.kwargs := kw;
       TareaParalelizacion.prioridad := p; TareaParalelizacion.tipo_worker := w;
       TareaParalelizacion.timeout := o_bien timeout_opt (timeout_tarea (config s));
       TareaParalelizacion.retries := o_bien retries_opt (max_retries (config s));
       TareaParalelizacion.dependencias := deps; TareaParalelizacion.metadata := meta;
       TareaParalelizacion.timestamp_creacion := ahora;
       TareaParalelizacion.timestamp_inicio := None;
       TareaParalelizacion.timestamp_finalizacion := None;
       TareaParalelizacion.estado := PENDIENTE; TareaParalelizacion.resultado := PyNone;
       TareaParalelizacion.error := None |}).
  set (q := queue_inteligente s) in *.
  set (q1 :=
    {| QueueInteligente.max_size := QueueInteligente.max_size q;
       QueueInteligente.tareas :=
         <[tid := TareaParalelizacion.con_estado EN_COLA tarea0]> (QueueInteligente.tareas q);
       QueueInteligente.cola_prioridad :=
         QueueInteligente.con_cola p [(- ahora, tid)] (QueueInteligente.cola_prioridad q) |}).
  destruct (CacheMultinivel.get ahora (cache_key tid) (cache s)) as [rc c] eqn:Eg.
  simpl in Hmiss. subst rc.
  assert (Hr : r = (Some tid, TareaParalelizacion.con_estado EN_COLA tarea0,
                    {| config := config s; cache := c; queue_inteligente := q1;
                       metricas_sistema :=
                         {| tareas_totales := tareas_totales (metricas_sistema s) + 1;
                            tareas_pendientes := tareas_pendientes (metricas_sistema s) + 1;
                            tareas_en_proceso := tareas_en_proceso (metricas_sistema s);
                            tareas_completadas := tareas_completadas (metricas_sistema s);
                            tareas_fallidas := tareas_fallidas (metricas_sistema s) |};
                       ejecutadas := ejecutadas s |})).
  { subst r. unfold submit_tarea. rewrite Eg. cbn [es_none negb].
    unfold QueueInteligente.agregar_tarea. cbn [queue_inteligente con_cache].
    fold q. rewrite Hsitio. subst q1. cbn. fold q. rewrite (Hvacia p). reflexivity. }
  assert (Hobt : QueueInteligente.obtener_tarea ahora' q1 =
            (Some (TareaParalelizacion.con_inicio ahora'
                     (TareaParalelizacion.con_estado EN_PROCESO
                        (TareaParalelizacion.con_estado EN_COLA tarea0))),
             {| QueueInteligente.max_size := QueueInteligente.max_size q1;
                QueueInteligente.tareas :=
                  <[tid := TareaParalelizacion.con_inicio ahora'
                             (TareaParalelizacion.con_estado EN_PROCESO
                                (TareaParalelizacion.con_estado EN_COLA tarea0))]>
                    (QueueInteligente.tareas q1);
                QueueInteligente.cola_prioridad :=
                  QueueInteligente.con_cola p [] (QueueInteligente.cola_prioridad q1) |})).
  { apply (obtener_tarea_toma_la_primera p ahora' (- ahora) tid []).
    - intros p' Hp'. subst q1. cbn [QueueInteligente.cola_prioridad].
      rewrite cola_de_con_cola. destruct (decide (p' = p)) as [->|]; [lia | apply Hvacia].
    - subst q1. cbn [QueueInteligente.cola_prioridad].
      by rewrite cola_de_con_cola, decide_True.
    - subst q1. cbn [QueueInteligente.tareas]. by rewrite lookup_insert_eq. }
  subst s'. rewrite Hr. cbn [fst snd]. unfold despachar. cbn [queue_inteligente].
  rewrite Hobt. unfold _procesar_tarea_en_worker.
  cbn [TareaParalelizacion.funcion TareaParalelizacion.args TareaParalelizacion.kwargs
       TareaParalelizacion.con_inicio TareaParalelizacion.con_estado tarea0
       TareaParalelizacion.id].
  rewrite Hf. cbn [queue_inteligente cache ejecutadas config metricas_sistema
                   QueueInteligente.tareas QueueInteligente.cola_prioridad
                   QueueInteligente.max_size].
  unfold QueueInteligente.estado_de. cbn [QueueInteligente.tareas].
  rewrite lookup_alter_eq, lookup_insert_eq. cbn.
  split; [done|]. split; [done|]. split; [done|]. split; [done|]. split; [done|].
  split; [done|]. split.
  { intros p'. subst q1. cbn [QueueInteligente.cola_prioridad].
    rewrite !cola_de_con_cola. destruct (decide (p' = p)); [done | apply Hvacia]. }
  split; [done|]. split; [done|].
  eexists. subst q1. cbn [QueueInteligente.tareas].
  rewrite alter_insert_eq, !insert_insert_eq. reflexivity.
Qed.


(** X20. A submission that the cache cannot answer and the queue
    accepts, followed by one dispatch on a queue with no other task
    waiting, completes the task: the call returns the id with the task
    queued; after the dispatch the task is COMPLETADA and carries the
    value its work function returned, the function has run exactly once
    more, the value is stored in the cache under the task's key, and all
    buckets are empty again. *)
Theorem submit_y_despacho_completan (ahora ahora' : Z) (tid worker_id : string)
    (f : Callable) (argumentos : list objeto) (p : PrioridadTarea) (w : TipoWorker)
    (timeout_opt retries_opt : option Z) (deps : list string)
    (meta kw : list (string * objeto)) (o : objeto) s :
  (forall p', QueueInteligente.cola_de p'
                (QueueInteligente.cola_prioridad (queue_inteligente s)) = []) ->
  fst (CacheMultinivel.get ahora (cache_key tid) (cache s)) = PyNone ->
  (0 <? QueueInteligente.max_size (queue_inteligente s)) &&
  (QueueInteligente.max_size (queue_inteligente s) <=?
     Z.of_nat (size (QueueInteligente.tareas (queue_inteligente s)))) = false ->
  f argumentos kw = Retorna o ->
  let r := submit_tarea ahora tid f argumentos p w timeout_opt retries_opt deps meta kw s in
  let s' := despachar ahora' worker_id (snd r) in
  fst (fst r) = Some tid /\
  TareaParalelizacion.estado (snd (fst r)) = EN_COLA /\
  QueueInteligente.estado_de tid (queue_inteligente s') = Some COMPLETADA /\
  TareaParalelizacion.resultado <$> QueueInteligente.tareas (queue_inteligente s') !! tid
    = Some o /\
  ejecutadas s' = ejecutadas s ++ [tid] /\
  cache s' =
    snd (CacheMultinivel.put ahora' (cache_key tid) o JSON 100 5
           (snd (CacheMultinivel.get ahora (cache_key tid) (cache s)))) /\
  (forall p', QueueInteligente.cola_de p'
                (QueueInteligente.cola_prioridad (queue_inteligente s')) = []).
Proof.
  intros Hvacia Hmiss Hsitio Hf r s'.
  destruct (submit_y_despacho_forma ahora ahora' tid worker_id f argumentos p w
              timeout_opt retries_opt deps meta kw o s Hvacia Hmiss Hsitio Hf)
    as (H1 & H2 & H3 & H4 & H5 & H6 & H7 & _).
  by repeat split.
Qed.

(** X21. A rejected submission: [submit_tarea] raises exactly when the
    cache returns [None] for the task's key and the queue is full, that
    is, when [get] answers [None] and the task table has reached a
    positive [max_size]. The failed call leaves the queue, the counters
    and the execution trace as they were; only the cache has served the
    look-up. *)
Theorem submit_tarea_rechazada (ahora : Z) (tid : string)
    (f : Callable) (argumentos : list objeto) (p : PrioridadTarea) (w : TipoWorker)
    (timeout_opt retries_opt : option Z) (deps : list string)
    (meta kw : list (string * objeto)) s :
  let r := submit_tarea ahora tid f argumentos p w timeout_opt retries_opt deps meta kw s in
  (fst (fst r) = None <->
   fst (CacheMultinivel.get ahora (cache_key tid) (cache s)) = PyNone /\
   0 < QueueInteligente.max_size (queue_inteligente s) /\
   QueueInteligente.max_size (queue_inteligente s) <=
     Z.of_nat (size (QueueInteligente.tareas (queue_inteligente s)))) /\
  (fst (fst r) = None ->
   queue_inteligente (snd r) = queue_inteligente s /\
   metricas_sistema (snd r) = metricas_sistema s /\
   ejecutadas (snd r) = ejecutadas s /\
   cache (snd r) = snd (CacheMultinivel.get ahora (cache_key tid) (cache s))) /\
  (fst (fst r) <> None -> fst (fst r) = Some tid).
Proof.
  intros r. subst r. unfold submit_tarea.
  destruct (CacheMultinivel.get ahora (cache_key tid) (cache s)) as [rc c] eqn:Eg.
  cbn [fst snd].
  destruct (es_none rc) eqn:En; cbn [negb].
  - assert (rc = PyNone) by (by destruct rc). subst rc.
    unfold QueueInteligente.agregar_tarea. cbn [queue_inteligente con_cache].
    destruct (0 <? QueueInteligente.max_size (queue_inteligente s)) eqn:E0;
      destruct (QueueInteligente.max_size (queue_inteligente s) <=?
                  Z.of_nat (size (QueueInteligente.tareas (queue_inteligente s)))) eqn:E1;
      cbn [andb fst snd].
    + apply Z.ltb_lt in E0. apply Z.leb_le in E1. by repeat split.
    + apply Z.leb_gt in E1. split; [split; [done | intros (_ & _ & ?); lia]|]. by split.
    + apply Z.ltb_ge in E0. split; [split; [done | intros (_ & ? & _); lia]|]. by split.
    + apply Z.ltb_ge in E0. split; [split; [done | intros (_ & ? & _); lia]|]. by split.
  - split; [split; [done | intros (-> & _); done]|]. by split.
Qed.
(** C1, failing input. The same function with the same arguments is
    submitted twice to a new scheduler, the second time after the first
    task was dispatched and completed, at two different readings of the
    clock (whatever the two hash values are, equal or not). The first
    task is COMPLETADA, its result is stored in the cache and the
    function has run once. The second call looks up the key of its own,
    new id, which differs from the key the result was stored under: the
    look-up misses, the call returns a task that is queued, not
    completed, and the next dispatch runs the function a second time.
    This holds for every result, serialisable or not. *)
Theorem memoizacion_nunca_acierta
    (cfg : ConfiguracionParalelizacion) (l1_capacidad l2_capacidad : Z)
    (compresion limpieza : bool)
    (f : Callable) (argumentos : list objeto) (kw : list (string * objeto))
    (p : PrioridadTarea) (w : TipoWorker) (timeout_opt retries_opt : option Z)
    (deps : list string) (meta : list (string * objeto))
    (h1 h2 reloj1 reloj2 ahora1 ahora2 ahora3 ahora4 : Z) (worker1 worker2 : string)
    (o : objeto) :
  f argumentos kw = Retorna o ->
  reloj1 <> reloj2 ->
  tamano_maximo_cola cfg <> 1 ->
  let s0 := nuevo cfg (CacheMultinivel.nuevo l1_capacidad l2_capacidad compresion limpieza) in
  let r1 := submit_tarea_con_reloj reloj1 h1 ahora1 f argumentos p w
              timeout_opt retries_opt deps meta kw s0 in
  let s1 := despachar ahora2 worker1 (snd r1) in
  let r2 := submit_tarea_con_reloj reloj2 h2 ahora3 f argumentos p w
              timeout_opt retries_opt deps meta kw s1 in
  let s2 := despachar ahora4 worker2 (snd r2) in
  let id1 := generar_tarea_id reloj1 h1 in
  let id2 := generar_tarea_id reloj2 h2 in
  fst (fst r1) = Some id1 /\
  QueueInteligente.estado_de id1 (queue_inteligente s1) = Some COMPLETADA /\
  TareaParalelizacion.resultado <$> QueueInteligente.tareas (queue_inteligente s1) !! id1
    = Some o /\
  ejecutadas s1 = [id1] /\
  cache s1 =
    snd (CacheMultinivel.put ahora2 (cache_key id1) o JSON 100 5
           (snd (CacheMultinivel.get ahora1 (cache_key id1) (cache s0)))) /\
  cache_key id2 <> cache_key id1 /\
  fst (CacheMultinivel.get ahora3 (cache_key id2) (cache s1)) = PyNone /\
  fst (fst r2) = Some id2 /\
  TareaParalelizacion.estado (snd (fst r2)) = EN_COLA /\
  ejecutadas (snd r2) = [id1] /\
  ejecutadas s2 = [id1; id2].
Proof.
  intros Hf Hreloj Hmax s0 r1 s1 r2 s2 id1 id2.
  unfold submit_tarea_con_reloj in r1, r2. fold id1 in r1. fold id2 in r2.
  assert (Hclave : cache_key id2 <> cache_key id1).
  { intros H. apply cache_key_inj, generar_tarea_id_inj in H. congruence. }
  assert (Hg0 : forall ahora k,
            CacheMultinivel.get ahora k (cache s0) =
              (PyNone, CacheMultinivel.con_estadisticas
                         (CacheMultinivel.mas_miss (CacheMultinivel.estadisticas (cache s0)))
                         (cache s0))).
  { intros ahora k. by apply get_ausente. }
  destruct (submit_y_despacho_forma ahora1 ahora2 id1 worker1 f argumentos p w
              timeout_opt retries_opt deps meta kw o s0)
    as (A1 & A2 & A3 & A4 & A5 & A6 & A7 & A8 & A9 & final & A10).
  { by intros []. }
  { by rewrite Hg0. }
  { cbn. rewrite map_size_empty. apply andb_false_iff.
    destruct (0 <? tamano_maximo_cola cfg) eqn:E; [right | by left].
    apply Z.ltb_lt in E. apply Z.leb_gt. lia. }
  { exact Hf. }
  fold r1 in A1, A2, A8. fold id1 in A1. cbv zeta in A3, A4, A5, A6, A7, A9, A10.
  fold r1 s1 in A3, A4, A5, A6, A7, A9, A10.
  assert (Hmiss : fst (CacheMultinivel.get ahora3 (cache_key id2) (cache s1)) = PyNone).
  { rewrite A6, Hg0.
    destruct (put_otra_clave ahora2 (cache_key id1) (cache_key id2) o JSON 100 5
                (CacheMultinivel.con_estadisticas
                   (CacheMultinivel.mas_miss (CacheMultinivel.estadisticas (cache s0)))
                   (cache s0)) Hclave eq_refl eq_refl) as [H1 H2].
    cbn [snd]. by rewrite (get_ausente _ _ _ H1 H2). }
  destruct (submit_y_despacho_forma ahora3 ahora4 id2 worker2 f argumentos p w
              timeout_opt retries_opt deps meta kw o s1)
    as (B1 & B2 & B3 & B4 & B5 & B6 & B7 & B8 & _).
  { exact A7. }
  { exact Hmiss. }
  { rewrite A9, A10. cbn [queue_inteligente nuevo QueueInteligente.nuevo
                           QueueInteligente.max_size QueueInteligente.tareas s0].
    rewrite map_size_insert_None by apply lookup_empty. rewrite map_size_empty.
    apply andb_false_iff.
    destruct (0 <? tamano_maximo_cola cfg) eqn:E; [right | by left].
    apply Z.ltb_lt in E. apply Z.leb_gt. lia. }
  { exact Hf. }
  fold r2 in B1, B2, B8. cbv zeta in B5. fold r2 s2 in B5.
  rewrite A5 in B5, B8. cbn [ejecutadas s0 nuevo app] in B5, B8, A5.
  repeat split; try done.
Qed.
End SubmitDespacho.

Lemma submit_y_despacho_completan_testigo :
  QueueInteligente.estado_de "t1"
    (SistemaParalelizacion.queue_inteligente (sistema_tras_primera f_uno)) = Some COMPLETADA /\
  SistemaParalelizacion.ejecutadas (sistema_tras_primera f_uno) = ["t1"%string].
Proof.
  destruct (submit_y_despacho_completan (B := Modelo.bibliotecas) 1 2 "t1" "w0" f_uno []
              NORMAL GENERAL None None [] [] [] (PyInt 1) sistema_ej
              ltac:(by intros []) eq_refl eq_refl eq_refl)
    as (_ & _ & H3 & _ & H5 & _).
  split; [exact H3 | exact H5].
Defined.

Lemma memoizacion_nunca_acierta_testigo :
  QueueInteligente.estado_de "tarea_1000000_7"
    (SistemaParalelizacion.queue_inteligente
       (SistemaParalelizacion.despachar (B := Modelo.bibliotecas) 2 "w0"
          (snd (SistemaParalelizacion.submit_tarea_con_reloj (B := Modelo.bibliotecas)
                  1000000 7 1 f_uno [] NORMAL GENERAL None None [] [] [] sistema_ej))))
    = Some COMPLETADA /\
  TareaParalelizacion.estado
    (snd (fst (SistemaParalelizacion.submit_tarea_con_reloj (B := Modelo.bibliotecas)
                 2000000 7 3 f_uno [] NORMAL GENERAL None None [] [] []
                 (SistemaParalelizacion.despachar (B := Modelo.bibliotecas) 2 "w0"
                    (snd (SistemaParalelizacion.submit_tarea_con_reloj
                            (B := Modelo.bibliotecas)
                            1000000 7 1 f_uno [] NORMAL GENERAL None None [] [] []
                            sistema_ej))))))
    = EN_COLA /\
  SistemaParalelizacion.ejecutadas
    (SistemaParalelizacion.despachar (B := Modelo.bibliotecas) 4 "w1"
       (snd (SistemaParalelizacion.submit_tarea_con_reloj (B := Modelo.bibliotecas)
               2000000 7 3 f_uno [] NORMAL GENERAL None None [] [] []
               (SistemaParalelizacion.despachar (B := Modelo.bibliotecas) 2 "w0"
                  (snd (SistemaParalelizacion.submit_tarea_con_reloj
                          (B := Modelo.bibliotecas)
                          1000000 7 1 f_uno [] NORMAL GENERAL None None [] [] []
                          sistema_ej))))))
    = ["tarea_1000000_7"; "tarea_2000000_7"]%string.
Proof.
  pose proof (memoizacion_nunca_acierta (B := Modelo.bibliotecas) config_ej 1000 10000 true true
                f_uno [] [] NORMAL GENERAL None None [] [] 7 7 1000000 2000000 1 2 3 4
                "w0" "w1" (PyInt 1) eq_refl ltac:(lia) ltac:(discriminate)) as H.
  cbv zeta in H. destruct H as (_ & H2 & _ & _ & _ & _ & _ & _ & H9 & _ & H11).
  split; [exact H2|]. split; [exact H9 | exact H11].
Defined.
